(** * rwa-chatbot-api: the ingestion, normalisation, storage and search core

    A shallow embedding of the Python sources
      - src/tableau/normalize.py, src/tableau/enhanced_client.py  (normaliser)
      - src/tableau/quality_checks.py                             (quality gate, pagination)
      - src/tableau/client.py                                     (REST client)
      - src/database/store.py, src/search/embed.py                (store, embedding selection)
      - src/search/semantic_search.py                             (hybrid search)
      - index_site.py                                             (indexing run)
    followed by the properties established about them.

    Conventions.  Python values of type [Any] are modelled by [PyVal]; a Python
    call that may raise returns a [Result]; text is a Rocq [string] over the
    alphabet of code points described in [Text]. *)

From Stdlib Require Import List String Ascii Bool Arith ZArith QArith Lia.
From Stdlib Require Import DecimalString.
From Stdlib Require Import Permutation Sorted.
Import ListNotations.
Local Open Scope string_scope.
Local Open Scope list_scope.
Local Open Scope nat_scope.

Set Implicit Arguments.
Set Warnings "-register-all".

(* ================================================================== *)
(** ** Python values, exceptions and the dictionary protocol *)
(* ================================================================== *)

(** The payloads handled by the pipeline are what [TableauClient._xml_to_dict]
    and [dict.get] produce ([None], strings, lists and string-keyed dicts),
    together with the integers and booleans the normaliser adds. *)
Inductive PyVal : Type :=
| PNone
| PBool (b : bool)
| PInt (n : Z)
| PStr (s : string)
| PList (l : list PyVal)
| PDict (d : list (string * PyVal)).

Inductive exn : Type :=
| AttributeError
| TypeError
| ValueError (msg : string)
| ConnectionError
| RequestException
| ApiError
| DBError
| ModelError.

Inductive Result (A : Type) : Type :=
| Ok (a : A)
| Raise (e : exn).
Arguments Ok {A} a.
Arguments Raise {A} e.

Definition bind {A B} (m : Result A) (k : A -> Result B) : Result B :=
  match m with
  | Ok a => k a
  | Raise e => Raise e
  end.

Notation "x <- m ;; k" := (bind m (fun x => k))
  (at level 61, m at next level, right associativity).

(** [try: m except Exception: h] *)
Definition try_except {A} (m : Result A) (h : exn -> Result A) : Result A :=
  match m with
  | Ok a => Ok a
  | Raise e => h e
  end.

Definition is_ok {A} (m : Result A) : bool :=
  match m with Ok _ => true | Raise _ => false end.

Fixpoint mapM {A B} (f : A -> Result B) (l : list A) : Result (list B) :=
  match l with
  | [] => Ok []
  | a :: l' => b <- f a ;; bs <- mapM f l' ;; Ok (b :: bs)
  end.

Module Py.

(** Truth value of an object ([bool(v)]). *)
Definition truthy (v : PyVal) : bool :=
  match v with
  | PNone => false
  | PBool b => b
  | PInt n => negb (Z.eqb n 0)
  | PStr s => negb (String.eqb s "")
  | PList l => match l with [] => false | _ => true end
  | PDict d => match d with [] => false | _ => true end
  end.

(** [a or b] *)
Definition or_ (a b : PyVal) : PyVal := if truthy a then a else b.

Fixpoint assoc (k : string) (d : list (string * PyVal)) : option PyVal :=
  match d with
  | [] => None
  | (k', v) :: d' => if String.eqb k k' then Some v else assoc k d'
  end.

(** [d.get(k, default)]; objects other than dicts have no [get]. *)
Definition get (v : PyVal) (k : string) (default : PyVal) : Result PyVal :=
  match v with
  | PDict d => Ok (match assoc k d with Some x => x | None => default end)
  | _ => Raise AttributeError
  end.

Definition isinstance_dict (v : PyVal) : bool :=
  match v with PDict _ => true | _ => false end.

Fixpoint chars (s : string) : list PyVal :=
  match s with
  | EmptyString => []
  | String c s' => PStr (String c EmptyString) :: chars s'
  end.

(** [iter(v)]: lists yield their items, dicts their keys, strings their
    characters; [None], booleans and integers are not iterable. *)
Definition iter (v : PyVal) : Result (list PyVal) :=
  match v with
  | PNone | PBool _ | PInt _ => Raise TypeError
  | PStr s => Ok (chars s)
  | PList l => Ok l
  | PDict d => Ok (map (fun kv => PStr (fst kv)) d)
  end.

Definition as_str (v : PyVal) : Result string :=
  match v with
  | PStr s => Ok s
  | _ => Raise TypeError
  end.

(** [sep.join(v)] *)
Definition join (sep : string) (v : PyVal) : Result string :=
  items <- iter v ;;
  strs <- mapM as_str items ;;
  Ok (String.concat sep strs).

(** [v == s] for a string [s] *)
Definition eq_str (v : PyVal) (s : string) : bool :=
  match v with
  | PStr s' => String.eqb s' s
  | _ => false
  end.

Definition str_of_nat (n : nat) : string :=
  NilZero.string_of_uint (Nat.to_uint n).

(** [str(v)], as f-strings apply it.  The text Python prints for a list or
    a dict is supplied by [repr]. *)
Definition str_ (repr : PyVal -> string) (v : PyVal) : string :=
  match v with
  | PNone => "None"
  | PBool true => "True"
  | PBool false => "False"
  | PInt n => NilZero.string_of_int (Z.to_int n)
  | PStr s => s
  | _ => repr v
  end.

End Py.

(** A record is a Python dict with string keys. *)
Definition Rec : Type := list (string * PyVal).

(** [record.get(k)] *)
Definition rget (r : Rec) (k : string) : PyVal :=
  match Py.assoc k r with Some v => v | None => PNone end.

(** [record.get(k, default)] *)
Definition rget_d (r : Rec) (k : string) (default : PyVal) : PyVal :=
  match Py.assoc k r with Some v => v | None => default end.

(* ================================================================== *)
(** ** Text primitives: [str.strip], [str.lower], [re.sub(r"\s+", " ", _)] *)
(* ================================================================== *)

Module Text.

(** The characters of a Python string are Unicode code points.  The model
    keeps an alphabet of 256 of them: the character with number [n] stands
    for the code point U+00n, except number 128, which stands for U+03D2
    (GREEK UPSILON WITH HOOK SYMBOL) in place of the control character
    U+0080.  U+03D2 is one of the 549 code points that [str.isupper] calls
    upper-case and [str.lower] leaves as they are, so the alphabet holds a
    character of every kind the case functions distinguish; on every string
    over it the functions below are those of Python. *)
Definition code (c : ascii) : nat := nat_of_ascii c.

Definition upsilon_hook : ascii := "128"%char.

(** [str.isspace] and the regular expression class [\s] agree; on the
    alphabet they hold of TAB..CR, FS..US, SPACE, NEL and NBSP. *)
Definition isspace (c : ascii) : bool :=
  let n := code c in
  ((9 <=? n) && (n <=? 13)) || ((28 <=? n) && (n <=? 32))
  || (n =? 133) || (n =? 160).

(** The letters that have a lower-case form: A..Z and the upper-case
    letters of U+00C0..U+00DE; the form is 32 places further. *)
Definition has_lower (c : ascii) : bool :=
  let n := code c in
  ((65 <=? n) && (n <=? 90)) || ((192 <=? n) && (n <=? 214))
  || ((216 <=? n) && (n <=? 222)).

(** The regular expression class [\w]: digits, letters, the underscore
    and the numeric characters of U+00B2..U+00BE; U+03D2 is a letter. *)
Definition isword (c : ascii) : bool :=
  let n := code c in
  ((48 <=? n) && (n <=? 57)) || ((65 <=? n) && (n <=? 90)) || (n =? 95)
  || ((97 <=? n) && (n <=? 122)) || (n =? 128) || (n =? 170)
  || ((178 <=? n) && (n <=? 179)) || (n =? 181)
  || ((185 <=? n) && (n <=? 186)) || ((188 <=? n) && (n <=? 190))
  || ((192 <=? n) && (n <=? 214)) || ((216 <=? n) && (n <=? 246))
  || ((248 <=? n) && (n <=? 255)).

(** [c.isupper()]: the letters above, and U+03D2. *)
Definition isupper (c : ascii) : bool :=
  has_lower c || Ascii.eqb c upsilon_hook.

(** [c.lower()] *)
Definition lower_char (c : ascii) : ascii :=
  if has_lower c then ascii_of_nat (code c + 32) else c.

Fixpoint lower (s : string) : string :=
  match s with
  | EmptyString => EmptyString
  | String c s' => String (lower_char c) (lower s')
  end.

Fixpoint lstrip (s : string) : string :=
  match s with
  | EmptyString => EmptyString
  | String c s' => if isspace c then lstrip s' else s
  end.

Fixpoint rstrip (s : string) : string :=
  match s with
  | EmptyString => EmptyString
  | String c s' =>
      match rstrip s' with
      | EmptyString => if isspace c then EmptyString else String c EmptyString
      | r => String c r
      end
  end.

Definition strip (s : string) : string := rstrip (lstrip s).

(** [re.sub(r"\s+", " ", s)]: every maximal run of whitespace becomes one
    space.  [in_run] records that the previous character was whitespace. *)
Fixpoint sub_ws (in_run : bool) (s : string) : string :=
  match s with
  | EmptyString => EmptyString
  | String c s' =>
      if isspace c
      then if in_run then sub_ws true s' else String " " (sub_ws true s')
      else String c (sub_ws false s')
  end.

Definition collapse_whitespace (s : string) : string := sub_ws false s.

(** [s.startswith(p)] *)
Definition startswith (s p : string) : bool := String.prefix p s.

(** Whether the string holds U+0000, which the database driver refuses to
    write into a statement. *)
Fixpoint has_nul (s : string) : bool :=
  match s with
  | EmptyString => false
  | String c s' => Ascii.eqb c "000"%char || has_nul s'
  end.

Definition slash : ascii := "/"%char.

(** [s.rstrip("/")] *)
Fixpoint rstrip_slash (s : string) : string :=
  match s with
  | EmptyString => EmptyString
  | String c s' =>
      match rstrip_slash s' with
      | EmptyString => if Ascii.eqb c slash then EmptyString else String c EmptyString
      | r => String c r
      end
  end.

(** No two adjacent whitespace characters. *)
Fixpoint no_ws_run (s : string) : bool :=
  match s with
  | EmptyString => true
  | String c s' =>
      match s' with
      | EmptyString => true
      | String c' _ => negb (isspace c && isspace c') && no_ws_run s'
      end
  end.

(** No upper-case letter. *)
Fixpoint no_upper (s : string) : bool :=
  match s with
  | EmptyString => true
  | String c s' => negb (isupper c) && no_upper s'
  end.

(** No character that [str.lower] would change. *)
Fixpoint lowered (s : string) : bool :=
  match s with
  | EmptyString => true
  | String c s' => Ascii.eqb (lower_char c) c && lowered s'
  end.

(** [s.split()]: the maximal runs of non-whitespace characters. *)
Fixpoint fields (s : string) : list string :=
  match s with
  | EmptyString => [EmptyString]
  | String c s' =>
      if isspace c then EmptyString :: fields s'
      else match fields s' with
           | [] => [String c EmptyString]
           | w :: ws => String c w :: ws
           end
  end.

Definition nonempty (s : string) : bool := negb (String.eqb s "").

Definition words (s : string) : list string := filter nonempty (fields s).

(** The first field of a text and the fields after it. *)
Definition head_field (s : string) : string := hd EmptyString (fields s).
Definition tail_fields (s : string) : list string := tl (fields s).

Definition starts_ws (s : string) : bool :=
  match s with
  | EmptyString => false
  | String c _ => isspace c
  end.

Fixpoint all_ws (s : string) : bool :=
  match s with
  | EmptyString => true
  | String c s' => isspace c && all_ws s'
  end.

End Text.

(* ================================================================== *)
(** ** Normaliser: src/tableau/normalize.py and enhanced_client.py *)
(* ================================================================== *)

Module Normalize.

(** [[p.strip() for p in parts if p]] *)
Fixpoint strip_truthy (parts : list PyVal) : Result (list string) :=
  match parts with
  | [] => Ok []
  | p :: ps =>
      if Py.truthy p then
        match p with
        | PStr s => rest <- strip_truthy ps ;; Ok (Text.strip s :: rest)
        | _ => Raise AttributeError
        end
      else strip_truthy ps
  end.

(** The common tail of [to_text_blob] and [_create_text_blob]. *)
Definition blob_of_parts (parts : list PyVal) : Result string :=
  stripped <- strip_truthy parts ;;
  let text := String.concat (String " " (String "010" (String " " EmptyString))) stripped in
  let text := Text.collapse_whitespace text in
  Ok (Text.lower text).

(** normalize.py, [to_text_blob] *)
Definition to_text_blob (title desc tags fields project owner additional_text : PyVal)
  : Result string :=
  jt <- Py.join " " (Py.or_ tags (PList [])) ;;
  jf <- Py.join " " (Py.or_ fields (PList [])) ;;
  blob_of_parts
    [ Py.or_ title (PStr ""); Py.or_ desc (PStr ""); PStr jt; PStr jf;
      Py.or_ project (PStr ""); Py.or_ owner (PStr "");
      Py.or_ additional_text (PStr "") ].

(** enhanced_client.py, [EnhancedTableauClient._create_text_blob] *)
Definition _create_text_blob (title description tags fields project owner : PyVal)
  : Result string :=
  jt <- Py.join " " (Py.or_ tags (PList [])) ;;
  jf <- Py.join " " (Py.or_ fields (PList [])) ;;
  blob_of_parts
    [ Py.or_ title (PStr ""); Py.or_ description (PStr ""); PStr jt; PStr jf;
      Py.or_ project (PStr ""); Py.or_ owner (PStr "") ].

Section Builders.

Variable repr : PyVal -> string.

(** normalize.py, [build_workbook_record] *)
Definition build_workbook_record (site_id : string) (workbook : PyVal) : Result Rec :=
  title <- Py.get workbook "name" (PStr "") ;;
  d <- Py.get workbook "description" PNone ;;
  let desc := Py.or_ d (PStr "") in
  tg <- Py.get workbook "tags" PNone ;;
  tag_items <- Py.iter (Py.or_ tg (PList [])) ;;
  tags <- mapM (fun t => Py.get t "name" (PStr "")) tag_items ;;
  project <- Py.get workbook "projectName" (PStr "") ;;
  ow <- Py.get workbook "owner" PNone ;;
  owner <- Py.get (Py.or_ ow (PDict [])) "name" (PStr "") ;;
  content_url <- Py.get workbook "contentUrl" (PStr "") ;;
  let additional_text := ("workbook " ++ Py.str_ repr title)%string in
  oid <- Py.get workbook "id" (PStr "") ;;
  blob <- to_text_blob title desc (PList tags) (PList []) project owner
            (PStr additional_text) ;;
  Ok [ ("site_id", PStr site_id); ("object_type", PStr "workbook");
       ("object_id", oid); ("title", title); ("description", desc);
       ("tags", PList tags); ("fields", PList []);
       ("project_name", project); ("owner", owner); ("url", content_url);
       ("text_blob", PStr blob) ].

(** The field loop of [build_datasource_record]: names and details of the
    fields whose name is truthy. *)
Fixpoint datasource_fields (items : list PyVal) : Result (list PyVal * list PyVal) :=
  match items with
  | [] => Ok ([], [])
  | field :: rest =>
      field_name <- Py.get field "name" (PStr "") ;;
      if Py.truthy field_name then
        fd <- Py.get field "description" (PStr "") ;;
        ft <- Py.get field "dataType" (PStr "") ;;
        fn <- Py.get field "isNullable" (PBool false) ;;
        r <- datasource_fields rest ;;
        Ok (field_name :: fst r,
            PDict [ ("name", field_name); ("description", fd);
                    ("data_type", ft); ("is_nullable", fn) ] :: snd r)
      else datasource_fields rest
  end.

(** normalize.py, [build_datasource_record] *)
Definition build_datasource_record (site_id : string) (datasource : PyVal) : Result Rec :=
  title <- Py.get datasource "name" (PStr "") ;;
  d <- Py.get datasource "description" PNone ;;
  let desc := Py.or_ d (PStr "") in
  tg <- Py.get datasource "tags" PNone ;;
  tag_items <- Py.iter (Py.or_ tg (PList [])) ;;
  tags <- mapM (fun t => Py.get t "name" (PStr "")) tag_items ;;
  project <- Py.get datasource "projectName" (PStr "") ;;
  ow <- Py.get datasource "owner" PNone ;;
  owner <- Py.get (Py.or_ ow (PDict [])) "name" (PStr "") ;;
  content_url <- Py.get datasource "contentUrl" (PStr "") ;;
  fl <- Py.get datasource "fields" (PList []) ;;
  field_items <- Py.iter fl ;;
  fr <- datasource_fields field_items ;;
  let fields := fst fr in
  let field_details := snd fr in
  let additional_text :=
    ("datasource " ++ Py.str_ repr title ++ " with "
      ++ Py.str_of_nat (List.length fields) ++ " fields")%string in
  oid <- Py.get datasource "id" (PStr "") ;;
  blob <- to_text_blob title desc (PList tags) (PList fields) project owner
            (PStr additional_text) ;;
  Ok [ ("site_id", PStr site_id); ("object_type", PStr "datasource");
       ("object_id", oid); ("title", title); ("description", desc);
       ("tags", PList tags); ("fields", PList fields);
       ("project_name", project); ("owner", owner); ("url", content_url);
       ("text_blob", PStr blob); ("field_details", PList field_details) ].

(** Inner loop of [build_view_record]: the truthy field names of one
    datasource group. *)
Fixpoint view_group_fields (items : list PyVal) : Result (list PyVal) :=
  match items with
  | [] => Ok []
  | field :: rest =>
      field_name <- Py.get field "name" (PStr "") ;;
      r <- view_group_fields rest ;;
      Ok (if Py.truthy field_name then field_name :: r else r)
  end.

(** Outer loop of [build_view_record]: all field names, and the
    datasource descriptions of the groups whose name is truthy. *)
Fixpoint view_groups (groups : list PyVal) : Result (list PyVal * list PyVal) :=
  match groups with
  | [] => Ok ([], [])
  | ds_group :: rest =>
      ds_name <- Py.get ds_group "name" (PStr "") ;;
      fl <- Py.get ds_group "fields" (PList []) ;;
      items <- Py.iter fl ;;
      ds_fields <- view_group_fields items ;;
      r <- view_groups rest ;;
      Ok (ds_fields ++ fst r,
          if Py.truthy ds_name
          then PDict [ ("name", ds_name); ("fields", PList ds_fields) ] :: snd r
          else snd r)
  end.

(** normalize.py, [build_view_record] *)
Definition build_view_record (site_id : string) (view : PyVal) : Result Rec :=
  title <- Py.get view "name" (PStr "") ;;
  d <- Py.get view "description" PNone ;;
  let desc := Py.or_ d (PStr "") in
  tg <- Py.get view "tags" PNone ;;
  tag_items <- Py.iter (Py.or_ tg (PList [])) ;;
  tags <- mapM (fun t => Py.get t "name" (PStr "")) tag_items ;;
  workbook <- Py.get view "workbook" (PDict []) ;;
  project <- Py.get workbook "projectName" (PStr "") ;;
  workbook_name <- Py.get workbook "name" (PStr "") ;;
  ow <- Py.get view "owner" PNone ;;
  owner <- Py.get (Py.or_ ow (PDict [])) "name" (PStr "") ;;
  fg <- Py.get view "datasourceFields" PNone ;;
  groups <- Py.iter (Py.or_ fg (PList [])) ;;
  gr <- view_groups groups ;;
  let fields := fst gr in
  let datasource_info := snd gr in
  content_url <- Py.get view "contentUrl" (PStr "") ;;
  sheet_type <- Py.get view "sheetType" (PStr "") ;;
  let additional_text :=
    ("view " ++ Py.str_ repr title ++ " in workbook " ++ Py.str_ repr workbook_name
      ++ " type " ++ Py.str_ repr sheet_type)%string in
  oid <- Py.get view "id" (PStr "") ;;
  blob <- to_text_blob title desc (PList tags) (PList fields) project owner
            (PStr additional_text) ;;
  Ok [ ("site_id", PStr site_id); ("object_type", PStr "view");
       ("object_id", oid); ("title", title); ("description", desc);
       ("tags", PList tags); ("fields", PList fields);
       ("project_name", project); ("owner", owner); ("url", content_url);
       ("text_blob", PStr blob); ("workbook_name", workbook_name);
       ("sheet_type", sheet_type); ("datasource_info", PList datasource_info) ].

(** [for x in items: try: records.append(build(x)) except Exception: continue] *)
Fixpoint build_each (build : PyVal -> Result Rec) (items : list PyVal) : list Rec :=
  match items with
  | [] => []
  | x :: rest =>
      match build x with
      | Ok r => r :: build_each build rest
      | Raise _ => build_each build rest
      end
  end.

(** normalize.py, [normalize_metadata_records] *)
Definition normalize_metadata_records (site_id : string) (metadata : PyVal)
  : Result (list Rec) :=
  wl <- Py.get metadata "workbooks" (PList []) ;;
  wbs <- Py.iter wl ;;
  let r1 := build_each (build_workbook_record site_id) wbs in
  dl <- Py.get metadata "datasources" (PList []) ;;
  dss <- Py.iter dl ;;
  let r2 := build_each (build_datasource_record site_id) dss in
  vl <- Py.get metadata "views" (PList []) ;;
  vs <- Py.iter vl ;;
  let r3 := build_each (build_view_record site_id) vs in
  Ok (r1 ++ r2 ++ r3).

End Builders.

(** [x.get("tags", {}).get("tag", []) if isinstance(x.get("tags", {}), dict) else []] *)
Definition rest_tags (x : PyVal) : Result PyVal :=
  t <- Py.get x "tags" (PDict []) ;;
  if Py.isinstance_dict t then Py.get t "tag" (PList []) else Ok (PList []).

(** [x.get(k, {}).get(name) if x.get(k) else None] *)
Definition nested_or_none (x : PyVal) (k name : string) : Result PyVal :=
  c <- Py.get x k PNone ;;
  if Py.truthy c
  then inner <- Py.get x k (PDict []) ;; Py.get inner name PNone
  else Ok PNone.

(** The dict literal built for one object in [prepare_objects_for_indexing].
    [parent] and [pname] locate the project name: ["project"]/["name"] for
    workbooks and datasources, ["workbook"]/["projectName"] for views. *)
Definition rest_object (site_id object_type parent pname : string) (priority : Z)
    (x : PyVal) : Result Rec :=
  oid <- Py.get x "id" (PStr "") ;;
  title <- Py.get x "name" (PStr "") ;;
  description <- Py.get x "description" (PStr "") ;;
  tags <- rest_tags x ;;
  project_name <- nested_or_none x parent pname ;;
  owner <- nested_or_none x "owner" "name" ;;
  url <- Py.get x "contentUrl" (PStr "") ;;
  blob <- _create_text_blob title description tags (PList []) project_name owner ;;
  Ok [ ("site_id", PStr site_id); ("object_type", PStr object_type);
       ("object_id", oid); ("title", title); ("description", description);
       ("tags", tags); ("fields", PList []);
       ("project_name", project_name); ("owner", owner); ("url", url);
       ("text_blob", PStr blob); ("search_priority", PInt priority) ].

(** One [for] loop of [prepare_objects_for_indexing].  A failing object is
    skipped after the warning is formatted; formatting calls [x.get('id',
    'unknown')], which itself raises when [x] is not a dict. *)
Fixpoint rest_each (build : PyVal -> Result Rec) (items : list PyVal)
  : Result (list Rec) :=
  match items with
  | [] => Ok []
  | x :: rest =>
      o <- try_except (r <- build x ;; Ok (Some r))
             (fun _ => _ <- Py.get x "id" (PStr "unknown") ;; Ok None) ;;
      rs <- rest_each build rest ;;
      Ok (match o with Some r => r :: rs | None => rs end)
  end.

(** enhanced_client.py, [EnhancedTableauClient.prepare_objects_for_indexing];
    [site_id] is [self.get_site_id()]. *)
Definition prepare_objects_for_indexing (site_id : option string) (metadata : PyVal)
  : Result (list Rec) :=
  match site_id with
  | None | Some EmptyString => Raise (ValueError "No site ID available")
  | Some sid =>
      wl <- Py.get metadata "workbooks" (PList []) ;;
      wbs <- Py.iter wl ;;
      r1 <- rest_each (rest_object sid "workbook" "project" "name" 2) wbs ;;
      dl <- Py.get metadata "datasources" (PList []) ;;
      dss <- Py.iter dl ;;
      r2 <- rest_each (rest_object sid "datasource" "project" "name" 1) dss ;;
      vl <- Py.get metadata "views" (PList []) ;;
      vs <- Py.iter vl ;;
      r3 <- rest_each (rest_object sid "view" "workbook" "projectName" 3) vs ;;
      Ok (r1 ++ r2 ++ r3)
  end.

End Normalize.

(* ================================================================== *)
(** ** Quality gate: src/tableau/quality_checks.py, [QualityChecker] *)
(* ================================================================== *)

Module Quality.

(** The messages appended to [quality_issues] and [warnings] are kept as
    values; the source formats each of them into one string. *)
Inductive Issue : Type :=
| MissingSiteId (i : nat)
| IncorrectSiteId (i : nat) (found : PyVal) (expected : string)
| MissingRequiredField (i : nat) (field : string).

Inductive Warning : Type :=
| ManyWithoutDescription (n total : nat)
| ManyShortDescriptions (n total : nat)
| MalformedUrls (n : nat)
| ManyWithoutDeepLinks (n total : nat)
| EmptyTextBlobs (n : nat)
| ManyShortTextBlobs (n total : nat).

Record QualityChecker : Type := mkChecker {
  site_id : string;
  site_name : string;
  quality_issues : list Issue;
  warnings : list Warning
}.

(** [QualityChecker.__init__] *)
Definition new (site_id site_name : string) : QualityChecker :=
  mkChecker site_id site_name [] [].

Definition add_issues (self : QualityChecker) (l : list Issue) : QualityChecker :=
  mkChecker self.(site_id) self.(site_name) (self.(quality_issues) ++ l) self.(warnings).

Definition add_warnings (self : QualityChecker) (l : list Warning) : QualityChecker :=
  mkChecker self.(site_id) self.(site_name) self.(quality_issues) (self.(warnings) ++ l).

(** Loop of [check_site_isolation], [i] being the index of the first record. *)
Fixpoint site_isolation_issues (expected : string) (i : nat) (records : list Rec)
  : list Issue :=
  match records with
  | [] => []
  | record :: rest =>
      let record_site_id := rget record "site_id" in
      let here :=
        if negb (Py.truthy record_site_id) then [MissingSiteId i]
        else if negb (Py.eq_str record_site_id expected)
             then [IncorrectSiteId i record_site_id expected]
             else [] in
      here ++ site_isolation_issues expected (S i) rest
  end.

Definition check_site_isolation (self : QualityChecker) (records : list Rec)
  : bool * QualityChecker :=
  match site_isolation_issues self.(site_id) 0 records with
  | [] => (true, self)
  | issues => (false, add_issues self issues)
  end.

Definition required_fields : list string :=
  ["object_id"; "title"; "object_type"; "text_blob"].

Definition missing_fields (i : nat) (record : Rec) : list Issue :=
  flat_map (fun field =>
              if negb (Py.truthy (rget record field))
              then [MissingRequiredField i field] else [])
           required_fields.

Fixpoint required_fields_issues (i : nat) (records : list Rec) : list Issue :=
  match records with
  | [] => []
  | record :: rest => missing_fields i record ++ required_fields_issues (S i) rest
  end.

Definition check_required_fields (self : QualityChecker) (records : list Rec)
  : bool * QualityChecker :=
  match required_fields_issues 0 records with
  | [] => (true, self)
  | issues => (false, add_issues self issues)
  end.

Record DescStats : Type := mkDescStats {
  d_total_records : nat;
  with_descriptions : nat;
  without_descriptions : nat;
  empty_descriptions : nat;
  short_descriptions : nat;
  long_descriptions : nat
}.

Definition desc_step (st : DescStats) (record : Rec) : Result DescStats :=
  let description := rget_d record "description" (PStr "") in
  if negb (Py.truthy description) then
    Ok (mkDescStats st.(d_total_records) st.(with_descriptions)
          (S st.(without_descriptions)) st.(empty_descriptions)
          st.(short_descriptions) st.(long_descriptions))
  else
    match description with
    | PStr s =>
        if String.eqb (Text.strip s) "" then
          Ok (mkDescStats st.(d_total_records) st.(with_descriptions)
                st.(without_descriptions) (S st.(empty_descriptions))
                st.(short_descriptions) st.(long_descriptions))
        else
          let n := String.length s in
          Ok (mkDescStats st.(d_total_records) (S st.(with_descriptions))
                st.(without_descriptions) st.(empty_descriptions)
                (if n <? 10 then S st.(short_descriptions) else st.(short_descriptions))
                (if n <? 10 then st.(long_descriptions)
                 else if 500 <? n then S st.(long_descriptions)
                      else st.(long_descriptions)))
    | _ => Raise AttributeError
    end.

Fixpoint foldM {A S} (f : S -> A -> Result S) (st : S) (l : list A) : Result S :=
  match l with
  | [] => Ok st
  | a :: l' => st' <- f st a ;; foldM f st' l'
  end.

(** The thresholds [n > total * 0.5], [* 0.3], [* 0.1], [* 0.2] compare an
    integer with a float product; they are written as the equivalent
    integer inequalities. *)
Definition check_description_quality (self : QualityChecker) (records : list Rec)
  : Result (DescStats * QualityChecker) :=
  stats <- foldM desc_step (mkDescStats (List.length records) 0 0 0 0 0) records ;;
  let w1 := if d_total_records stats <? 2 * without_descriptions stats
            then [ManyWithoutDescription (without_descriptions stats) (d_total_records stats)]
            else [] in
  let w2 := if 3 * d_total_records stats <? 10 * short_descriptions stats
            then [ManyShortDescriptions (short_descriptions stats) (d_total_records stats)]
            else [] in
  Ok (stats, add_warnings self (w1 ++ w2)).

Record UrlStats : Type := mkUrlStats {
  u_total_records : nat;
  with_urls : nat;
  without_urls : nat;
  with_deep_links : nat;
  without_deep_links : nat;
  malformed_urls : nat
}.

Definition url_prefixes : list string := ["views/"; "workbooks/"; "datasources/"].

Definition url_step (st : UrlStats) (record : Rec) : Result UrlStats :=
  let url := rget_d record "url" (PStr "") in
  let deep_link := rget_d record "deep_link_url" (PStr "") in
  st1 <-
    (if negb (Py.truthy url) then
       Ok (mkUrlStats st.(u_total_records) st.(with_urls) (S st.(without_urls))
             st.(with_deep_links) st.(without_deep_links) st.(malformed_urls))
     else
       match url with
       | PStr s =>
           Ok (mkUrlStats st.(u_total_records) (S st.(with_urls)) st.(without_urls)
                 st.(with_deep_links) st.(without_deep_links)
                 (if existsb (Text.startswith s) url_prefixes
                  then st.(malformed_urls) else S st.(malformed_urls)))
       | _ => Raise AttributeError
       end) ;;
  Ok (if Py.truthy deep_link
      then mkUrlStats st1.(u_total_records) st1.(with_urls) st1.(without_urls)
             (S st1.(with_deep_links)) st1.(without_deep_links) st1.(malformed_urls)
      else mkUrlStats st1.(u_total_records) st1.(with_urls) st1.(without_urls)
             st1.(with_deep_links) (S st1.(without_deep_links)) st1.(malformed_urls)).

Definition check_url_quality (self : QualityChecker) (records : list Rec)
  : Result (UrlStats * QualityChecker) :=
  stats <- foldM url_step (mkUrlStats (List.length records) 0 0 0 0 0) records ;;
  let w1 := if 0 <? malformed_urls stats
            then [MalformedUrls (malformed_urls stats)] else [] in
  let w2 := if u_total_records stats <? 10 * without_deep_links stats
            then [ManyWithoutDeepLinks (without_deep_links stats) (u_total_records stats)]
            else [] in
  Ok (stats, add_warnings self (w1 ++ w2)).

Record BlobStats : Type := mkBlobStats {
  b_total_records : nat;
  empty_text_blobs : nat;
  short_text_blobs : nat;
  long_text_blobs : nat;
  total_length : nat
}.

(** [len(v)] *)
Definition len (v : PyVal) : Result nat :=
  match v with
  | PStr s => Ok (String.length s)
  | PList l => Ok (List.length l)
  | PDict d => Ok (List.length d)
  | _ => Raise TypeError
  end.

Definition blob_step (st : BlobStats) (record : Rec) : Result BlobStats :=
  let text_blob := rget_d record "text_blob" (PStr "") in
  if negb (Py.truthy text_blob) then
    Ok (mkBlobStats st.(b_total_records) (S st.(empty_text_blobs))
          st.(short_text_blobs) st.(long_text_blobs) st.(total_length))
  else
    length <- len text_blob ;;
    Ok (mkBlobStats st.(b_total_records) st.(empty_text_blobs)
          (if length <? 20 then S st.(short_text_blobs) else st.(short_text_blobs))
          (if length <? 20 then st.(long_text_blobs)
           else if 2000 <? length then S st.(long_text_blobs)
                else st.(long_text_blobs))
          (st.(total_length) + length)).

(** [stats["average_length"]] *)
Definition average_length (st : BlobStats) : Q :=
  if 0 <? st.(b_total_records)
  then (inject_Z (Z.of_nat st.(total_length)) / inject_Z (Z.of_nat st.(b_total_records)))%Q
  else 0%Q.

Definition check_text_blob_quality (self : QualityChecker) (records : list Rec)
  : Result (BlobStats * QualityChecker) :=
  stats <- foldM blob_step (mkBlobStats (List.length records) 0 0 0 0) records ;;
  let w1 := if 0 <? empty_text_blobs stats
            then [EmptyTextBlobs (empty_text_blobs stats)] else [] in
  let w2 := if b_total_records stats <? 5 * short_text_blobs stats
            then [ManyShortTextBlobs (short_text_blobs stats) (b_total_records stats)]
            else [] in
  Ok (stats, add_warnings self (w1 ++ w2)).

Record QualityResults : Type := mkResults {
  r_site_isolation : bool;
  r_required_fields : bool;
  r_description_quality : DescStats;
  r_url_quality : UrlStats;
  r_text_blob_quality : BlobStats;
  r_issues : list Issue;
  r_warnings : list Warning;
  overall_quality : bool
}.

(** [QualityChecker.run_all_checks] *)
Definition run_all_checks (self : QualityChecker) (records : list Rec)
  : Result (QualityResults * QualityChecker) :=
  let '(iso, self1) := check_site_isolation self records in
  let '(req, self2) := check_required_fields self1 records in
  d <- check_description_quality self2 records ;;
  u <- check_url_quality (snd d) records ;;
  b <- check_text_blob_quality (snd u) records ;;
  let self5 := snd b in
  let critical_checks := [iso; req] in
  Ok (mkResults iso req (fst d) (fst u) (fst b)
        self5.(quality_issues) self5.(warnings)
        (forallb (fun c => c) critical_checks),
      self5).

Inductive Recommendation : Type :=
| AddDescriptions
| ImproveMetadataExtraction
| FixMalformedUrls
| FixCriticalIssues
| AddressWarnings.

(** [get_indexing_recommendations] *)
Definition get_indexing_recommendations (q : QualityResults) : list Recommendation :=
  (if 3 * d_total_records q.(r_description_quality)
        <? 10 * without_descriptions q.(r_description_quality)
   then [AddDescriptions] else [])
  ++ (if b_total_records q.(r_text_blob_quality)
           <? 5 * short_text_blobs q.(r_text_blob_quality)
      then [ImproveMetadataExtraction] else [])
  ++ (if 0 <? malformed_urls q.(r_url_quality) then [FixMalformedUrls] else [])
  ++ (if negb q.(overall_quality) then [FixCriticalIssues] else [])
  ++ (if 5 <? List.length q.(r_warnings) then [AddressWarnings] else []).

(** The blocking conditions on one record, in the words of the
    specification: its site_id is the target site, and object_id, title,
    object_type and text_blob are present. *)
Definition site_ok (expected : string) (record : Rec) : bool :=
  Py.truthy (rget record "site_id") && Py.eq_str (rget record "site_id") expected.

Definition fields_ok (record : Rec) : bool :=
  forallb (fun field => Py.truthy (rget record field)) required_fields.

Definition blocking_ok (expected : string) (record : Rec) : bool :=
  site_ok expected record && fields_ok record.

(** Records on which the advisory checks cannot raise: description and
    url are strings or falsy, text_blob has a length or is falsy. *)
Definition str_or_falsy (v : PyVal) : bool :=
  match v with
  | PStr _ => true
  | _ => negb (Py.truthy v)
  end.

Definition sized_or_falsy (v : PyVal) : bool :=
  match v with
  | PStr _ | PList _ | PDict _ => true
  | _ => negb (Py.truthy v)
  end.

Definition well_typed (record : Rec) : bool :=
  str_or_falsy (rget_d record "description" (PStr ""))
  && str_or_falsy (rget_d record "url" (PStr ""))
  && sized_or_falsy (rget_d record "text_blob" (PStr "")).

End Quality.

(* ================================================================== *)
(** ** The relational store: src/database/store.py, src/search/embed.py *)
(* ================================================================== *)

(** [ORDER BY]: a stable insertion sort; [leb a b] says that [a] may
    precede [b]. *)
Section Sorting.
Variable A : Type.
Variable leb : A -> A -> bool.

Fixpoint insert_sorted (x : A) (l : list A) : list A :=
  match l with
  | [] => [x]
  | y :: l' => if leb x y then x :: l else y :: insert_sorted x l'
  end.

Fixpoint order_by (l : list A) : list A :=
  match l with
  | [] => []
  | x :: l' => insert_sorted x (order_by l')
  end.
End Sorting.

(** [records[i:i + n]] for [i] in [range(0, len(records), n)] *)
Fixpoint chunks_upto {A} (fuel n : nat) (l : list A) : list (list A) :=
  match fuel with
  | 0 => []
  | S fuel' =>
      match l with
      | [] => []
      | _ => firstn n l :: chunks_upto fuel' n (skipn n l)
      end
  end.

Definition chunks {A} (n : nat) (l : list A) : list (list A) :=
  chunks_upto (List.length l) n l.

Module Store.

(** An embedding: the source stores 384 floats; they are rationals here. *)
Definition Vec : Type := list Q.

(** One row of [chatbot.objects] (models.py, [TableauObject]); times are
    ticks of the database clock. *)
Record Row : Type := mkRow {
  id : nat;
  site_id : string;
  object_type : string;
  object_id : string;
  title : string;
  description : option string;
  tags : list string;
  fields : list string;
  project_name : option string;
  owner : option string;
  url : option string;
  text_blob : string;
  embedding : option Vec;
  updated_at : nat
}.

(** The table with the sequence that feeds [id]. *)
Record Table : Type := mkTable {
  rows : list Row;
  next_id : nat
}.

(** The process environment read by [get_engine], and SQLAlchemy's
    [create_engine], which raises on a URL it cannot parse or whose
    dialect it cannot load. *)
Record Env : Type := mkEnv {
  DATABASE_URL : option string;
  DB_USER : option string;
  DB_PASSWORD : option string;
  DB_HOST : option string;
  DB_PORT : option string;
  DB_NAME : option string;
  create_engine : string -> Result unit
}.

(** The conversions PostgreSQL applies when a statement assigns a value
    whose type is not that of the column: a non-empty [ARRAY[...]] given
    for a [varchar] or [text] column, and a value other than a list of
    strings given for a [varchar[]] column.  [None] means that the server
    refuses the statement. *)
Record Casts : Type := mkCasts {
  text_of_list : list PyVal -> option string;
  array_of : PyVal -> option (list string)
}.

(** The database server: whether a connection can be opened, the
    conversions above, and the table. *)
Record Db : Type := mkDb {
  reachable : bool;
  casts : Casts;
  table : Table
}.

Definition with_table (db : Db) (t : Table) : Db :=
  mkDb db.(reachable) db.(casts) t.

Definition env_set (v : option string) : bool :=
  match v with
  | Some s => negb (String.eqb s "")
  | None => false
  end.

(** [os.getenv(name, default)] *)
Definition getenv_d (v : option string) (default : string) : string :=
  match v with
  | Some s => s
  | None => default
  end.

(** [f"postgresql://{db_user}:{db_password}@{db_host}:{db_port}/{db_name}"] *)
Definition engine_url (db_user db_password db_host db_port db_name : string) : string :=
  "postgresql://" ++ db_user ++ ":" ++ db_password ++ "@" ++ db_host ++ ":"
    ++ db_port ++ "/" ++ db_name.

(** store.py, [get_engine] *)
Definition get_engine (env : Env) : Result unit :=
  if env_set env.(DATABASE_URL)
  then env.(create_engine) (getenv_d env.(DATABASE_URL) "")
  else
    let db_port := getenv_d env.(DB_PORT) "5432" in
    if forallb env_set [env.(DB_USER); env.(DB_PASSWORD); env.(DB_HOST); env.(DB_NAME)]
    then env.(create_engine)
           (engine_url (getenv_d env.(DB_USER) "") (getenv_d env.(DB_PASSWORD) "")
              (getenv_d env.(DB_HOST) "") db_port (getenv_d env.(DB_NAME) ""))
    else Raise (ValueError "Missing required database environment variables").

(** [with engine.begin() as conn] *)
Definition begin (db : Db) : Result Table :=
  if db.(reachable) then Ok db.(table) else Raise DBError.

(** What becomes of a Python value bound to a column. *)
Inductive Bound (A : Type) : Type :=
| Stored (a : A)      (** the column receives [a] *)
| Unadaptable         (** the driver has no SQL for the value *)
| Refused.            (** the server rejects the statement *)
Arguments Stored {A} a.
Arguments Unadaptable {A}.
Arguments Refused {A}.

(** The values the driver (psycopg2) can write as SQL: [None], booleans,
    integers, strings without U+0000, and lists of such values; not
    dicts. *)
Fixpoint adaptable (v : PyVal) : bool :=
  match v with
  | PNone | PBool _ | PInt _ => true
  | PStr s => negb (Text.has_nul s)
  | PList l => forallb adaptable l
  | PDict _ => false
  end.

(** The [ValueError] of the driver for a string parameter that holds
    U+0000.  It is not an [SQLAlchemyError]. *)
Definition nul_error : exn :=
  ValueError "A string literal cannot contain NUL (0x00) characters.".

(** A string given as a parameter of [conn.execute]. *)
Definition string_param (s : string) : Result unit :=
  if Text.has_nul s then Raise nul_error else Ok tt.

(** A string that is a parameter only when it is truthy. *)
Definition optional_param (o : option string) : Result unit :=
  match o with
  | Some s => string_param s
  | None => Ok tt
  end.

(** Binding to a [varchar] or [text] column: [None] is NULL and a string
    without U+0000 is itself; an integer is written as a number and a boolean as [true]
    or [false], which the assignment converts to their text; the empty
    list is written as the literal ['{}'] and a longer one as
    [ARRAY[...]]. *)
Definition sql_text (c : Casts) (v : PyVal) : Bound (option string) :=
  match v with
  | PNone => Stored None
  | PStr s => if Text.has_nul s then Unadaptable else Stored (Some s)
  | PInt n => Stored (Some (NilZero.string_of_int (Z.to_int n)))
  | PBool b => Stored (Some (if b then "true" else "false"))
  | PList [] => Stored (Some "{}")
  | PList l =>
      if forallb adaptable l
      then match c.(text_of_list) l with
           | Some s => Stored (Some s)
           | None => Refused
           end
      else Unadaptable
  | PDict _ => Unadaptable
  end.

(** The strings of a list of strings. *)
Fixpoint strings_of (l : list PyVal) : option (list string) :=
  match l with
  | [] => Some []
  | PStr s :: l' => option_map (cons s) (strings_of l')
  | _ :: _ => None
  end.

(** Binding to a [varchar[]] column: a list of strings without U+0000 is
    itself (the empty list is the empty array); a number or a boolean has
    no conversion to an array. *)
Definition sql_array (c : Casts) (v : PyVal) : Bound (list string) :=
  let converted :=
    match c.(array_of) v with
    | Some a => Stored a
    | None => Refused
    end in
  match v with
  | PList l =>
      if forallb adaptable l
      then match strings_of l with
           | Some a => Stored a
           | None => converted
           end
      else Unadaptable
  | PBool _ | PInt _ => Refused
  | PNone => converted
  | PStr s => if Text.has_nul s then Unadaptable else converted
  | PDict _ => Unadaptable
  end.

(** The columns an [UPSERT_SQL] execution supplies. *)
Record Params : Type := mkParams {
  p_site_id : string;
  p_object_type : string;
  p_object_id : string;
  p_title : string;
  p_description : option string;
  p_tags : list string;
  p_fields : list string;
  p_project_name : option string;
  p_owner : option string;
  p_url : option string;
  p_text_blob : string
}.

(** [record_data] of [upsert_records] *)
Definition record_data (record : Rec) : Rec :=
  [("site_id", rget record "site_id");
   ("object_type", rget record "object_type");
   ("object_id", rget record "object_id");
   ("title", rget record "title");
   ("description", rget record "description");
   ("tags", Py.or_ (rget record "tags") (PList []));
   ("fields", Py.or_ (rget record "fields") (PList []));
   ("project_name", rget record "project_name");
   ("owner", rget record "owner");
   ("url", rget record "url");
   ("text_blob", rget record "text_blob")].

(** The values bound to the eleven columns, in the order of the [VALUES]
    list. *)
Record Values : Type := mkValues {
  v_site_id : option string;
  v_object_type : option string;
  v_object_id : option string;
  v_title : option string;
  v_description : option string;
  v_tags : list string;
  v_fields : list string;
  v_project_name : option string;
  v_owner : option string;
  v_url : option string;
  v_text_blob : option string
}.

Definition bound_bind {A B} (m : Bound A) (k : A -> Bound B) : Bound B :=
  match m with
  | Stored a => k a
  | Unadaptable => Unadaptable
  | Refused => Refused
  end.

Definition bound_values (c : Casts) (data : Rec) : Bound Values :=
  bound_bind (sql_text c (rget data "site_id")) (fun a =>
  bound_bind (sql_text c (rget data "object_type")) (fun b =>
  bound_bind (sql_text c (rget data "object_id")) (fun c0 =>
  bound_bind (sql_text c (rget data "title")) (fun d =>
  bound_bind (sql_text c (rget data "description")) (fun e =>
  bound_bind (sql_array c (rget data "tags")) (fun f =>
  bound_bind (sql_array c (rget data "fields")) (fun g =>
  bound_bind (sql_text c (rget data "project_name")) (fun h =>
  bound_bind (sql_text c (rget data "owner")) (fun i =>
  bound_bind (sql_text c (rget data "url")) (fun j =>
  bound_bind (sql_text c (rget data "text_blob")) (fun k =>
  Stored (mkValues a b c0 d e f g h i j k)))))))))))).

(** The columns site_id, object_type, object_id, title and text_blob are
    declared [nullable=False] in models.py. *)
Definition not_null (v : Values) : option Params :=
  match v.(v_site_id), v.(v_object_type), v.(v_object_id), v.(v_title),
        v.(v_text_blob) with
  | Some a, Some b, Some c, Some d, Some k =>
      Some (mkParams a b c d v.(v_description) v.(v_tags) v.(v_fields)
              v.(v_project_name) v.(v_owner) v.(v_url) k)
  | _, _, _, _, _ => None
  end.

(** What [conn.execute(UPSERT_SQL, record_data)] comes to. *)
Inductive Outcome : Type :=
| Executed (p : Params)
    (** the statement runs with these columns *)
| NotSent
    (** the driver raises on a value it cannot adapt; nothing reaches the
        server *)
| Failed (consumed : bool).
    (** the server raises: on a type it cannot assign when it analyses the
        statement, or on a NULL in a [nullable=False] column when it runs
        it, by which time the sequence has given out an [id]
        ([consumed]) *)

Definition statement (c : Casts) (data : Rec) : Outcome :=
  if forallb (fun kv => adaptable (snd kv)) data
  then match bound_values c data with
       | Stored v =>
           match not_null v with
           | Some p => Executed p
           | None => Failed true
           end
       | _ => Failed false
       end
  else NotSent.

Definition Key : Type := (string * string * string)%type.

Definition key (r : Row) : Key := (r.(site_id), r.(object_type), r.(object_id)).

Definition p_key (p : Params) : Key := (p.(p_site_id), p.(p_object_type), p.(p_object_id)).

Definition key_eqb (a b : Key) : bool :=
  let '(a1, a2, a3) := a in
  let '(b1, b2, b3) := b in
  String.eqb a1 b1 && String.eqb a2 b2 && String.eqb a3 b3.

(** The columns of a row that an upsert supplies. *)
Definition payload (r : Row) : Params :=
  mkParams r.(site_id) r.(object_type) r.(object_id) r.(title) r.(description)
    r.(tags) r.(fields) r.(project_name) r.(owner) r.(url) r.(text_blob).

(** The rows stored under a key. *)
Definition rows_with_key (k : Key) (t : Table) : list Row :=
  filter (fun r => key_eqb (key r) k) t.(rows).

(** The uniqueness constraint on [(site_id, object_type, object_id)]. *)
Definition unique_keys (t : Table) : Prop := NoDup (map key t.(rows)).

Definition empty_table : Table := mkTable [] 1.

(** [DO UPDATE SET ...]: the eight listed columns and [updated_at] are
    replaced; [id], the key and [embedding] are not mentioned and stay. *)
Definition do_update (now : nat) (p : Params) (r : Row) : Row :=
  mkRow r.(id) r.(site_id) r.(object_type) r.(object_id)
    p.(p_title) p.(p_description) p.(p_tags) p.(p_fields)
    p.(p_project_name) p.(p_owner) p.(p_url) p.(p_text_blob)
    r.(embedding) now.

(** The row of the [INSERT]: [embedding] is not listed and defaults to NULL. *)
Definition new_row (now fresh : nat) (p : Params) : Row :=
  mkRow fresh p.(p_site_id) p.(p_object_type) p.(p_object_id)
    p.(p_title) p.(p_description) p.(p_tags) p.(p_fields)
    p.(p_project_name) p.(p_owner) p.(p_url) p.(p_text_blob)
    None now.

(** store.py, [UPSERT_SQL], executed at time [now].  The sequence behind
    [id] advances with every execution. *)
Definition UPSERT_SQL (now : nat) (p : Params) (t : Table) : Table :=
  if existsb (fun r => key_eqb (key r) (p_key p)) t.(rows)
  then mkTable
         (map (fun r => if key_eqb (key r) (p_key p) then do_update now p r else r)
              t.(rows))
         (S t.(next_id))
  else mkTable (t.(rows) ++ [new_row now t.(next_id) p]) (S t.(next_id)).

(** The transaction of [with engine.begin() as conn]: the table as the
    statements so far have left it, and whether the server has raised on
    one of them.  From then on PostgreSQL refuses every statement of the
    transaction. *)
Record Txn : Type := mkTxn {
  current : Table;
  failed : bool
}.

(** [conn.execute(UPSERT_SQL, record_data)] at time [now] *)
Definition conn_execute (c : Casts) (now : nat) (data : Rec) (x : Txn)
  : Result unit * Txn :=
  match statement c data with
  | NotSent => (Raise DBError, x)
  | Executed p =>
      if x.(failed) then (Raise DBError, x)
      else (Ok tt, mkTxn (UPSERT_SQL now p x.(current)) false)
  | Failed consumed =>
      if x.(failed) then (Raise DBError, x)
      else (Raise DBError,
            mkTxn (if consumed
                   then mkTable x.(current).(rows) (S x.(current).(next_id))
                   else x.(current))
                  true)
  end.

(** The end of the [with] block.  COMMIT makes the statements permanent;
    on a transaction in which a statement has failed it rolls them back
    and does not raise.  The sequence is not rolled back. *)
Definition commit (before : Table) (x : Txn) : Table :=
  if x.(failed) then mkTable before.(rows) x.(current).(next_id) else x.(current).

(** The loop of [upsert_records]: a record whose statement raises is
    logged and skipped. *)
Fixpoint upsert_loop (c : Casts) (now : nat) (records : list Rec) (x : Txn)
    (processed_count : nat) : Txn * nat :=
  match records with
  | [] => (x, processed_count)
  | record :: rest =>
      match conn_execute c now (record_data record) x with
      | (Ok _, x') => upsert_loop c now rest x' (S processed_count)
      | (Raise _, x') => upsert_loop c now rest x' processed_count
      end
  end.

(** store.py, [upsert_records]; [now] is the time of its transaction. *)
Definition upsert_records (env : Env) (now : nat) (records : list Rec) (db : Db)
  : Result (nat * Db) :=
  match records with
  | [] => Ok (0, db)
  | _ =>
      _ <- get_engine env ;;
      t <- begin db ;;
      let '(x, processed_count) :=
        upsert_loop db.(casts) now records (mkTxn t false) 0 in
      Ok (processed_count, with_table db (commit t x))
  end.

(** The loop of [upsert_records_batch]; batch number [k] runs at [clock k]. *)
Fixpoint upsert_batches (env : Env) (clock : nat -> nat) (k : nat)
    (batches : list (list Rec)) (db : Db) (total_processed : nat) : nat * Db :=
  match batches with
  | [] => (total_processed, db)
  | batch :: rest =>
      match upsert_records env (clock k) batch db with
      | Ok (processed, db') =>
          upsert_batches env clock (S k) rest db' (total_processed + processed)
      | Raise _ => upsert_batches env clock (S k) rest db total_processed
      end
  end.

(** store.py, [upsert_records_batch] *)
Definition upsert_records_batch (env : Env) (clock : nat -> nat)
    (records : list Rec) (batch_size : nat) (db : Db) : Result (nat * Db) :=
  match records with
  | [] => Ok (0, db)
  | _ =>
      match batch_size with
      | 0 => Raise (ValueError "range() arg 3 must not be zero")
      | _ => Ok (upsert_batches env clock 1 (chunks batch_size records) db 0)
      end
  end.

(** Whether the statement of a record runs, and whether the server raises
    on it. *)
Definition executes (c : Casts) (record : Rec) : bool :=
  match statement c (record_data record) with
  | Executed _ => true
  | _ => false
  end.

Definition fails (c : Casts) (record : Rec) : bool :=
  match statement c (record_data record) with
  | Failed _ => true
  | _ => false
  end.

(** The records of one transaction that come before the first on which
    the server raises. *)
Fixpoint before_failure (c : Casts) (records : list Rec) : list Rec :=
  match records with
  | [] => []
  | record :: rest => if fails c record then [] else record :: before_failure c rest
  end.

(** The count [upsert_records] reports for one transaction: the records
    whose statement ran. *)
Definition processed_in (c : Casts) (records : list Rec) : nat :=
  List.length (filter (executes c) (before_failure c records)).

(** store.py, [get_record_count] *)
Definition get_record_count (env : Env) (site : option string) (otype : option string)
    (db : Db) : Result nat :=
  _ <- get_engine env ;;
  t <- begin db ;;
  _ <- optional_param site ;;
  _ <- optional_param otype ;;
  let selected (wanted : option string) (actual : string) :=
    match wanted with
    | Some s => if String.eqb s "" then true else String.eqb actual s
    | None => true
    end in
  Ok (List.length (filter (fun r => selected site r.(site_id)
                                    && selected otype r.(object_type)) t.(rows))).

Definition has_embedding (r : Row) : bool :=
  match r.(embedding) with Some _ => true | None => false end.

Record EmbeddingStats : Type := mkEmbeddingStats {
  total_records : nat;
  records_with_embeddings : nat;
  records_without_embeddings : nat
}.

(** store.py, [get_embedding_stats] *)
Definition get_embedding_stats (env : Env) (db : Db) : Result EmbeddingStats :=
  _ <- get_engine env ;;
  t <- begin db ;;
  let total := List.length t.(rows) in
  let withe := List.length (filter has_embedding t.(rows)) in
  Ok (mkEmbeddingStats total withe (total - withe)).

(** What [get_unembedded_records] returns for one row. *)
Record Unembedded : Type := mkUnembedded {
  u_id : nat;
  u_text_blob : string;
  u_title : string;
  u_object_type : string
}.

(** [WHERE embedding IS NULL] *)
Definition pending (t : Table) : list Row :=
  filter (fun r => negb (has_embedding r)) t.(rows).

(** embed.py, [get_unembedded_records]: [WHERE embedding IS NULL ORDER BY
    updated_at DESC], with [LIMIT] when [limit] is truthy. *)
Definition get_unembedded_records (limit : option nat) (db : Db)
  : Result (list Unembedded) :=
  t <- begin db ;;
  let sorted := order_by (fun a b => b.(updated_at) <=? a.(updated_at)) (pending t) in
  let taken := match limit with
               | Some (S n) => firstn (S n) sorted
               | _ => sorted
               end in
  Ok (map (fun r => mkUnembedded r.(id) r.(text_blob) r.(title) r.(object_type)) taken).

(** The longest run of word characters at the head of a string, and what
    follows it. *)
Fixpoint word_prefix (s : string) : string * string :=
  match s with
  | EmptyString => (EmptyString, EmptyString)
  | String c s' =>
      if Text.isword c
      then let '(w, rest) := word_prefix s' in (String c w, rest)
      else (EmptyString, s)
  end.

(** A string without its last character. *)
Fixpoint but_last (s : string) : string :=
  match s with
  | EmptyString => EmptyString
  | String c EmptyString => EmptyString
  | String c s' => String c (but_last s')
  end.

(** The bind parameters SQLAlchemy's [text()] finds in a statement, with
    the regular expression [(?<![:\w\x5c]):(\w+)(?!:)]: a colon that
    follows neither a colon, a word character nor a backslash, then the
    longest run of word characters that no colon follows.  When a colon
    follows the whole run the match gives up its last character; a run of
    one character then matches nothing.  [prev] is the character before
    the one looked at. *)
Fixpoint bind_names_from (prev : option ascii) (s : string) : list string :=
  match s with
  | EmptyString => []
  | String c s' =>
      let behind :=
        match prev with
        | Some p => Ascii.eqb p ":" || Text.isword p || Ascii.eqb p "\"
        | None => false
        end in
      let here :=
        if Ascii.eqb c ":" && negb behind
        then let '(w, rest) := word_prefix s' in
             match rest with
             | String ":" _ =>
                 match but_last w with
                 | EmptyString => []
                 | w' => [w']
                 end
             | _ =>
                 match w with
                 | EmptyString => []
                 | _ => [w]
                 end
             end
        else [] in
      here ++ bind_names_from (Some c) s'
  end.

Definition bind_names (sql : string) : list string := bind_names_from None sql.

(** A statement is compiled when every bind parameter found in its text
    has a value among the parameters given; otherwise SQLAlchemy raises
    before anything is sent. *)
Definition binds (sql : string) (given : list string) : bool :=
  forallb (fun name => existsb (String.eqb name) given) (bind_names sql).

(** The statement of [update_embeddings], its line breaks and indentation
    written as single spaces. *)
Definition update_query : string :=
  "UPDATE chatbot.objects SET embedding = :embedding::vector WHERE id = :id".

(** What the UPDATE does to the table once it runs. *)
Definition set_embedding (i : nat) (v : Vec) (t : Table) : Table :=
  mkTable
    (map (fun r => if r.(id) =? i
                   then mkRow r.(id) r.(site_id) r.(object_type) r.(object_id)
                          r.(title) r.(description) r.(tags) r.(fields)
                          r.(project_name) r.(owner) r.(url) r.(text_blob)
                          (Some v) r.(updated_at)
                   else r)
         t.(rows))
    t.(next_id).

(** The loop of [update_embeddings]: [conn.execute(update_query,
    {"embedding": ..., "id": ...})]; a record whose statement raises is
    logged and skipped. *)
Fixpoint update_loop (pairs : list (Unembedded * Vec)) (t : Table) (updated_count : nat)
  : Table * nat :=
  match pairs with
  | [] => (t, updated_count)
  | (record, embedding) :: rest =>
      if binds update_query ["embedding"; "id"]
      then update_loop rest (set_embedding record.(u_id) embedding t) (S updated_count)
      else update_loop rest t updated_count
  end.

(** embed.py, [update_embeddings] *)
Definition update_embeddings (records : list Unembedded) (embeddings : list Vec)
    (db : Db) : Result (nat * Db) :=
  if negb (List.length records =? List.length embeddings)
  then Raise (ValueError "Number of records and embeddings must match")
  else
    t <- begin db ;;
    let '(t', updated_count) := update_loop (combine records embeddings) t 0 in
    Ok (updated_count, with_table db t').

(** store.py, [get_records_by_type]: the rows of one site and type,
    [ORDER BY updated_at DESC]. *)
Definition get_records_by_type (env : Env) (site otype : string) (db : Db)
  : Result (list Row) :=
  _ <- get_engine env ;;
  t <- begin db ;;
  _ <- string_param site ;;
  _ <- string_param otype ;;
  Ok (order_by (fun a b => b.(updated_at) <=? a.(updated_at))
        (filter (fun r => String.eqb r.(site_id) site && String.eqb r.(object_type) otype)
                t.(rows))).

(** The [WHERE] clause of [delete_records]: the site, and the type when
    [object_type] is truthy. *)
Definition doomed (site : string) (otype : option string) (r : Row) : bool :=
  String.eqb r.(site_id) site
  && match otype with
     | Some s => if String.eqb s "" then true else String.eqb r.(object_type) s
     | None => true
     end.

(** store.py, [delete_records]: the number of rows deleted and the
    database afterwards. *)
Definition delete_records (env : Env) (site : string) (otype : option string) (db : Db)
  : Result (nat * Db) :=
  _ <- get_engine env ;;
  t <- begin db ;;
  _ <- string_param site ;;
  _ <- optional_param otype ;;
  Ok (List.length (filter (doomed site otype) t.(rows)),
      with_table db (mkTable (filter (fun r => negb (doomed site otype r)) t.(rows))
                             t.(next_id))).

(** [result[1] / result[0] * 100 if result[0] > 0 else 0] of
    [get_embedding_stats]. *)
Definition embedding_percentage (s : EmbeddingStats) : Q :=
  if 0 <? s.(total_records)
  then (inject_Z (Z.of_nat s.(records_with_embeddings))
        / inject_Z (Z.of_nat s.(total_records)) * 100)%Q
  else 0%Q.

End Store.

(* ================================================================== *)
(** ** Pagination driver: quality_checks.py, [PaginationHelper] *)
(* ================================================================== *)

Module Pagination.

Record PaginationHelper : Type := mkHelper {
  page_size : nat;
  max_pages : option nat
}.

(** [PaginationHelper.__init__] with its defaults. *)
Definition default : PaginationHelper := mkHelper 100 None.

(** [self.max_pages and page >= self.max_pages] *)
Definition cap_reached (self : PaginationHelper) (page : nat) : bool :=
  match self.(max_pages) with
  | Some (S m) => S m <=? page
  | _ => false
  end.

Section Driver.
Variable Item : Type.
(** [fetch_func(page=, page_size=)] *)
Variable fetch_func : nat -> nat -> Result (list Item).

(** The [while True] loop of [paginate_requests], unrolled at most
    [fuel] times.  Besides [all_results] it returns the pages that were
    requested, in order.  The pause between pages is not modelled. *)
Fixpoint paginate_loop (fuel : nat) (self : PaginationHelper) (page : nat)
    (all_results : list Item) (requested : list nat)
  : option (list Item * list nat) :=
  match fuel with
  | 0 => None
  | S fuel' =>
      let requested' := requested ++ [page] in
      match fetch_func page self.(page_size) with
      | Raise _ => Some (all_results, requested')
      | Ok results =>
          match results with
          | [] => Some (all_results, requested')
          | _ =>
              let all_results' := all_results ++ results in
              if List.length results <? self.(page_size)
              then Some (all_results', requested')
              else if cap_reached self page
                   then Some (all_results', requested')
                   else paginate_loop fuel' self (S page) all_results' requested'
          end
      end
  end.

(** [PaginationHelper.paginate_requests] *)
Definition paginate_requests (fuel : nat) (self : PaginationHelper)
  : option (list Item * list nat) :=
  paginate_loop fuel self 1 [] [].

End Driver.

(** A source holding [items] that serves page [page] of size [size]. *)
Definition paged_source {Item} (items : list Item) (page size : nat)
  : Result (list Item) :=
  Ok (firstn size (skipn ((page - 1) * size) items)).

End Pagination.

(* ================================================================== *)
(** ** REST client: src/tableau/client.py, [TableauClient] *)
(* ================================================================== *)

Module Client.

Inductive Method : Type := GET | POST.

(** An outbound HTTP request. *)
Record Request : Type := mkRequest {
  method : Method;
  req_url : string;
  headers : list (string * string);
  params : list (string * PyVal)
}.

(** The [credentials] element of a sign-in response: its [token]
    attribute and the [id] attribute of its [site] child, when present. *)
Record Credentials : Type := mkCredentials {
  cred_token : option string;
  cred_site : option (option string)
}.

(** What the client extracts from a response that passed
    [raise_for_status] and [_parse_xml_response]. *)
Inductive Response : Type :=
| RItems (items : list PyVal)
| RCredentials (c : option Credentials)
| REmpty.

(** The server: a failed exchange raises [RequestException], an error
    document raises [ApiError]. *)
Definition Http : Type := Request -> Result Response.

Record TableauClient : Type := mkClient {
  server : string;
  pat_name : string;
  pat_secret : string;
  site_name : string;
  token : option string;
  site_id : option string
}.

(** [TableauClient.__init__] *)
Definition new (server_url pat_name pat_secret site_name : string) : TableauClient :=
  mkClient (Text.rstrip_slash server_url) pat_name pat_secret site_name None None.

Definition set_token (c : TableauClient) (t : option string) : TableauClient :=
  mkClient c.(server) c.(pat_name) c.(pat_secret) c.(site_name) t c.(site_id).

Definition set_site_id (c : TableauClient) (s : option string) : TableauClient :=
  mkClient c.(server) c.(pat_name) c.(pat_secret) c.(site_name) c.(token) s.

(** [bool(self.token)] *)
Definition has_token (c : TableauClient) : bool := Store.env_set c.(token).

Definition not_authenticated : exn := ValueError "Not authenticated. Call signin() first.".

(** [TableauClient._headers] *)
Definition _headers (self : TableauClient) : Result (list (string * string)) :=
  match self.(token) with
  | Some t => if String.eqb t "" then Raise not_authenticated
              else Ok [("X-Tableau-Auth", t)]
  | None => Raise not_authenticated
  end.

(** [str(self.site_id)] inside the URL f-strings *)
Definition site_str (self : TableauClient) : string :=
  match self.(site_id) with Some s => s | None => "None" end.

Definition api (self : TableauClient) (path : string) : string :=
  (self.(server) ++ "/api/3.20/" ++ path)%string.

Definition items_of (r : Response) : list PyVal :=
  match r with RItems l => l | _ => [] end.

(** [TableauClient.signin]: the result, the client afterwards and the
    requests sent. *)
Definition signin (http : Http) (self : TableauClient)
  : Result bool * TableauClient * list Request :=
  let req := mkRequest POST (api self "auth/signin") []
               [("credentials",
                 PDict [("personalAccessTokenName", PStr self.(pat_name));
                        ("personalAccessTokenSecret", PStr self.(pat_secret));
                        ("site", PDict [("contentUrl", PStr self.(site_name))])])] in
  match http req with
  | Raise RequestException => (Ok false, self, [req])
  | Raise e => (Raise e, self, [req])
  | Ok resp =>
      match resp with
      | RCredentials (Some cr) =>
          let self1 := set_token self cr.(cred_token) in
          if negb (has_token self1) then (Ok false, self1, [req])
          else match cr.(cred_site) with
               | None => (Ok false, self1, [req])
               | Some sid =>
                   let self2 := set_site_id self1 sid in
                   if negb (Store.env_set sid) then (Ok false, self2, [req])
                   else (Ok true, self2, [req])
               end
      | _ => (Ok false, self, [req])
      end
  end.

(** [",".join(project_filter)] wrapped as the [filter] parameter. *)
Definition filter_param (project_filter : option (list string))
  : list (string * PyVal) :=
  match project_filter with
  | Some (p :: ps) =>
      [("filter",
        PStr ("projectName:in:[" ++ String.concat "," (p :: ps) ++ "]")%string)]
  | _ => []
  end.

(** The GET request for one page of a collection. *)
Definition page_request (self : TableauClient) (collection : string)
    (project_filter : option (list string)) (h : list (string * string))
    (page : nat) : Request :=
  mkRequest GET
    (api self ("sites/" ++ site_str self ++ "/" ++ collection)%string) h
    ([("pageSize", PInt 100); ("pageNumber", PInt (Z.of_nat page))]
       ++ filter_param project_filter).

(** The [while True] loop shared, up to the collection name, by
    [list_workbooks], [list_views] and [list_datasources]. *)
Fixpoint list_loop (fuel : nat) (http : Http) (self : TableauClient)
    (collection : string) (project_filter : option (list string))
    (page : nat) (items : list PyVal) (sent : list Request)
  : option (Result (list PyVal) * list Request) :=
  match fuel with
  | 0 => None
  | S fuel' =>
      match _headers self with
      | Raise e => Some (Raise e, sent)
      | Ok h =>
          let req := page_request self collection project_filter h page in
          match http req with
          | Raise e => Some (Raise e, sent ++ [req])
          | Ok resp =>
              let got := items_of resp in
              if List.length got <? 100
              then Some (Ok (items ++ got), sent ++ [req])
              else list_loop fuel' http self collection project_filter (S page)
                     (items ++ got) (sent ++ [req])
          end
      end
  end.

Definition list_collection (collection : string) (fuel : nat) (http : Http)
    (self : TableauClient) (project_filter : option (list string))
  : option (Result (list PyVal) * list Request) :=
  if negb (has_token self) then Some (Raise not_authenticated, [])
  else list_loop fuel http self collection project_filter 1 [] [].

(** [TableauClient.list_workbooks] *)
Definition list_workbooks := list_collection "workbooks".

(** [TableauClient.list_views] *)
Definition list_views := list_collection "views".

(** [TableauClient.list_datasources] *)
Definition list_datasources := list_collection "datasources".

(** One authenticated GET, as in [list_views_for_workbook] and
    [get_workbook_details]. *)
Definition get_once (http : Http) (self : TableauClient) (url : string)
    (params : list (string * PyVal)) : Result Response * list Request :=
  match _headers self with
  | Raise e => (Raise e, [])
  | Ok h =>
      let req := mkRequest GET url h params in
      (http req, [req])
  end.

(** [TableauClient.list_views_for_workbook] *)
Definition list_views_for_workbook (http : Http) (self : TableauClient)
    (workbook_id : string) : Result (list PyVal) * list Request :=
  if negb (has_token self) then (Raise not_authenticated, [])
  else
    let url := api self ("sites/" ++ site_str self ++ "/workbooks/"
                           ++ workbook_id ++ "/views")%string in
    let '(r, sent) := get_once http self url
                        [("includeUsageStatistics", PStr "false")] in
    (resp <- r ;; Ok (items_of resp), sent).

(** [TableauClient.get_workbook_details] *)
Definition get_workbook_details (http : Http) (self : TableauClient)
    (workbook_id : string) : Result PyVal * list Request :=
  if negb (has_token self) then (Raise not_authenticated, [])
  else
    let url := api self ("sites/" ++ site_str self ++ "/workbooks/"
                           ++ workbook_id)%string in
    let '(r, sent) := get_once http self url [] in
    (resp <- r ;;
     Ok (match items_of resp with
         | workbook :: _ => workbook
         | [] => PDict []
         end),
     sent).

(** [TableauClient.signout] *)
Definition signout (http : Http) (self : TableauClient)
  : Result bool * TableauClient * list Request :=
  if negb (has_token self) then (Ok true, self, [])
  else
    match _headers self with
    | Raise e => (Raise e, self, [])
    | Ok h =>
        let req := mkRequest POST (api self "auth/signout") h [] in
        match http req with
        | Ok _ => (Ok true, set_site_id (set_token self None) None, [req])
        | Raise RequestException => (Ok false, self, [req])
        | Raise e => (Raise e, self, [req])
        end
    end.

(** The [pageNumber] parameter of a request. *)
Definition page_number (req : Request) : nat :=
  match Py.assoc "pageNumber" req.(params) with
  | Some (PInt n) => Z.to_nat n
  | _ => 1
  end.

(** A server whose collection holds [items] and that answers every page
    request with the corresponding slice of one hundred. *)
Definition paged_server (items : list PyVal) : Http :=
  fun req => Ok (RItems (firstn 100 (skipn ((page_number req - 1) * 100) items))).

End Client.

(* ================================================================== *)
(** ** Hybrid search: src/search/semantic_search.py, [SemanticSearch] *)
(* ================================================================== *)

Module Search.
Import Store.

(** The functions PostgreSQL evaluates inside the two queries: the cosine
    distance [<=>] of pgvector between two vectors, the match [@@] of a
    text against [plainto_tsquery] of the query, and [ts_rank]. *)
Record Pg : Type := mkPg {
  cosine_distance : Vec -> Vec -> Q;
  fts_match : string -> string -> bool;
  ts_rank : string -> string -> Q
}.

(** The sentence-transformer: loading it may fail, and so may encoding. *)
Record EmbeddingService : Type := mkService {
  load : Result unit;
  encode : string -> Result Vec
}.

Record SemanticSearch : Type := mkSearch {
  model : bool;   (** whether [self.model] has been loaded *)
  engine : unit
}.

(** [SemanticSearch.__init__] *)
Definition new (env : Env) : Result SemanticSearch :=
  e <- get_engine env ;;
  Ok (mkSearch false e).


(** [SemanticSearch._load_model] *)
Definition _load_model (svc : EmbeddingService) (self : SemanticSearch)
  : Result SemanticSearch :=
  if self.(model) then Ok self
  else _ <- svc.(load) ;; Ok (mkSearch true self.(engine)).

(** A result row with its [similarity_score]. *)
Record Hit : Type := mkHit {
  hit_row : Row;
  similarity_score : Q
}.

Definition distance_to (pg : Pg) (q : Vec) (r : Row) : Q :=
  match r.(embedding) with
  | Some e => pg.(cosine_distance) e q
  | None => 0%Q
  end.

(** [1 - (embedding <=> :query_embedding)] *)
Definition similarity (pg : Pg) (q : Vec) (r : Row) : Q :=
  (1 - distance_to pg q r)%Q.

(** The SELECT of [_vector_search]: [WHERE embedding IS NOT NULL
    ORDER BY embedding <=> :q LIMIT :limit]. *)
Definition vector_query (pg : Pg) (q : Vec) (limit : nat) (t : Table) : list Hit :=
  let candidates := filter has_embedding t.(rows) in
  let ranked := order_by (fun a b => Qle_bool (distance_to pg q a) (distance_to pg q b))
                         candidates in
  map (fun r => mkHit r (similarity pg q r)) (firstn limit ranked).

(** The SQL types of the operands of [<=>] in that SELECT. *)
Inductive SqlType : Type :=
| SqlVector          (** the column [embedding] *)
| SqlNumericArray.   (** [ARRAY[...]] of numbers *)

(** The bound value is [query_embedding.tolist()], a Python list, which
    the driver writes as [ARRAY[...]]. *)
Definition adapted (query_embedding : Vec) : SqlType := SqlNumericArray.

(** pgvector declares [<=>] between two vectors.  Its casts from arrays
    to [vector] are assignment casts, which PostgreSQL does not apply to
    the operand of an operator. *)
Definition distance_operator (left right : SqlType) : bool :=
  match left, right with
  | SqlVector, SqlVector => true
  | _, _ => false
  end.

(** [SemanticSearch._vector_search] *)
Definition _vector_search (pg : Pg) (db : Db) (query_embedding : Vec)
    (limit : nat) (threshold : Q) : Result (list Hit) :=
  try_except
    (t <- begin db ;;
     if distance_operator SqlVector (adapted query_embedding)
     then Ok (filter (fun h => Qle_bool threshold h.(similarity_score))
                     (vector_query pg query_embedding limit t))
     else Raise DBError)
    (fun _ => Ok []).

(** The SELECT of [_text_search]: [WHERE text_blob @@ query
    ORDER BY rank_score DESC LIMIT :limit]. *)
Definition text_query (pg : Pg) (query : string) (limit : nat) (t : Table) : list Hit :=
  let candidates := filter (fun r => pg.(fts_match) query r.(text_blob)) t.(rows) in
  let scored := map (fun r => mkHit r (pg.(ts_rank) query r.(text_blob))) candidates in
  firstn limit
    (order_by (fun a b => Qle_bool b.(similarity_score) a.(similarity_score)) scored).

(** [SemanticSearch._text_search] *)
Definition _text_search (pg : Pg) (db : Db) (query : string) (limit : nat)
  : Result (list Hit) :=
  try_except (t <- begin db ;;
              _ <- string_param query ;;
              Ok (text_query pg query limit t))
             (fun _ => Ok []).

(** [SemanticSearch.search].  Loading the model also caches it in
    [self.model]; the cache cannot be observed through a fixed service and
    is not returned. *)
Definition search (pg : Pg) (svc : EmbeddingService) (db : Db) (self : SemanticSearch)
    (query : string) (limit : nat) (similarity_threshold : Q)
  : Result (list Hit) :=
  if String.eqb (Text.strip query) "" then Ok []
  else
    try_except
      (_ <- _load_model svc self ;;
       query_embedding <- svc.(encode) query ;;
       results <- _vector_search pg db query_embedding limit similarity_threshold ;;
       match results with
       | [] => _text_search pg db query limit
       | _ => Ok results
       end)
      (fun _ => _text_search pg db query limit).


End Search.

(* ================================================================== *)
(** ** The indexing run: enhanced_client.py and index_site.py *)
(* ================================================================== *)

Module Indexer.
Import Client.

Record EnhancedTableauClient : Type := mkEnhanced {
  rest_client : TableauClient;
  metadata_client : option string   (** the token handed to [MetadataClient] *)
}.

(** [EnhancedTableauClient.__init__] *)
Definition new (server_url pat_name pat_secret site_name : string)
  : EnhancedTableauClient :=
  mkEnhanced (Client.new server_url pat_name pat_secret site_name) None.

(** [EnhancedTableauClient.signin] *)
Definition signin (http : Http) (self : EnhancedTableauClient)
  : Result bool * EnhancedTableauClient * list Request :=
  let '(r, rc, sent) := Client.signin http self.(rest_client) in
  match r with
  | Ok true => (Ok true, mkEnhanced rc rc.(token), sent)
  | _ => (r, mkEnhanced rc self.(metadata_client), sent)
  end.

(** [EnhancedTableauClient.signout] *)
Definition signout (http : Http) (self : EnhancedTableauClient)
  : Result bool * EnhancedTableauClient * list Request :=
  let '(r, rc, sent) := Client.signout http self.(rest_client) in
  (r, mkEnhanced rc self.(metadata_client), sent).

(** [EnhancedTableauClient.get_site_id] *)
Definition get_site_id (self : EnhancedTableauClient) : option string :=
  self.(rest_client).(site_id).

(** [d[k] = v] *)
Fixpoint dict_set (d : list (string * PyVal)) (k : string) (v : PyVal)
  : list (string * PyVal) :=
  match d with
  | [] => [(k, v)]
  | (k', v') :: d' =>
      if String.eqb k k' then (k, v) :: d' else (k', v') :: dict_set d' k v
  end.

(** [view["workbook"] = {"name": ..., "projectName": ...}] *)
Definition stamp_view (workbook view : PyVal) : Result PyVal :=
  name <- Py.get workbook "name" PNone ;;
  project <- Normalize.nested_or_none workbook "project" "name" ;;
  match view with
  | PDict d =>
      Ok (PDict (dict_set d "workbook"
                   (PDict [("name", name); ("projectName", project)])))
  | _ => Raise TypeError
  end.

Section Fetch.
Variable repr : PyVal -> string.
Variable http : Http.

(** The views of one workbook inside [fetch_comprehensive_metadata]; a
    failure while fetching or stamping them is logged and yields none. *)
Definition views_of_workbook (self : EnhancedTableauClient) (workbook : PyVal)
  : Result (list PyVal) * list Request :=
  match Py.get workbook "id" PNone with
  | Raise e => (Raise e, [])
  | Ok workbook_id =>
      if Py.truthy workbook_id then
        let '(r, sent) := list_views_for_workbook http self.(rest_client)
                            (Py.str_ repr workbook_id) in
        (try_except (views <- r ;; mapM (stamp_view workbook) views)
                    (fun _ => Ok []),
         sent)
      else (Ok [], [])
  end.

Fixpoint all_views (self : EnhancedTableauClient) (workbooks : list PyVal)
  : Result (list PyVal) * list Request :=
  match workbooks with
  | [] => (Ok [], [])
  | workbook :: rest =>
      match views_of_workbook self workbook with
      | (Raise e, sent) => (Raise e, sent)
      | (Ok views, sent) =>
          let '(r, sent') := all_views self rest in
          (more <- r ;; Ok (views ++ more), sent ++ sent')
      end
  end.

Definition selected (object_types : option (list string)) (kind : string) : bool :=
  match object_types with
  | None => true
  | Some l => existsb (String.eqb kind) l
  end.

(** [EnhancedTableauClient.fetch_comprehensive_metadata] *)
Definition fetch_comprehensive_metadata (fuel : nat) (self : EnhancedTableauClient)
    (object_types : option (list string))
  : option (Result PyVal * list Request) :=
  if negb (Store.env_set (get_site_id self))
  then Some (Raise (ValueError "No site ID available"), [])
  else
    match (if selected object_types "workbooks"
           then list_workbooks fuel http self.(rest_client) None
           else Some (Ok [], []))
    with
    | None => None
    | Some (Raise e, s1) => Some (Raise e, s1)
    | Some (Ok workbooks, s1) =>
        match (if selected object_types "datasources"
               then list_datasources fuel http self.(rest_client) None
               else Some (Ok [], []))
        with
        | None => None
        | Some (Raise e, s2) => Some (Raise e, s1 ++ s2)
        | Some (Ok datasources, s2) =>
            let '(rv, s3) := if selected object_types "views"
                             then all_views self workbooks
                             else (Ok [], []) in
            Some (views <- rv ;;
                  Ok (PDict [("workbooks", PList workbooks);
                             ("datasources", PList datasources);
                             ("views", PList views)]),
                  s1 ++ s2 ++ s3)
        end
    end.

End Fetch.

(** The [stats] dict of [index_site]. *)
Record IndexStats : Type := mkStats {
  workbooks : nat;
  datasources : nat;
  views : nat;
  total_processed : nat;
  errors : nat;
  quality_results : option Quality.QualityResults;
  recommendations : option (list Quality.Recommendation)
}.

Definition initial_stats : IndexStats := mkStats 0 0 0 0 0 None None.

Definition add_error (s : IndexStats) : IndexStats :=
  mkStats s.(workbooks) s.(datasources) s.(views) s.(total_processed)
    (S s.(errors)) s.(quality_results) s.(recommendations).

(** [if obj_type in stats: stats[obj_type] += 1] for a string [obj_type] *)
Definition bump (s : IndexStats) (k : string) : IndexStats :=
  if String.eqb k "workbooks" then
    mkStats (S s.(workbooks)) s.(datasources) s.(views) s.(total_processed)
      s.(errors) s.(quality_results) s.(recommendations)
  else if String.eqb k "datasources" then
    mkStats s.(workbooks) (S s.(datasources)) s.(views) s.(total_processed)
      s.(errors) s.(quality_results) s.(recommendations)
  else if String.eqb k "views" then
    mkStats s.(workbooks) s.(datasources) (S s.(views)) s.(total_processed)
      s.(errors) s.(quality_results) s.(recommendations)
  else if String.eqb k "total_processed" then
    mkStats s.(workbooks) s.(datasources) s.(views) (S s.(total_processed))
      s.(errors) s.(quality_results) s.(recommendations)
  else if String.eqb k "errors" then add_error s
  else s.

(** The loop counting records by type; a list or dict as [object_type]
    is unhashable and raises. *)
Fixpoint count_types (s : IndexStats) (records : list Rec) : IndexStats * Result unit :=
  match records with
  | [] => (s, Ok tt)
  | record :: rest =>
      match rget_d record "object_type" (PStr "unknown") with
      | PStr k => count_types (bump s k) rest
      | PList _ | PDict _ => (s, Raise TypeError)
      | _ => count_types s rest
      end
  end.

Definition set_total (s : IndexStats) (n : nat) : IndexStats :=
  mkStats s.(workbooks) s.(datasources) s.(views) n
    s.(errors) s.(quality_results) s.(recommendations).

Definition set_quality (s : IndexStats) (q : Quality.QualityResults) : IndexStats :=
  mkStats s.(workbooks) s.(datasources) s.(views) s.(total_processed)
    s.(errors) (Some q) (Some (Quality.get_indexing_recommendations q)).

(** What the quality block of [index_site] decides. *)
Inductive Gate : Type :=
| Blocked
| Proceed (quality_results : option Quality.QualityResults).

Definition quality_gate (enable_quality_checks : bool) (site_id : option string)
    (site_name : string) (records : list Rec) : Gate :=
  match records with
  | [] => Proceed None
  | _ =>
      if enable_quality_checks then
        let checker := Quality.new (match site_id with Some s => s | None => "" end)
                                   site_name in
        match Quality.run_all_checks checker records with
        | Ok (q, _) => if negb q.(Quality.overall_quality) then Blocked
                       else Proceed (Some q)
        | Raise _ => Proceed None
        end
      else Proceed None
  end.

(** [if max_objects and len(records) > max_objects: records = records[:max_objects]] *)
Definition apply_max_objects (max_objects : option nat) (records : list Rec)
  : list Rec :=
  match max_objects with
  | Some (S m) => if S m <? List.length records
                  then firstn (S m) records else records
  | _ => records
  end.

(** [index_site] from the point where [records] have been prepared: the
    statistics, the database afterwards, and whether an exception reaches
    the outer handler. *)
Definition index_records (env : Store.Env) (clock : nat -> nat)
    (site_id : option string) (site_name : string)
    (enable_quality_checks : bool) (max_objects : option nat)
    (records : list Rec) (stats : IndexStats) (db : Store.Db)
  : IndexStats * Store.Db * Result unit :=
  match records with
  | [] => (stats, db, Ok tt)
  | _ =>
      let records := apply_max_objects max_objects records in
      match quality_gate enable_quality_checks site_id site_name records with
      | Blocked => (add_error stats, db, Ok tt)
      | Proceed quality =>
          match count_types stats records with
          | (stats1, Raise e) => (stats1, db, Raise e)
          | (stats1, Ok _) =>
              let stats2 := set_total stats1 (List.length records) in
              match Store.upsert_records_batch env clock records 50 db with
              | Raise _ => (add_error stats2, db, Ok tt)
              | Ok (_, db') =>
                  match (_ <- Store.get_record_count env site_id None db' ;;
                         Store.get_embedding_stats env db') with
                  | Raise e => (stats2, db', Raise e)
                  | Ok _ =>
                      (match quality with
                       | Some q => set_quality stats2 q
                       | None => stats2
                       end, db', Ok tt)
                  end
              end
          end
      end
  end.

Section Run.
Variable repr : PyVal -> string.
Variable http : Http.
Variable env : Store.Env.
Variable clock : nat -> nat.

(** The [finally] block: sign out, ignoring any failure. *)
Definition finish (stats : IndexStats) (db : Store.Db)
    (client : EnhancedTableauClient) (sent : list Request)
  : option (IndexStats * Store.Db * list Request) :=
  let '(_, _, s) := signout http client in
  Some (stats, db, sent ++ s).

(** How far [index_site] gets before it looks at the records. *)
Inductive Crawl : Type :=
| NotSignedIn
| Failed
| Prepared (site_id : option string) (records : list Rec).

(** The first part of [index_site]: sign in, read the initial count,
    fetch the metadata and prepare the records.  None of it writes to
    the database. *)
Definition crawl (fuel : nat)
    (server_url pat_name pat_secret site_name : string)
    (object_types : option (list string)) (db : Store.Db)
  : option (Crawl * EnhancedTableauClient * list Request) :=
  let client := new server_url pat_name pat_secret site_name in
  match signin http client with
  | (Raise _, c, s1) => Some (Failed, c, s1)
  | (Ok false, c, s1) => Some (NotSignedIn, c, s1)
  | (Ok true, c, s1) =>
      let site_id := get_site_id c in
      match Store.get_record_count env site_id None db with
      | Raise _ => Some (Failed, c, s1)
      | Ok _ =>
          match fetch_comprehensive_metadata repr http fuel c
                  (match object_types with
                   | Some (t :: ts) => Some (t :: ts)
                   | _ => None
                   end)
          with
          | None => None
          | Some (Raise _, s2) => Some (Failed, c, s1 ++ s2)
          | Some (Ok metadata, s2) =>
              match Normalize.prepare_objects_for_indexing site_id metadata with
              | Raise _ => Some (Failed, c, s1 ++ s2)
              | Ok records => Some (Prepared site_id records, c, s1 ++ s2)
              end
          end
      end
  end.

(** index_site.py, [index_site].  [project_filter] is accepted and not
    used, as in the source. *)
Definition index_site (fuel : nat)
    (server_url pat_name pat_secret site_name : string)
    (project_filter : option string) (object_types : option (list string))
    (enable_quality_checks : bool) (max_objects : option nat)
    (db : Store.Db)
  : option (IndexStats * Store.Db * list Request) :=
  let stats := initial_stats in
  match crawl fuel server_url pat_name pat_secret site_name object_types db with
  | None => None
  | Some (NotSignedIn, c, sent) => finish stats db c sent
  | Some (Failed, c, sent) => finish (add_error stats) db c sent
  | Some (Prepared site_id records, c, sent) =>
      let '(stats', db', r) :=
        index_records env clock site_id site_name
          enable_quality_checks max_objects records stats db in
      finish (match r with
              | Ok _ => stats'
              | Raise _ => add_error stats'
              end) db' c sent
  end.

End Run.

End Indexer.

(* ================================================================== *)
(** ** Writer: src/database/writer.py *)
(* ================================================================== *)

Module Writer.
Import Store.

Record UpsertStats : Type := mkUpsertStats {
  w_workbooks : nat;
  w_datasources : nat;
  w_views : nat;
  w_total : nat;
  w_errors : nat
}.

(** [sum(1 for obj in objects if obj.get("object_type") == kind)] *)
Definition count_kind (kind : string) (objects : list Rec) : nat :=
  List.length (filter (fun obj => Py.eq_str (rget obj "object_type") kind) objects).

(** writer.py, [upsert_objects]; [now] is the time of the transaction. *)
Definition upsert_objects (env : Env) (now : nat) (objects : list Rec) (db : Db)
  : UpsertStats * Db :=
  match objects with
  | [] => (mkUpsertStats 0 0 0 0 0, db)
  | _ =>
      match upsert_records env now objects db with
      | Ok (processed_count, db') =>
          (mkUpsertStats (count_kind "workbook" objects) (count_kind "datasource" objects)
             (count_kind "view" objects) processed_count
             (List.length objects - processed_count), db')
      | Raise _ => (mkUpsertStats 0 0 0 0 (List.length objects), db)
      end
  end.

Record DatabaseStats : Type := mkDatabaseStats {
  s_workbooks : nat;
  s_datasources : nat;
  s_views : nat;
  s_total : nat;
  s_embedding_stats : option EmbeddingStats
}.

(** writer.py, [get_database_stats] *)
Definition get_database_stats (env : Env) (site : option string) (db : Db)
  : DatabaseStats :=
  match
    (workbooks <- get_record_count env site (Some "workbook") db ;;
     datasources <- get_record_count env site (Some "datasource") db ;;
     views <- get_record_count env site (Some "view") db ;;
     embedding_stats <- get_embedding_stats env db ;;
     Ok (mkDatabaseStats workbooks datasources views
           (workbooks + datasources + views) (Some embedding_stats)))
  with
  | Ok stats => stats
  | Raise _ => mkDatabaseStats 0 0 0 0 None
  end.

End Writer.

(* ================================================================== *)
(** ** Embedding generator: src/search/embed.py *)
(* ================================================================== *)

Module Embed.
Import Store.

(** embed.py, [generate_embeddings]: one vector per text; the service
    embeds each text on its own. *)
Definition generate_embeddings (svc : Search.EmbeddingService) (texts : list string)
  : Result (list Vec) :=
  match texts with
  | [] => Ok []
  | _ => mapM svc.(Search.encode) texts
  end.

Record EmbedStats : Type := mkEmbedStats {
  e_total_records : nat;
  e_processed_records : nat;
  e_errors : nat
}.

(** One batch of [embed_all]: texts, embeddings, update. *)
Definition embed_batch (svc : Search.EmbeddingService) (batch : list Unembedded) (db : Db)
  : Result (nat * Db) :=
  embeddings <- generate_embeddings svc (map u_text_blob batch) ;;
  update_embeddings batch embeddings db.

(** The batch loop of [embed_all]: a failing batch is logged, counted and
    skipped. *)
Fixpoint embed_batches (svc : Search.EmbeddingService) (batches : list (list Unembedded))
    (processed errors : nat) (db : Db) : nat * nat * Db :=
  match batches with
  | [] => (processed, errors, db)
  | batch :: rest =>
      match embed_batch svc batch db with
      | Ok (updated, db') => embed_batches svc rest (processed + updated) errors db'
      | Raise _ => embed_batches svc rest processed (S errors) db
      end
  end.

(** embed.py, [embed_all] *)
Definition embed_all (svc : Search.EmbeddingService) (limit : option nat)
    (batch_size : nat) (db : Db) : EmbedStats * Db :=
  match svc.(Search.load) with
  | Raise _ => (mkEmbedStats 0 0 1, db)
  | Ok _ =>
      match get_unembedded_records limit db with
      | Raise _ => (mkEmbedStats 0 0 1, db)
      | Ok records =>
          match records with
          | [] => (mkEmbedStats 0 0 0, db)
          | _ =>
              match batch_size with
              | 0 => (mkEmbedStats (List.length records) 0 1, db)
              | _ =>
                  let '(processed, errors, db') :=
                    embed_batches svc (chunks batch_size records) 0 0 db in
                  (mkEmbedStats (List.length records) processed errors, db')
              end
          end
      end
  end.

End Embed.

(* ================================================================== *)
(** ** Links and search metadata: src/tableau/normalize.py *)
(* ================================================================== *)

Module Links.

Abbreviation slash := Text.slash.
Abbreviation rstrip_slash := Text.rstrip_slash.

(** [s[1:] if s.startswith("/") else s] *)
Definition drop_leading_slash (s : string) : string :=
  match s with
  | String c s' => if Ascii.eqb c slash then s' else s
  | EmptyString => EmptyString
  end.

(** [s.split("/")] *)
Fixpoint split_slash (s : string) : list string :=
  match s with
  | EmptyString => [EmptyString]
  | String c s' =>
      if Ascii.eqb c slash then EmptyString :: split_slash s'
      else match split_slash s' with
           | [] => [String c EmptyString]
           | w :: ws => String c w :: ws
           end
  end.

Definition card_suffix : string := "?:showAppBanner=false&:origin=card".

(** normalize.py, [build_full_url] *)
Definition build_full_url (server_url content_url : string) : string :=
  if String.eqb content_url "" then ""
  else
    let content_url := drop_leading_slash content_url in
    let server_url := rstrip_slash server_url in
    (server_url ++ "/" ++ content_url)%string.

(** normalize.py, [build_deep_link_url]; [object_type] is whatever the
    record holds. *)
Definition build_deep_link_url (server_url content_url site_name : string)
    (object_type : PyVal) : string :=
  if String.eqb content_url "" then ""
  else
    let server_url := rstrip_slash server_url in
    let content_url := drop_leading_slash content_url in
    let parts := split_slash content_url in
    let fallback := (server_url ++ "/" ++ content_url)%string in
    if Py.eq_str object_type "view" then
      match parts with
      | p0 :: workbook :: sheet :: _ =>
          if String.eqb p0 "views"
          then (server_url ++ "/#/site/" ++ site_name ++ "/views/" ++ workbook
                  ++ "/" ++ sheet ++ card_suffix)%string
          else fallback
      | _ => fallback
      end
    else if Py.eq_str object_type "workbook" then
      match parts with
      | p0 :: workbook :: _ =>
          if String.eqb p0 "workbooks"
          then (server_url ++ "/#/site/" ++ site_name ++ "/workbooks/" ++ workbook
                  ++ card_suffix)%string
          else fallback
      | _ => fallback
      end
    else if Py.eq_str object_type "datasource" then
      match parts with
      | p0 :: datasource :: _ =>
          if String.eqb p0 "datasources"
          then (server_url ++ "/#/site/" ++ site_name ++ "/datasources/" ++ datasource
                  ++ card_suffix)%string
          else fallback
      | _ => fallback
      end
    else fallback.

(** normalize.py, [enhance_record_with_urls]; a truthy url that is not a
    string has no [startswith]. *)
Definition enhance_record_with_urls (record : Rec) (server_url site_name : string)
  : Result Rec :=
  let url := rget record "url" in
  if Py.truthy url then
    match url with
    | PStr u =>
        let object_type := rget_d record "object_type" (PStr "") in
        let r1 := Indexer.dict_set record "deep_link_url"
                    (PStr (build_deep_link_url server_url u site_name object_type)) in
        Ok (Indexer.dict_set r1 "full_url" (PStr (build_full_url server_url u)))
    | _ => Raise AttributeError
    end
  else
    Ok (Indexer.dict_set (Indexer.dict_set record "deep_link_url" (PStr ""))
          "full_url" (PStr "")).

(** normalize.py, [get_search_priority]; a list or a dict cannot be looked
    up in the table. *)
Definition get_search_priority (object_type : PyVal) : Result Z :=
  match object_type with
  | PStr s =>
      Ok (if String.eqb s "view" then 3
          else if String.eqb s "workbook" then 2
          else if String.eqb s "datasource" then 1
          else 0)%Z
  | PList _ | PDict _ => Raise TypeError
  | _ => Ok 0%Z
  end.

(** normalize.py, [add_search_metadata] *)
Definition add_search_metadata (record : Rec) : Result Rec :=
  priority <- get_search_priority (rget_d record "object_type" (PStr "")) ;;
  let r1 := Indexer.dict_set record "search_priority" (PInt priority) in
  text_length <- Quality.len (rget_d r1 "text_blob" (PStr "")) ;;
  let r2 := Indexer.dict_set r1 "text_length" (PInt (Z.of_nat text_length)) in
  field_count <- Quality.len (rget_d r2 "fields" (PList [])) ;;
  let r3 := Indexer.dict_set r2 "field_count" (PInt (Z.of_nat field_count)) in
  tag_count <- Quality.len (rget_d r3 "tags" (PList [])) ;;
  Ok (Indexer.dict_set r3 "tag_count" (PInt (Z.of_nat tag_count))).

(** The keys that [enhance_record_with_urls] and [add_search_metadata] write. *)
Definition added_keys : list string :=
  ["deep_link_url"; "full_url"; "search_priority"; "text_length"; "field_count";
   "tag_count"].

(** The loop of [process_metadata_for_indexing]: a record that cannot be
    enhanced is logged and left out. *)
Fixpoint enhance_each (server_url site_name : string) (records : list Rec) : list Rec :=
  match records with
  | [] => []
  | record :: rest =>
      match (r <- enhance_record_with_urls record server_url site_name ;;
             add_search_metadata r) with
      | Ok r => r :: enhance_each server_url site_name rest
      | Raise _ => enhance_each server_url site_name rest
      end
  end.

(** normalize.py, [process_metadata_for_indexing] *)
Definition process_metadata_for_indexing (repr : PyVal -> string) (site_id : string)
    (metadata : PyVal) (server_url site_name : string) : Result (list Rec) :=
  records <- Normalize.normalize_metadata_records repr site_id metadata ;;
  Ok (enhance_each server_url site_name records).

End Links.

(* ================================================================== *)
(** ** Rate limiter and environment check: src/tableau/quality_checks.py *)
(* ================================================================== *)

Module Limiter.

(** One minute, in microseconds, the resolution of [datetime]. *)
Definition minute : Z := 60000000.

Record RateLimiter : Type := mkLimiter {
  max_requests_per_minute : nat;
  max_retries : nat;
  requests : list Z
}.

(** [RateLimiter.__init__] with its defaults. *)
Definition default : RateLimiter := mkLimiter 60 3 [].

Definition with_requests (self : RateLimiter) (l : list Z) : RateLimiter :=
  mkLimiter self.(max_requests_per_minute) self.(max_retries) l.

(** How [wait_if_needed] ends: without sleeping, after sleeping for the
    given time, or on [self.requests[0]] of an empty list. *)
Inductive Waited : Type :=
| Proceeded (self : RateLimiter)
| Slept (sleep_time : Z) (self : RateLimiter)
| IndexErrorRaised.

(** [RateLimiter.wait_if_needed] at time [now]. *)
Definition wait_if_needed (now : Z) (self : RateLimiter) : Waited :=
  let minute_ago := (now - minute)%Z in
  let kept := filter (fun req_time => (minute_ago <? req_time)%Z) self.(requests) in
  if self.(max_requests_per_minute) <=? List.length kept then
    match kept with
    | [] => IndexErrorRaised
    | oldest :: _ =>
        let sleep_time := (minute - (now - oldest))%Z in
        if (0 <? sleep_time)%Z
        then Slept sleep_time (with_requests self [])
        else Proceeded (with_requests self kept)
    end
  else Proceeded (with_requests self kept).

Section Requests.
Variable Resp : Type.

(** How [make_request] ends. *)
Inductive Made : Type :=
| Returned (response : Resp) (self : RateLimiter)
| RequestFailed (e : exn) (self : RateLimiter)
| WaitFailed.

(** [RateLimiter.make_request]: [now] is the time when the wait starts,
    [done] the time when the response has arrived, [send] the outcome of
    [self.session.request] with its retries. *)
Definition make_request (now done : Z) (send : Result Resp) (self : RateLimiter) : Made :=
  match wait_if_needed now self with
  | IndexErrorRaised => WaitFailed
  | Proceeded self1 | Slept _ self1 =>
      match send with
      | Ok response =>
          Returned response (with_requests self1 (self1.(requests) ++ [done]))
      | Raise e => RequestFailed e self1
      end
  end.

(** The limiter after [make_request], when there is one. *)
Definition limiter_after (m : Made) : option RateLimiter :=
  match m with
  | Returned _ self | RequestFailed _ self => Some self
  | WaitFailed => None
  end.

End Requests.

End Limiter.

Module Environment.

(** The process environment. *)
Definition OsEnv : Type := list (string * string).

(** [os.getenv(name)] *)
Fixpoint getenv (e : OsEnv) (name : string) : option string :=
  match e with
  | [] => None
  | (k, v) :: e' => if String.eqb name k then Some v else getenv e' name
  end.

Definition tableau_vars : list string :=
  ["TABLEAU_SERVER_URL"; "TABLEAU_PAT_NAME"; "TABLEAU_PAT_SECRET"; "TABLEAU_SITE_NAME"].

Definition db_vars : list string :=
  ["DB_HOST"; "DB_PORT"; "DB_NAME"; "DB_USER"; "DB_PASSWORD"].

Definition missing (e : OsEnv) (vars : list string) : list string :=
  filter (fun var => negb (Store.env_set (getenv e var))) vars.

(** The text that stands for the placeholder in the source. *)
Definition placeholder : string := "***redacted***".

Definition is_placeholder (v : option string) : bool :=
  match v with
  | Some s => String.eqb s placeholder
  | None => false
  end.

(** quality_checks.py, [validate_environment] *)
Definition validate_environment (e : OsEnv) : bool :=
  match missing e tableau_vars with
  | _ :: _ => false
  | [] =>
      let database_url := getenv e "DATABASE_URL" in
      let db_ok :=
        if Store.env_set database_url then
          match database_url with
          | Some u => Text.startswith u "postgresql://" || Text.startswith u "postgres://"
          | None => false
          end
        else
          match missing e db_vars with
          | _ :: _ => false
          | [] => true
          end in
      if negb db_ok then false
      else if is_placeholder (getenv e "TABLEAU_PAT_SECRET") then false
      else if negb (Store.env_set database_url) && is_placeholder (getenv e "DB_PASSWORD")
           then false
           else true
  end.

(** The variables [store.get_engine] reads. *)
Definition store_env (create_engine : string -> Result unit) (e : OsEnv) : Store.Env :=
  Store.mkEnv (getenv e "DATABASE_URL") (getenv e "DB_USER") (getenv e "DB_PASSWORD")
    (getenv e "DB_HOST") (getenv e "DB_PORT") (getenv e "DB_NAME") create_engine.

End Environment.

(* ================================================================== *)
(** ** XML to dict: src/tableau/client.py, [_xml_to_dict] *)
(* ================================================================== *)

Module Xml.

(** An element: tag, attributes, text and children. *)
Inductive Element : Type :=
| Elem (tag : string) (attrib : list (string * string)) (text : option string)
       (children : list Element).

Definition tag_of (e : Element) : string :=
  match e with Elem t _ _ _ => t end.

(** [result[tag] = data], or the list protocol when [tag] is already there. *)
Definition add_child (result : list (string * PyVal)) (tag : string) (data : PyVal)
  : list (string * PyVal) :=
  match Py.assoc tag result with
  | Some (PList l) => Indexer.dict_set result tag (PList (l ++ [data]))
  | Some v => Indexer.dict_set result tag (PList [v; data])
  | None => Indexer.dict_set result tag data
  end.

(** [TableauClient._xml_to_dict] *)
Fixpoint _xml_to_dict (element : Element) : PyVal :=
  match element with
  | Elem _ attrib text children =>
      let result := map (fun kv => (fst kv, PStr (snd kv))) attrib in
      let convert :=
        (fix loop (cs : list Element) (result : list (string * PyVal)) :=
           match cs with
           | [] => result
           | child :: cs' =>
               loop cs' (add_child result (tag_of child) (_xml_to_dict child))
           end) in
      match children, text with
      | [], Some t => if String.eqb t "" then PDict result else PStr (Text.strip t)
      | _, _ => PDict (convert children result)
      end
  end.

(** The loop over the children, on conversions already made. *)
Fixpoint add_children (result : list (string * PyVal)) (cs : list (string * PyVal))
  : list (string * PyVal) :=
  match cs with
  | [] => result
  | (tag, data) :: cs' => add_children (add_child result tag data) cs'
  end.

End Xml.

(* ================================================================== *)
(** ** Filtered searches: src/search/semantic_search.py *)
(* ================================================================== *)

Module SearchFilters.
Import Search.

(** The default [similarity_threshold] of [search]. *)
Definition default_threshold : Q := 3 # 10.

(** [SemanticSearch.search_by_type] *)
Definition search_by_type (pg : Pg) (svc : EmbeddingService) (db : Store.Db)
    (self : SemanticSearch) (query object_type : string) (limit : nat)
  : Result (list Hit) :=
  all_results <- search pg svc db self query (limit * 2) default_threshold ;;
  Ok (firstn limit
        (filter (fun r => String.eqb r.(hit_row).(Store.object_type) object_type)
                all_results)).

(** [needle in hay] *)
Fixpoint contains (needle hay : string) : bool :=
  String.prefix needle hay
  || match hay with
     | EmptyString => false
     | String _ hay' => contains needle hay'
     end.

(** The test of [search_by_project] on one result; a null project name
    has no [lower]. *)
Definition in_project (project_name : string) (r : Hit) : Result bool :=
  match r.(hit_row).(Store.project_name) with
  | Some p => Ok (contains (Text.lower project_name) (Text.lower p))
  | None => Raise AttributeError
  end.

Fixpoint filterM {A} (f : A -> Result bool) (l : list A) : Result (list A) :=
  match l with
  | [] => Ok []
  | a :: l' =>
      keep <- f a ;;
      rest <- filterM f l' ;;
      Ok (if keep then a :: rest else rest)
  end.

(** [SemanticSearch.search_by_project] *)
Definition search_by_project (pg : Pg) (svc : EmbeddingService) (db : Store.Db)
    (self : SemanticSearch) (query project_name : string) (limit : nat)
  : Result (list Hit) :=
  all_results <- search pg svc db self query (limit * 2) default_threshold ;;
  filtered <- filterM (in_project project_name) all_results ;;
  Ok (firstn limit filtered).

End SearchFilters.

(* ================================================================== *)
(** ** Sample data used to exercise the definitions *)
(* ================================================================== *)

Module Examples.

(** A [create_engine] that has the dialect [postgresql] and no other. *)
Definition create_engine0 : string -> Result unit :=
  fun url => if Text.startswith url "postgresql://" then Ok tt else Raise DBError.

Definition env0 : Store.Env :=
  Store.mkEnv (Some "postgresql://bot@db/rwa") None None None None None create_engine0.

(** A server that refuses every value whose type is not that of the
    column. *)
Definition casts0 : Store.Casts := Store.mkCasts (fun _ => None) (fun _ => None).

(** A workbook record as the normaliser produces it. *)
Definition wb_sales : Rec :=
  [ ("site_id", PStr "S1"); ("object_type", PStr "workbook");
    ("object_id", PStr "wb-1"); ("title", PStr "Sales");
    ("description", PStr "Weekly sales figures"); ("tags", PList [PStr "kpi"]);
    ("fields", PList []); ("project_name", PStr "Finance");
    ("owner", PStr "ann"); ("url", PStr "workbooks/sales");
    ("text_blob", PStr "sales weekly sales figures kpi finance ann") ].

(** The same object after its title was changed. *)
Definition wb_sales_v2 : Rec :=
  [ ("site_id", PStr "S1"); ("object_type", PStr "workbook");
    ("object_id", PStr "wb-1"); ("title", PStr "Sales 2024");
    ("description", PStr "Weekly sales figures"); ("tags", PList [PStr "kpi"]);
    ("fields", PList []); ("project_name", PStr "Finance");
    ("owner", PStr "ann"); ("url", PStr "workbooks/sales");
    ("text_blob", PStr "sales 2024 weekly sales figures kpi finance ann") ].

Definition p_sales : Store.Params :=
  Store.mkParams "S1" "workbook" "wb-1" "Sales" (Some "Weekly sales figures")
    ["kpi"] [] (Some "Finance") (Some "ann") (Some "workbooks/sales")
    "sales weekly sales figures kpi finance ann".

Definition p_sales_v2 : Store.Params :=
  Store.mkParams "S1" "workbook" "wb-1" "Sales 2024" (Some "Weekly sales figures")
    ["kpi"] [] (Some "Finance") (Some "ann") (Some "workbooks/sales")
    "sales 2024 weekly sales figures kpi finance ann".

(** A record that passes both blocking checks and draws advisory
    warnings: no description, a URL outside the three prefixes, no deep
    link and a short text blob. *)
Definition wb_advisory : Rec :=
  [ ("site_id", PStr "S1"); ("object_type", PStr "workbook");
    ("object_id", PStr "wb-2"); ("title", PStr "Ops");
    ("url", PStr "misc/ops"); ("text_blob", PStr "ops") ].

(** A record without a title, which the column does not admit. *)
Definition wb_untitled : Rec :=
  [ ("site_id", PStr "S1"); ("object_type", PStr "workbook");
    ("object_id", PStr "wb-4"); ("text_blob", PStr "untitled") ].

(** The object of [wb_sales] with a number for a title. *)
Definition wb_numbered : Rec :=
  [ ("site_id", PStr "S1"); ("object_type", PStr "workbook");
    ("object_id", PStr "wb-1"); ("title", PInt 2024);
    ("text_blob", PStr "2024") ].

Definition p_numbered : Store.Params :=
  Store.mkParams "S1" "workbook" "wb-1" "2024" None [] [] None None None "2024".

(** A record of another site. *)
Definition wb_foreign : Rec :=
  [ ("site_id", PStr "S2"); ("object_type", PStr "workbook");
    ("object_id", PStr "wb-3"); ("title", PStr "Other");
    ("text_blob", PStr "other") ].

Definition repr0 : PyVal -> string := fun _ => "<object>".

(** A server with one site, [S1], that lists a single workbook without a
    name and nothing else. *)
Definition http_nameless : Client.Http :=
  fun req =>
    match Client.method req with
    | Client.POST =>
        Ok (Client.RCredentials
              (Some (Client.mkCredentials (Some "tok") (Some (Some "S1")))))
    | Client.GET =>
        if String.eqb (Client.req_url req) "https://tab/api/3.20/sites/S1/workbooks"
        then Ok (Client.RItems [PDict [("id", PStr "wb-9")]])
        else Ok (Client.RItems [])
    end.

(** A server with one site, [S1], that lists the workbook [raw_workbook]
    and nothing else. *)
Definition http_one : Client.Http :=
  fun req =>
    match Client.method req with
    | Client.POST =>
        Ok (Client.RCredentials
              (Some (Client.mkCredentials (Some "tok") (Some (Some "S1")))))
    | Client.GET =>
        if String.eqb (Client.req_url req) "https://tab/api/3.20/sites/S1/workbooks"
        then Ok (Client.RItems [PDict [("id", PStr "wb-1"); ("name", PStr "Sales")]])
        else Ok (Client.RItems [])
    end.

(** Stand-ins for the functions PostgreSQL computes: one minus the dot
    product as distance, a shared word as match, the number of query
    words found as rank. *)
Definition dot (a b : Store.Vec) : Q :=
  fold_left (fun acc xy => (acc + fst xy * snd xy)%Q) (combine a b) 0%Q.

Definition hits_of (query text : string) : list string :=
  filter (fun w => existsb (String.eqb w) (Text.words text)) (Text.words query).

Definition pg0 : Search.Pg :=
  Search.mkPg (fun a b => (1 - dot a b)%Q)
    (fun query text => match hits_of query text with [] => false | _ => true end)
    (fun query text => inject_Z (Z.of_nat (List.length (hits_of query text)))).

(** An embedding service that cannot load its model. *)
Definition svc_down : Search.EmbeddingService :=
  Search.mkService (Raise ModelError) (fun _ => Raise ModelError).

(** An embedding service that maps every query to [vec0]. *)
Definition svc_const : Search.EmbeddingService :=
  Search.mkService (Ok tt) (fun _ => Ok [1%Q; 0%Q]).

(** A workbook as the REST listing returns it when the server sends
    neither a project nor an owner element. *)
Definition raw_workbook : list (string * PyVal) :=
  [ ("id", PStr "wb-1"); ("name", PStr "Sales") ].

Definition metadata_one : PyVal :=
  PDict [ ("workbooks", PList [PDict raw_workbook]) ].

Definition prepared_one : Rec :=
  [ ("site_id", PStr "S1"); ("object_type", PStr "workbook");
    ("object_id", PStr "wb-1"); ("title", PStr "Sales");
    ("description", PStr ""); ("tags", PList []); ("fields", PList []);
    ("project_name", PNone); ("owner", PNone); ("url", PStr "");
    ("text_blob", PStr "sales"); ("search_priority", PInt 2) ].

Definition db_empty : Store.Db := Store.mkDb true casts0 Store.empty_table.

(** The row of [prepared_one], written at time 1 into the empty table. *)
Definition row_prepared_one : Store.Row :=
  Store.mkRow 1 "S1" "workbook" "wb-1" "Sales" (Some "") [] [] None None (Some "")
    "sales" None 1.

Definition vec0 : Store.Vec := [1%Q; 0%Q].

(** The row of [wb_sales], written at time 1, with an embedding. *)
Definition row_sales_embedded : Store.Row :=
  Store.mkRow 1 "S1" "workbook" "wb-1" "Sales" (Some "Weekly sales figures")
    ["kpi"] [] (Some "Finance") (Some "ann") (Some "workbooks/sales")
    "sales weekly sales figures kpi finance ann" (Some vec0) 1.

Definition table_embedded : Store.Table := Store.mkTable [row_sales_embedded] 2.

(** [row_sales_embedded] after [wb_sales_v2] was upserted at time 5. *)
Definition row_sales_overwritten : Store.Row :=
  Store.mkRow 1 "S1" "workbook" "wb-1" "Sales 2024" (Some "Weekly sales figures")
    ["kpi"] [] (Some "Finance") (Some "ann") (Some "workbooks/sales")
    "sales 2024 weekly sales figures kpi finance ann" (Some vec0) 5.

(** A second embedded row, orthogonal to [vec0], and a row that has no
    embedding yet. *)
Definition row_ops_embedded : Store.Row :=
  Store.mkRow 2 "S1" "view" "vw-1" "Ops board" None [] [] None None None
    "ops board clinical" (Some [0%Q; 1%Q]) 2.

Definition row_hr_pending : Store.Row :=
  Store.mkRow 3 "S1" "datasource" "ds-1" "HR" None [] [] None None None
    "hr staff sales" None 3.

Definition table_three : Store.Table :=
  Store.mkTable [row_ops_embedded; row_hr_pending; row_sales_embedded] 4.

End Examples.

(* ================================================================== *)
(** * Properties *)
(* ================================================================== *)

Unset Implicit Arguments.

(** ** Text primitives *)

Section TextFacts.
Import Text.

Lemma lower_char_fixed (c : ascii) : lower_char (lower_char c) = lower_char c.
Proof.
  destruct c as [[] [] [] [] [] [] [] []]; vm_compute; reflexivity.
Qed.

(** The only upper-case letter that lower-casing leaves is the one without
    a lower-case form. *)
Lemma isupper_lower_char (c : ascii) :
  isupper (lower_char c) = Ascii.eqb c upsilon_hook.
Proof.
  destruct c as [[] [] [] [] [] [] [] []]; vm_compute; reflexivity.
Qed.

Lemma isspace_lower_char (c : ascii) : isspace (lower_char c) = isspace c.
Proof.
  destruct c as [[] [] [] [] [] [] [] []]; vm_compute; reflexivity.
Qed.

Lemma lower_lowered (s : string) : lowered (lower s) = true.
Proof.
  induction s as [|c s IH]; simpl; [reflexivity|].
  now rewrite lower_char_fixed, Ascii.eqb_refl, IH.
Qed.

Lemma lowered_lower (s : string) : lowered s = true -> lower s = s.
Proof.
  induction s as [|c s IH]; simpl; [reflexivity|].
  intros H. apply andb_true_iff in H as [Hc Hs]. apply Ascii.eqb_eq in Hc.
  now rewrite Hc, IH.
Qed.

(** A lower-cased text holds an upper-case letter only where the text
    held U+03D2. *)
Lemma lower_no_upper (s : string) :
  no_upper (lower s)
  = negb (existsb (fun c => Ascii.eqb c upsilon_hook) (list_ascii_of_string s)).
Proof.
  induction s as [|c s IH]; simpl; [reflexivity|].
  rewrite isupper_lower_char, IH. now destruct (Ascii.eqb c upsilon_hook).
Qed.

Lemma no_ws_run_cons (c : ascii) (s : string) :
  no_ws_run (String c s) = negb (isspace c && starts_ws s) && no_ws_run s.
Proof.
  destruct s as [|c' s']; simpl.
  - now rewrite andb_false_r.
  - reflexivity.
Qed.

Lemma starts_ws_lower (s : string) : starts_ws (lower s) = starts_ws s.
Proof. destruct s; simpl; [reflexivity | apply isspace_lower_char]. Qed.

Lemma lower_no_ws_run (s : string) : no_ws_run (lower s) = no_ws_run s.
Proof.
  induction s as [|c s IH]; [reflexivity|].
  change (lower (String c s)) with (String (lower_char c) (lower s)).
  now rewrite !no_ws_run_cons, isspace_lower_char, starts_ws_lower, IH.
Qed.

Lemma sub_ws_shape (s : string) :
  no_ws_run (sub_ws false s) = true
  /\ no_ws_run (sub_ws true s) = true
  /\ starts_ws (sub_ws true s) = false.
Proof.
  induction s as [|c s (IHf & IHt & IHs)]; [now simpl|].
  simpl sub_ws. destruct (isspace c) eqn:Hc.
  - split; [|split]; try assumption.
    rewrite no_ws_run_cons, IHs, IHt. now rewrite andb_false_r.
  - assert (H : no_ws_run (String c (sub_ws false s)) = true)
      by (now rewrite no_ws_run_cons, Hc, IHf).
    split; [|split]; assumption.
Qed.

Lemma collapse_no_ws_run (s : string) : no_ws_run (collapse_whitespace s) = true.
Proof. apply sub_ws_shape. Qed.

(** *** Words of a text *)

Lemma fields_split (s : string) : fields s = head_field s :: tail_fields s.
Proof.
  unfold head_field, tail_fields.
  destruct s as [|c s]; simpl; [reflexivity|].
  destruct (isspace c); [reflexivity|].
  destruct (fields s); reflexivity.
Qed.

Lemma fields_space (c : ascii) (s : string) :
  isspace c = true -> fields (String c s) = EmptyString :: fields s.
Proof. intros H. simpl. now rewrite H. Qed.

Lemma fields_char (c : ascii) (s : string) :
  isspace c = false ->
  fields (String c s) = String c (head_field s) :: tail_fields s.
Proof.
  intros H. simpl. rewrite H. rewrite (fields_split s). reflexivity.
Qed.

Lemma words_split (s : string) :
  words s = filter nonempty [head_field s] ++ filter nonempty (tail_fields s).
Proof. unfold words. rewrite fields_split. simpl. now destruct (nonempty _). Qed.

Lemma words_space (c : ascii) (s : string) :
  isspace c = true -> words (String c s) = words s.
Proof. intros H. unfold words. now rewrite fields_space. Qed.

Lemma words_char (c : ascii) (s : string) :
  isspace c = false ->
  words (String c s) = String c (head_field s) :: filter nonempty (tail_fields s).
Proof. intros H. unfold words. now rewrite fields_char. Qed.

Lemma head_field_space (c : ascii) (s : string) :
  isspace c = true -> head_field (String c s) = EmptyString.
Proof. intros H. unfold head_field. now rewrite fields_space. Qed.

Lemma tail_fields_space (c : ascii) (s : string) :
  isspace c = true -> tail_fields (String c s) = fields s.
Proof. intros H. unfold tail_fields. now rewrite fields_space. Qed.

Lemma head_field_char (c : ascii) (s : string) :
  isspace c = false -> head_field (String c s) = String c (head_field s).
Proof. intros H. unfold head_field at 1. now rewrite fields_char. Qed.

Lemma tail_fields_char (c : ascii) (s : string) :
  isspace c = false -> tail_fields (String c s) = tail_fields s.
Proof. intros H. unfold tail_fields at 1. now rewrite fields_char. Qed.

Lemma words_all_ws (p s : string) : all_ws p = true -> words (p ++ s) = words s.
Proof.
  induction p as [|c p IH]; simpl; intros H; [reflexivity|].
  apply andb_true_iff in H as [Hc Hp].
  rewrite words_space by assumption. now apply IH.
Qed.

(** A whitespace character separates the words on its two sides. *)
Lemma fields_app_ws (a b : string) (c : ascii) :
  isspace c = true ->
  head_field (a ++ String c b) = head_field a
  /\ filter nonempty (tail_fields (a ++ String c b))
     = filter nonempty (tail_fields a) ++ words b.
Proof.
  intros Hc. induction a as [|x a [IHh IHt]].
  - simpl append. rewrite head_field_space, tail_fields_space by assumption.
    split; reflexivity.
  - change (String x a ++ String c b)%string with (String x (a ++ String c b)).
    destruct (isspace x) eqn:Hx.
    + rewrite !head_field_space, !tail_fields_space by assumption.
      split; [reflexivity|].
      rewrite (fields_split (a ++ String c b)), (fields_split a).
      simpl filter. rewrite IHh, IHt.
      now destruct (nonempty (head_field a)).
    + rewrite !head_field_char, !tail_fields_char by assumption.
      split; [now rewrite IHh | exact IHt].
Qed.

Lemma words_app_ws (a b : string) (c : ascii) :
  isspace c = true -> words (a ++ String c b) = words a ++ words b.
Proof.
  intros Hc. destruct (fields_app_ws a b c Hc) as [Hh Ht].
  rewrite (words_split (a ++ String c b)), (words_split a), Hh, Ht.
  now rewrite app_assoc.
Qed.

Lemma words_empty : words EmptyString = [].
Proof. reflexivity. Qed.

Lemma append_assoc (a b c : string) : ((a ++ b) ++ c = a ++ (b ++ c))%string.
Proof. induction a as [|x a IH]; simpl; [reflexivity | now rewrite IH]. Qed.

(** Joining with a non-empty all-whitespace separator concatenates the
    word lists. *)
Lemma words_concat (sep : string) (l : list string) :
  sep <> EmptyString -> all_ws sep = true ->
  words (String.concat sep l) = flat_map words l.
Proof.
  intros Hne Hws. destruct sep as [|c sep]; [congruence|].
  simpl in Hws. apply andb_true_iff in Hws as [Hc Hsep].
  induction l as [|x l IH]; [reflexivity|].
  destruct l as [|y l].
  - simpl. now rewrite app_nil_r.
  - change (String.concat (String c sep) (x :: y :: l))
      with (x ++ (String c sep ++ String.concat (String c sep) (y :: l)))%string.
    change (String c sep ++ String.concat (String c sep) (y :: l))%string
      with (String c (sep ++ String.concat (String c sep) (y :: l))).
    rewrite words_app_ws by assumption.
    rewrite words_all_ws by assumption.
    rewrite IH. reflexivity.
Qed.

Lemma words_lstrip (s : string) : words (lstrip s) = words s.
Proof.
  induction s as [|c s IH]; [reflexivity|].
  simpl lstrip. destruct (isspace c) eqn:Hc; [|reflexivity].
  now rewrite words_space.
Qed.

Lemma fields_rstrip (s : string) :
  head_field (rstrip s) = head_field s
  /\ filter nonempty (tail_fields (rstrip s)) = filter nonempty (tail_fields s).
Proof.
  induction s as [|c s [IHh IHt]]; [split; reflexivity|].
  simpl rstrip. destruct (rstrip s) as [|r0 r] eqn:Hr.
  - change (head_field EmptyString) with EmptyString in IHh.
    change (tail_fields EmptyString) with (@nil string) in IHt.
    simpl in IHt.
    destruct (isspace c) eqn:Hc.
    + rewrite (head_field_space c), (tail_fields_space c) by assumption.
      split; [reflexivity|].
      rewrite (fields_split s), <- IHh. simpl filter. now rewrite <- IHt.
    + rewrite !(head_field_char c), !(tail_fields_char c) by assumption.
      rewrite <- IHh, <- IHt. split; reflexivity.
  - destruct (isspace c) eqn:Hc.
    + rewrite !(head_field_space c), !(tail_fields_space c) by assumption.
      split; [reflexivity|].
      rewrite (fields_split s), (fields_split (String r0 r)).
      simpl filter. now rewrite IHh, IHt.
    + rewrite !(head_field_char c), !(tail_fields_char c) by assumption.
      split; [now rewrite IHh | exact IHt].
Qed.

Lemma words_rstrip (s : string) : words (rstrip s) = words s.
Proof.
  destruct (fields_rstrip s) as [Hh Ht].
  now rewrite (words_split (rstrip s)), (words_split s), Hh, Ht.
Qed.

Lemma words_strip (s : string) : words (strip s) = words s.
Proof. unfold strip. now rewrite words_rstrip, words_lstrip. Qed.

Lemma fields_sub_ws (s : string) :
  (head_field (sub_ws false s) = head_field s
   /\ filter nonempty (tail_fields (sub_ws false s)) = filter nonempty (tail_fields s))
  /\ words (sub_ws true s) = words s.
Proof.
  assert (Hsp : isspace " " = true) by reflexivity.
  induction s as [|c s [[IHh IHt] IHw]]; [repeat split|].
  simpl sub_ws. destruct (isspace c) eqn:Hc.
  - rewrite (head_field_space c s Hc), (tail_fields_space c s Hc).
    rewrite (head_field_space " " _ Hsp), (tail_fields_space " " _ Hsp).
    rewrite (words_space c s Hc).
    split; [split|]; [reflexivity | exact IHw | exact IHw].
  - rewrite !(head_field_char c), !(tail_fields_char c) by assumption.
    rewrite !(words_char c) by assumption.
    split; [split|]; [now rewrite IHh | exact IHt | now rewrite IHh, IHt].
Qed.

Lemma words_collapse (s : string) : words (collapse_whitespace s) = words s.
Proof.
  destruct (fields_sub_ws s) as [[Hh Ht] _]. unfold collapse_whitespace.
  now rewrite (words_split (sub_ws false s)), (words_split s), Hh, Ht.
Qed.

Lemma nonempty_lower (s : string) : nonempty (lower s) = nonempty s.
Proof. destruct s; reflexivity. Qed.

Lemma fields_lower (s : string) : fields (lower s) = map lower (fields s).
Proof.
  induction s as [|c s IH]; [reflexivity|].
  change (lower (String c s)) with (String (lower_char c) (lower s)).
  destruct (isspace c) eqn:Hc.
  - rewrite !fields_space by (now rewrite ?isspace_lower_char).
    simpl. now rewrite IH.
  - rewrite !fields_char by (now rewrite ?isspace_lower_char).
    unfold head_field, tail_fields. rewrite IH.
    rewrite (fields_split s). reflexivity.
Qed.

Lemma words_lower (s : string) : words (lower s) = map lower (words s).
Proof.
  unfold words. rewrite fields_lower.
  induction (fields s) as [|w ws IH]; [reflexivity|].
  simpl. rewrite nonempty_lower. destruct (nonempty w); simpl; now rewrite IH.
Qed.

Lemma flat_map_words_strip (l : list string) :
  flat_map words (map strip l) = flat_map words l.
Proof.
  induction l as [|x l IH]; [reflexivity|].
  simpl. now rewrite words_strip, IH.
Qed.

Lemma flat_map_words_nonempty (l : list string) :
  flat_map words (filter nonempty l) = flat_map words l.
Proof.
  induction l as [|x l IH]; [reflexivity|].
  simpl. destruct x as [|c x]; simpl; [exact IH | now rewrite IH].
Qed.

End TextFacts.

(** ** The normaliser's text blob *)

Section BlobFacts.
Import Text Normalize.

Lemma mapM_as_str (l : list string) : mapM Py.as_str (map PStr l) = Ok l.
Proof. induction l as [|x l IH]; simpl; [reflexivity | now rewrite IH]. Qed.

Lemma join_strings (sep : string) (l : list string) :
  Py.join sep (Py.or_ (PList (map PStr l)) (PList [])) = Ok (String.concat sep l).
Proof.
  destruct l as [|x l]; [reflexivity|].
  change (Py.or_ (PList (map PStr (x :: l))) (PList []))
    with (PList (map PStr (x :: l))).
  unfold Py.join. cbn [Py.iter bind].
  now rewrite (mapM_as_str (x :: l)).
Qed.

Lemma or_empty_string (s : string) : Py.or_ (PStr s) (PStr "") = PStr s.
Proof. destruct s; reflexivity. Qed.

Lemma strip_truthy_strings (l : list string) :
  strip_truthy (map PStr l) = Ok (map strip (filter nonempty l)).
Proof.
  induction l as [|x l IH]; [reflexivity|].
  simpl. unfold nonempty at 1.
  destruct (String.eqb x "") eqn:E; simpl; now rewrite IH.
Qed.

(** Whatever the arguments, a blob that is produced holds no character
    that lower-casing would change and no run of whitespace. *)
Lemma blob_of_parts_normalized (parts : list PyVal) (blob : string) :
  blob_of_parts parts = Ok blob ->
  lowered blob = true /\ no_ws_run blob = true.
Proof.
  unfold blob_of_parts. destruct (strip_truthy parts) as [l|e]; simpl; [|discriminate].
  intros [= <-]. split.
  - apply lower_lowered.
  - rewrite lower_no_ws_run. apply collapse_no_ws_run.
Qed.

Lemma to_text_blob_normalized
    (title desc tags fields project owner additional_text : PyVal) (blob : string) :
  to_text_blob title desc tags fields project owner additional_text = Ok blob ->
  lowered blob = true /\ no_ws_run blob = true.
Proof.
  unfold to_text_blob.
  destruct (Py.join " " (Py.or_ tags (PList []))); simpl; [|discriminate].
  destruct (Py.join " " (Py.or_ fields (PList []))); simpl; [|discriminate].
  apply blob_of_parts_normalized.
Qed.

End BlobFacts.

(** C7, as stated, fails where a part holds an upper-case letter without
    lower-case form: the title [ϒ Report], whose first character is
    U+03D2, gives the blob [ϒ report], which holds an upper-case letter. *)
Lemma C7_counterexample :
  Normalize.to_text_blob (PStr (String Text.upsilon_hook " Report")) (PStr "")
    (PList []) (PList []) (PStr "") (PStr "") (PStr "")
  = Ok (String Text.upsilon_hook " report")
  /\ Text.isupper Text.upsilon_hook = true
  /\ Text.no_upper (String Text.upsilon_hook " report") = false.
Proof. repeat split. Qed.

(** C7, amended.  For every title, description, tag list, field list,
    project, owner and context sentence, [to_text_blob] returns the
    lower-cased, whitespace-collapsed join of the non-empty parts (each
    stripped, joined in that order); the result is a function of the input
    alone, holds no character that lower-casing would change and no two
    adjacent whitespace characters, and its words are exactly the
    lower-cased words of the parts in order.  An upper-case letter without
    lower-case form stays as it is. *)
Theorem C7_text_blob_deterministic_normalized :
  forall (title desc : string) (tags fields : list string)
         (project owner context : string),
    let parts := [title; desc; String.concat " " tags; String.concat " " fields;
                  project; owner; context] in
    let sep := String " " (String "010" (String " " EmptyString)) in
    let blob := Text.lower (Text.collapse_whitespace
                  (String.concat sep (map Text.strip (filter Text.nonempty parts)))) in
    Normalize.to_text_blob (PStr title) (PStr desc) (PList (map PStr tags))
      (PList (map PStr fields)) (PStr project) (PStr owner) (PStr context) = Ok blob
    /\ Text.lowered blob = true
    /\ Text.lower blob = blob
    /\ Text.no_ws_run blob = true
    /\ Text.words blob = map Text.lower (flat_map Text.words parts).
Proof.
  intros title desc tags fields project owner context parts sep blob.
  assert (Hblob :
    Normalize.to_text_blob (PStr title) (PStr desc) (PList (map PStr tags))
      (PList (map PStr fields)) (PStr project) (PStr owner) (PStr context) = Ok blob).
  { unfold Normalize.to_text_blob.
    rewrite !join_strings. simpl bind. rewrite !or_empty_string.
    unfold Normalize.blob_of_parts.
    change [PStr title; PStr desc; PStr (String.concat " " tags);
            PStr (String.concat " " fields); PStr project; PStr owner; PStr context]
      with (map PStr parts).
    rewrite strip_truthy_strings. reflexivity. }
  split; [exact Hblob|].
  destruct (to_text_blob_normalized _ _ _ _ _ _ _ _ Hblob) as [Hu Hw].
  split; [exact Hu|]. split; [now apply lowered_lower|]. split; [exact Hw|].
  unfold blob. rewrite words_lower, words_collapse.
  rewrite words_concat by (unfold sep; [discriminate || reflexivity]).
  now rewrite flat_map_words_strip, flat_map_words_nonempty.
Qed.

(** ** The store: upserts *)

Section StoreFacts.
Import Store.
Local Arguments key_eqb : simpl never.
Local Arguments key : simpl never.
Local Arguments p_key : simpl never.

Lemma key_eqb_eq (a b : Key) : key_eqb a b = true <-> a = b.
Proof.
  destruct a as [[a1 a2] a3], b as [[b1 b2] b3]. unfold key_eqb.
  rewrite !andb_true_iff, !String.eqb_eq. split.
  - intros [[-> ->] ->]. reflexivity.
  - intros [= -> -> ->]. auto.
Qed.

Lemma key_eqb_refl (a : Key) : key_eqb a a = true.
Proof. now apply key_eqb_eq. Qed.

Lemma key_do_update (now : nat) (p : Params) (r : Row) :
  key (do_update now p r) = key r.
Proof. reflexivity. Qed.

Lemma key_new_row (now fresh : nat) (p : Params) :
  key (new_row now fresh p) = p_key p.
Proof. reflexivity. Qed.

Lemma payload_new_row (now fresh : nat) (p : Params) :
  payload (new_row now fresh p) = p.
Proof. destruct p; reflexivity. Qed.

Lemma payload_do_update (now : nat) (p : Params) (r : Row) :
  key r = p_key p -> payload (do_update now p r) = p.
Proof.
  destruct p, r; unfold key, p_key, payload, do_update; simpl.
  intros [= -> -> ->]. reflexivity.
Qed.

Lemma existsb_key_In (k : Key) (l : list Row) :
  existsb (fun r => key_eqb (key r) k) l = true <-> In k (map key l).
Proof.
  rewrite existsb_exists, in_map_iff. split.
  - intros (r & Hin & He). exists r. split; [now apply key_eqb_eq | assumption].
  - intros (r & He & Hin). exists r. split; [assumption | now apply key_eqb_eq].
Qed.

Lemma filter_key_absent (k : Key) (l : list Row) :
  ~ In k (map key l) -> filter (fun r => key_eqb (key r) k) l = [].
Proof.
  induction l as [|r l IH]; simpl; intros H; [reflexivity|].
  destruct (key_eqb (key r) k) eqn:E.
  - apply key_eqb_eq in E. tauto.
  - apply IH. tauto.
Qed.

(** Under the uniqueness constraint a key that occurs selects one row. *)
Lemma filter_key_single (k : Key) (l : list Row) :
  NoDup (map key l) -> In k (map key l) ->
  exists r, filter (fun r => key_eqb (key r) k) l = [r] /\ key r = k.
Proof.
  induction l as [|r l IH]; simpl; intros Hnd Hin; [contradiction|].
  inversion Hnd as [|? ? Hnotin Hnd']; subst.
  destruct (key_eqb (key r) k) eqn:E.
  - apply key_eqb_eq in E. exists r. split; [|assumption].
    rewrite filter_key_absent; [reflexivity | now rewrite <- E].
  - destruct Hin as [Heq | Hin].
    + rewrite Heq, key_eqb_refl in E. discriminate.
    + exact (IH Hnd' Hin).
Qed.

Lemma map_key_update (now : nat) (p : Params) (l : list Row) :
  map key (map (fun r => if key_eqb (key r) (p_key p) then do_update now p r else r) l)
  = map key l.
Proof.
  induction l as [|r l IH]; simpl; [reflexivity|].
  rewrite IH. now destruct (key_eqb (key r) (p_key p)).
Qed.

Lemma filter_map_update (now : nat) (p : Params) (l : list Row) :
  filter (fun r => key_eqb (key r) (p_key p))
    (map (fun r => if key_eqb (key r) (p_key p) then do_update now p r else r) l)
  = map (do_update now p) (filter (fun r => key_eqb (key r) (p_key p)) l).
Proof.
  induction l as [|r l IH]; simpl; [reflexivity|].
  destruct (key_eqb (key r) (p_key p)) eqn:E; simpl.
  - rewrite key_do_update, E, IH. reflexivity.
  - rewrite E, IH. reflexivity.
Qed.

(** One execution of [UPSERT_SQL] keeps the keys unique. *)
Lemma UPSERT_SQL_unique (now : nat) (p : Params) (t : Table) :
  unique_keys t -> unique_keys (UPSERT_SQL now p t).
Proof.
  unfold unique_keys, UPSERT_SQL. intros Hnd.
  destruct (existsb _ (rows t)) eqn:E; simpl.
  - now rewrite map_key_update.
  - rewrite map_app. simpl. rewrite key_new_row.
    apply NoDup_app; try assumption.
    + constructor; [intros [] | constructor].
    + intros k Hin [<- | []].
      apply existsb_key_In in Hin. congruence.
Qed.

(** After one execution exactly one row has the key of the parameters; it
    holds the parameters' values and the time of the statement, and keeps
    the embedding of the row it replaced (NULL for a new row). *)
Lemma UPSERT_SQL_row (now : nat) (p : Params) (t : Table) :
  unique_keys t ->
  exists row,
    rows_with_key (p_key p) (UPSERT_SQL now p t) = [row]
    /\ payload row = p
    /\ updated_at row = now
    /\ embedding row =
         match rows_with_key (p_key p) t with
         | old :: _ => embedding old
         | [] => None
         end.
Proof.
  unfold unique_keys, UPSERT_SQL, rows_with_key. intros Hnd.
  destruct (existsb _ (rows t)) eqn:E; simpl.
  - apply existsb_key_In in E.
    destruct (filter_key_single (p_key p) (rows t) Hnd E) as (r0 & Hf & Hk).
    exists (do_update now p r0).
    rewrite filter_map_update, Hf. simpl.
    repeat split. now apply payload_do_update.
  - assert (Habs : ~ In (p_key p) (map key (rows t))).
    { intros Hin. apply existsb_key_In in Hin. congruence. }
    exists (new_row now (next_id t) p).
    rewrite filter_app, (filter_key_absent (p_key p) (rows t) Habs). simpl.
    rewrite key_new_row, key_eqb_refl.
    repeat split. apply payload_new_row.
Qed.

Lemma conn_execute_unique (c : Casts) (now : nat) (data : Rec) (x : Txn) :
  unique_keys x.(current) ->
  unique_keys (snd (conn_execute c now data x)).(current).
Proof.
  intros H. unfold conn_execute.
  destruct (statement c data) as [p| |consumed]; [| exact H |];
    destruct (failed x); cbn [snd current]; try exact H.
  - now apply UPSERT_SQL_unique.
  - now destruct consumed.
Qed.

Lemma upsert_loop_unique (c : Casts) (now : nat) (records : list Rec) (x : Txn)
    (n : nat) :
  unique_keys x.(current) ->
  unique_keys (fst (upsert_loop c now records x n)).(current).
Proof.
  revert x n. induction records as [|r rs IH]; simpl; intros x n H; [assumption|].
  pose proof (conn_execute_unique c now (record_data r) x H) as Hx.
  destruct (conn_execute c now (record_data r) x) as [[u|e] x']; now apply IH.
Qed.

Lemma commit_unique (before : Table) (x : Txn) :
  unique_keys before -> unique_keys x.(current) -> unique_keys (commit before x).
Proof.
  unfold commit. now destruct (failed x).
Qed.

Lemma upsert_records_unique (env : Env) (now : nat) (records : list Rec)
    (db db' : Db) (n : nat) :
  unique_keys db.(table) -> upsert_records env now records db = Ok (n, db') ->
  unique_keys db'.(table).
Proof.
  unfold upsert_records. intros H.
  destruct records as [|r rs]; [intros H0; inversion H0; subst; assumption|].
  destruct (get_engine env); cbn [bind]; [|discriminate].
  unfold begin. destruct (reachable db); cbn [bind]; [|discriminate].
  pose proof (upsert_loop_unique (casts db) now (r :: rs) (mkTxn (table db) false) 0 H)
    as Hu.
  destruct (upsert_loop (casts db) now (r :: rs) (mkTxn (table db) false) 0) as [x k].
  intros H0; inversion H0; subst. cbn [with_table table]. now apply commit_unique.
Qed.

Lemma upsert_batches_unique (env : Env) (clock : nat -> nat) (batches : list (list Rec))
    (k : nat) (db : Db) (n : nat) :
  unique_keys db.(table) ->
  unique_keys (snd (upsert_batches env clock k batches db n)).(table).
Proof.
  revert k db n. induction batches as [|b bs IH]; simpl; intros k db n H; [assumption|].
  destruct (upsert_records env (clock k) b db) as [[m db']|e] eqn:E.
  - apply IH. eapply upsert_records_unique; eassumption.
  - now apply IH.
Qed.

Lemma upsert_records_one (env : Env) (now : nat) (r : Rec) (p : Params) (db : Db) :
  get_engine env = Ok tt -> reachable db = true ->
  statement db.(casts) (record_data r) = Executed p ->
  upsert_records env now [r] db = Ok (1, with_table db (UPSERT_SQL now p db.(table))).
Proof.
  intros He Hr Hp. unfold upsert_records, begin. rewrite He, Hr.
  cbn [bind upsert_loop]. unfold conn_execute. rewrite Hp. reflexivity.
Qed.

(** The values [record_data] hands to the statement are those of the
    record's own fields. *)
Lemma bound_values_record_data (c : Casts) (r : Rec) :
  bound_values c (record_data r)
  = bound_bind (sql_text c (rget r "site_id")) (fun a =>
    bound_bind (sql_text c (rget r "object_type")) (fun b =>
    bound_bind (sql_text c (rget r "object_id")) (fun c0 =>
    bound_bind (sql_text c (rget r "title")) (fun d =>
    bound_bind (sql_text c (rget r "description")) (fun e =>
    bound_bind (sql_array c (Py.or_ (rget r "tags") (PList []))) (fun f =>
    bound_bind (sql_array c (Py.or_ (rget r "fields") (PList []))) (fun g =>
    bound_bind (sql_text c (rget r "project_name")) (fun h =>
    bound_bind (sql_text c (rget r "owner")) (fun i =>
    bound_bind (sql_text c (rget r "url")) (fun j =>
    bound_bind (sql_text c (rget r "text_blob")) (fun k =>
    Stored (mkValues a b c0 d e f g h i j k)))))))))))).
Proof. reflexivity. Qed.

(** When the statement of a record runs, each column it supplies is the
    bound value of the field of that name. *)
Lemma statement_executed (c : Casts) (r : Rec) (p : Params) :
  statement c (record_data r) = Executed p ->
  sql_text c (rget r "site_id") = Stored (Some (p_site_id p))
  /\ sql_text c (rget r "object_type") = Stored (Some (p_object_type p))
  /\ sql_text c (rget r "object_id") = Stored (Some (p_object_id p))
  /\ sql_text c (rget r "title") = Stored (Some (p_title p))
  /\ sql_text c (rget r "description") = Stored (p_description p)
  /\ sql_array c (Py.or_ (rget r "tags") (PList [])) = Stored (p_tags p)
  /\ sql_array c (Py.or_ (rget r "fields") (PList [])) = Stored (p_fields p)
  /\ sql_text c (rget r "project_name") = Stored (p_project_name p)
  /\ sql_text c (rget r "owner") = Stored (p_owner p)
  /\ sql_text c (rget r "url") = Stored (p_url p)
  /\ sql_text c (rget r "text_blob") = Stored (Some (p_text_blob p)).
Proof.
  unfold statement.
  destruct (forallb _ (record_data r)); [|discriminate].
  rewrite bound_values_record_data.
  destruct (sql_text c (rget r "site_id")) as [a| |]; cbn [bound_bind]; try discriminate.
  destruct (sql_text c (rget r "object_type")) as [b| |]; cbn [bound_bind];
    try discriminate.
  destruct (sql_text c (rget r "object_id")) as [c0| |]; cbn [bound_bind];
    try discriminate.
  destruct (sql_text c (rget r "title")) as [d| |]; cbn [bound_bind]; try discriminate.
  destruct (sql_text c (rget r "description")) as [e| |]; cbn [bound_bind];
    try discriminate.
  destruct (sql_array c (Py.or_ (rget r "tags") (PList []))) as [f| |];
    cbn [bound_bind]; try discriminate.
  destruct (sql_array c (Py.or_ (rget r "fields") (PList []))) as [g| |];
    cbn [bound_bind]; try discriminate.
  destruct (sql_text c (rget r "project_name")) as [h| |]; cbn [bound_bind];
    try discriminate.
  destruct (sql_text c (rget r "owner")) as [i| |]; cbn [bound_bind]; try discriminate.
  destruct (sql_text c (rget r "url")) as [j| |]; cbn [bound_bind]; try discriminate.
  destruct (sql_text c (rget r "text_blob")) as [k| |]; cbn [bound_bind];
    try discriminate.
  unfold not_null. cbn [v_site_id v_object_type v_object_id v_title v_text_blob
    v_description v_tags v_fields v_project_name v_owner v_url].
  destruct a as [a|]; [|discriminate]. destruct b as [b|]; [|discriminate].
  destruct c0 as [c0|]; [|discriminate]. destruct d as [d|]; [|discriminate].
  destruct k as [k|]; [|discriminate].
  intros [= <-]. cbn. repeat split; reflexivity.
Qed.

Lemma sql_text_str (c : Casts) (v : PyVal) (s : string) (o : option string) :
  sql_text c v = Stored o -> v = PStr s -> o = Some s.
Proof.
  intros H ->. cbn in H. destruct (Text.has_nul s); [discriminate | congruence].
Qed.

Lemma sql_text_none (c : Casts) (v : PyVal) (o : option string) :
  sql_text c v = Stored o -> v = PNone -> o = None.
Proof. intros H ->. cbn in H. congruence. Qed.

Lemma sql_text_int (c : Casts) (v : PyVal) (n : Z) (o : option string) :
  sql_text c v = Stored o -> v = PInt n ->
  o = Some (NilZero.string_of_int (Z.to_int n)).
Proof. intros H ->. cbn in H. congruence. Qed.

Lemma sql_text_bool (c : Casts) (v : PyVal) (b : bool) (o : option string) :
  sql_text c v = Stored o -> v = PBool b ->
  o = Some (if b then "true" else "false").
Proof. intros H ->. cbn in H. congruence. Qed.

Lemma strings_of_map (l : list string) : strings_of (map PStr l) = Some l.
Proof.
  induction l as [|s l IH]; simpl; [reflexivity|]. now rewrite IH.
Qed.

Lemma sql_array_strings (c : Casts) (v : PyVal) (l a : list string) :
  sql_array c (Py.or_ v (PList [])) = Stored a -> v = PList (map PStr l) -> a = l.
Proof.
  intros H ->. destruct l as [|s l].
  - cbn in H. congruence.
  - change (Py.or_ (PList (map PStr (s :: l))) (PList []))
      with (PList (map PStr (s :: l))) in H.
    unfold sql_array in H. rewrite strings_of_map in H.
    destruct (forallb adaptable (map PStr (s :: l))); [congruence | discriminate].
Qed.

Lemma sql_array_falsy (c : Casts) (v : PyVal) (a : list string) :
  sql_array c (Py.or_ v (PList [])) = Stored a -> Py.truthy v = false -> a = [].
Proof.
  unfold Py.or_. intros H Hv. rewrite Hv in H. cbn in H. congruence.
Qed.

End StoreFacts.

(** C1.  Upserting two records with the same key one after the other (in
    particular the same record twice), each with a statement that runs,
    leaves exactly one row under that key.  Every column of that row that
    the statement lists is the bound value of the second record's field of
    that name: a string as it is, [None] as NULL, a number as its decimal
    text, a boolean as [true] or [false], the tags and fields as the list
    given, or the empty list for a missing one; [updated_at] is the time of
    the second call.  Any
    sequence of [upsert_records] calls, whatever the records and the
    batches, keeps the keys of the table pairwise distinct. *)
Theorem C1_upsert_idempotent_key_unique :
  forall (env : Store.Env) (db : Store.Db) (r1 r2 : Rec) (p1 p2 : Store.Params)
         (now1 now2 : nat),
    Store.get_engine env = Ok tt ->
    Store.reachable db = true ->
    Store.unique_keys db.(Store.table) ->
    Store.statement db.(Store.casts) (Store.record_data r1) = Store.Executed p1 ->
    Store.statement db.(Store.casts) (Store.record_data r2) = Store.Executed p2 ->
    Store.p_key p1 = Store.p_key p2 ->
    (exists db1 db2 row,
        Store.upsert_records env now1 [r1] db = Ok (1, db1)
        /\ Store.upsert_records env now2 [r2] db1 = Ok (1, db2)
        /\ Store.rows_with_key (Store.p_key p2) db2.(Store.table) = [row]
        /\ Store.updated_at row = now2
        /\ Store.unique_keys db2.(Store.table)
        /\ (let bound := Store.sql_text db.(Store.casts) in
            bound (rget r2 "site_id") = Store.Stored (Some (Store.site_id row))
            /\ bound (rget r2 "object_type") = Store.Stored (Some (Store.object_type row))
            /\ bound (rget r2 "object_id") = Store.Stored (Some (Store.object_id row))
            /\ bound (rget r2 "title") = Store.Stored (Some (Store.title row))
            /\ bound (rget r2 "description") = Store.Stored (Store.description row)
            /\ bound (rget r2 "project_name") = Store.Stored (Store.project_name row)
            /\ bound (rget r2 "owner") = Store.Stored (Store.owner row)
            /\ bound (rget r2 "url") = Store.Stored (Store.url row)
            /\ bound (rget r2 "text_blob") = Store.Stored (Some (Store.text_blob row)))
        /\ Store.sql_array db.(Store.casts) (Py.or_ (rget r2 "tags") (PList []))
           = Store.Stored (Store.tags row)
        /\ Store.sql_array db.(Store.casts) (Py.or_ (rget r2 "fields") (PList []))
           = Store.Stored (Store.fields row)
        /\ (forall s, rget r2 "site_id" = PStr s -> Store.site_id row = s)
        /\ (forall s, rget r2 "object_type" = PStr s -> Store.object_type row = s)
        /\ (forall s, rget r2 "object_id" = PStr s -> Store.object_id row = s)
        /\ (forall s, rget r2 "title" = PStr s -> Store.title row = s)
        /\ (forall n, rget r2 "title" = PInt n ->
                      Store.title row = NilZero.string_of_int (Z.to_int n))
        /\ (forall b, rget r2 "title" = PBool b ->
                      Store.title row = if b then "true" else "false")
        /\ (forall s, rget r2 "text_blob" = PStr s -> Store.text_blob row = s)
        /\ (forall s, rget r2 "description" = PStr s -> Store.description row = Some s)
        /\ (rget r2 "description" = PNone -> Store.description row = None)
        /\ (forall s, rget r2 "project_name" = PStr s -> Store.project_name row = Some s)
        /\ (rget r2 "project_name" = PNone -> Store.project_name row = None)
        /\ (forall s, rget r2 "owner" = PStr s -> Store.owner row = Some s)
        /\ (rget r2 "owner" = PNone -> Store.owner row = None)
        /\ (forall s, rget r2 "url" = PStr s -> Store.url row = Some s)
        /\ (rget r2 "url" = PNone -> Store.url row = None)
        /\ (forall l, rget r2 "tags" = PList (map PStr l) -> Store.tags row = l)
        /\ (Py.truthy (rget r2 "tags") = false -> Store.tags row = [])
        /\ (forall l, rget r2 "fields" = PList (map PStr l) -> Store.fields row = l)
        /\ (Py.truthy (rget r2 "fields") = false -> Store.fields row = []))
    /\ (forall (clock : nat -> nat) (batches : list (list Rec)) (k n : nat),
          Store.unique_keys
            (snd (Store.upsert_batches env clock k batches db n)).(Store.table)).
Proof.
  intros env db r1 r2 p1 p2 now1 now2 He Hr Hu Hp1 Hp2 Hk. split.
  - set (t1 := Store.UPSERT_SQL now1 p1 db.(Store.table)).
    assert (Hu1 : Store.unique_keys t1) by now apply UPSERT_SQL_unique.
    destruct (UPSERT_SQL_row now2 p2 t1 Hu1) as (row & Hrow & Hpay & Htime & _).
    destruct (statement_executed _ _ _ Hp2)
      as (Ha & Hb & Hc & Hd & He' & Hf & Hg & Hh & Hi & Hj & Hk').
    assert (Hcols :
      Store.site_id row = Store.p_site_id p2
      /\ Store.object_type row = Store.p_object_type p2
      /\ Store.object_id row = Store.p_object_id p2
      /\ Store.title row = Store.p_title p2
      /\ Store.description row = Store.p_description p2
      /\ Store.tags row = Store.p_tags p2
      /\ Store.fields row = Store.p_fields p2
      /\ Store.project_name row = Store.p_project_name p2
      /\ Store.owner row = Store.p_owner p2
      /\ Store.url row = Store.p_url p2
      /\ Store.text_blob row = Store.p_text_blob p2).
    { rewrite <- Hpay. repeat split. }
    destruct Hcols as (Ca & Cb & Cc & Cd & Ce & Cf & Cg & Ch & Ci & Cj & Ck).
    rewrite <- Ca in Ha. rewrite <- Cb in Hb. rewrite <- Cc in Hc.
    rewrite <- Cd in Hd. rewrite <- Ce in He'. rewrite <- Cf in Hf.
    rewrite <- Cg in Hg. rewrite <- Ch in Hh. rewrite <- Ci in Hi.
    rewrite <- Cj in Hj. rewrite <- Ck in Hk'.
    exists (Store.with_table db t1),
           (Store.with_table db (Store.UPSERT_SQL now2 p2 t1)), row.
    split; [now apply upsert_records_one|].
    split; [now apply (upsert_records_one env now2 r2 p2 (Store.with_table db t1))|].
    split; [exact Hrow|]. split; [exact Htime|].
    split; [simpl; now apply UPSERT_SQL_unique|].
    split; [cbv zeta; repeat split; assumption|].
    split; [exact Hf|]. split; [exact Hg|].
    assert (Hsome : forall (a b : string), Some a = Some b -> a = b)
      by (intros a b H; now inversion H).
    repeat split.
    + intros s Hs. apply Hsome. exact (sql_text_str _ _ s _ Ha Hs).
    + intros s Hs. apply Hsome. exact (sql_text_str _ _ s _ Hb Hs).
    + intros s Hs. apply Hsome. exact (sql_text_str _ _ s _ Hc Hs).
    + intros s Hs. apply Hsome. exact (sql_text_str _ _ s _ Hd Hs).
    + intros n Hn. apply Hsome. exact (sql_text_int _ _ n _ Hd Hn).
    + intros b Hbool. apply Hsome. exact (sql_text_bool _ _ b _ Hd Hbool).
    + intros s Hs. apply Hsome. exact (sql_text_str _ _ s _ Hk' Hs).
    + intros s Hs. exact (sql_text_str _ _ s _ He' Hs).
    + intros Hs. exact (sql_text_none _ _ _ He' Hs).
    + intros s Hs. exact (sql_text_str _ _ s _ Hh Hs).
    + intros Hs. exact (sql_text_none _ _ _ Hh Hs).
    + intros s Hs. exact (sql_text_str _ _ s _ Hi Hs).
    + intros Hs. exact (sql_text_none _ _ _ Hi Hs).
    + intros s Hs. exact (sql_text_str _ _ s _ Hj Hs).
    + intros Hs. exact (sql_text_none _ _ _ Hj Hs).
    + intros l Hl. exact (sql_array_strings _ _ l _ Hf Hl).
    + intros Hl. exact (sql_array_falsy _ _ _ Hf Hl).
    + intros l Hl. exact (sql_array_strings _ _ l _ Hg Hl).
    + intros Hl. exact (sql_array_falsy _ _ _ Hg Hl).
  - intros clock batches k n. now apply upsert_batches_unique.
Qed.

Lemma C1_witness :
  exists db1 db2 row,
    Store.upsert_records Examples.env0 1 [Examples.wb_sales] Examples.db_empty
    = Ok (1, db1)
    /\ Store.upsert_records Examples.env0 2 [Examples.wb_numbered] db1 = Ok (1, db2)
    /\ Store.rows_with_key ("S1", "workbook", "wb-1") db2.(Store.table) = [row]
    /\ Store.title row = "2024"
    /\ Store.description row = None
    /\ Store.tags row = []
    /\ Store.updated_at row = 2.
Proof.
  destruct (proj1 (C1_upsert_idempotent_key_unique Examples.env0 Examples.db_empty
                     Examples.wb_sales Examples.wb_numbered
                     Examples.p_sales Examples.p_numbered 1 2
                     eq_refl eq_refl (NoDup_nil _) eq_refl eq_refl eq_refl))
    as (db1 & db2 & row & H1 & H2 & Hrow & Htime & _ & _ & _ & _
        & _ & _ & _ & _ & Htitle & _ & _ & _ & Hdesc
        & _ & _ & _ & _ & _ & _ & _ & Htags & _ & _).
  exists db1, db2, row. split; [exact H1|]. split; [exact H2|].
  split; [exact Hrow|]. split; [exact (Htitle 2024%Z eq_refl)|].
  split; [exact (Hdesc eq_refl)|]. split; [exact (Htags eq_refl) | exact Htime].
Defined.

(** ** The store: embeddings across an upsert *)

Section EmbeddingFacts.
Import Store.
Local Arguments key_eqb : simpl never.
Local Arguments key : simpl never.
Local Arguments p_key : simpl never.

Lemma filter_key_exact (r : Row) (l : list Row) :
  NoDup (map key l) -> In r l ->
  filter (fun x => key_eqb (key x) (key r)) l = [r].
Proof.
  induction l as [|a l IH]; simpl; intros Hnd Hin; [contradiction|].
  inversion Hnd as [|? ? Hnotin Hnd']; subst.
  destruct (key_eqb (key a) (key r)) eqn:E.
  - apply key_eqb_eq in E.
    assert (Hr : ~ In (key r) (map key l)) by now rewrite <- E.
    destruct Hin as [-> | Hin].
    + now rewrite (filter_key_absent (key r) l Hr).
    + exfalso. apply Hr. now apply in_map.
  - destruct Hin as [-> | Hin].
    + rewrite key_eqb_refl in E. discriminate.
    + exact (IH Hnd' Hin).
Qed.

Lemma in_rows_with_key (k : Key) (t : Table) (r : Row) :
  In r (rows_with_key k t) <-> In r t.(rows) /\ key r = k.
Proof.
  unfold rows_with_key. rewrite filter_In. now rewrite key_eqb_eq.
Qed.

Lemma UPSERT_SQL_overwrites (now : nat) (p : Params) (t : Table) (old : Row) :
  unique_keys t -> In old t.(rows) -> key old = p_key p ->
  rows_with_key (p_key p) (UPSERT_SQL now p t) = [do_update now p old].
Proof.
  intros Hu Hin Hk. unfold rows_with_key, UPSERT_SQL.
  assert (E : existsb (fun r => key_eqb (key r) (p_key p)) (rows t) = true).
  { apply existsb_key_In. rewrite <- Hk. now apply in_map. }
  rewrite E. cbn [rows]. rewrite filter_map_update.
  rewrite <- Hk. now rewrite (filter_key_exact old (rows t) Hu Hin).
Qed.

End EmbeddingFacts.

(** C5, as stated, fails: a row that holds an embedding keeps it when an
    upsert overwrites its text_blob, and the next selection of rows without
    embedding does not contain it. *)
Lemma C5_counterexample :
  Store.rows Examples.table_embedded = [Examples.row_sales_embedded]
  /\ Store.embedding Examples.row_sales_embedded = Some Examples.vec0
  /\ Store.upsert_records Examples.env0 5 [Examples.wb_sales_v2]
       (Store.mkDb true Examples.casts0 Examples.table_embedded)
     = Ok (1, Store.mkDb true Examples.casts0
                (Store.mkTable [Examples.row_sales_overwritten] 3))
  /\ Store.text_blob Examples.row_sales_overwritten
     <> Store.text_blob Examples.row_sales_embedded
  /\ Store.embedding Examples.row_sales_overwritten = Some Examples.vec0
  /\ Store.get_unembedded_records None
       (Store.mkDb true Examples.casts0
          (Store.mkTable [Examples.row_sales_overwritten] 3))
     = Ok [].
Proof.
  repeat split; try reflexivity. discriminate.
Qed.

(** C5, amended.  An upsert of a record whose statement runs and that
    meets an existing row under its key leaves one row under that key,
    with the id of the old one.  Its text_blob and the other columns the
    statement lists (title, description, tags, fields, project_name,
    owner, url) are the bound values of the record's fields, and
    [updated_at] is the time of the statement.  The embedding is what it
    was: when the row had an embedding, no row under that key is among
    the rows without embedding afterwards, so the generator does not
    select it again; when it had none, it still has none and stays among
    the rows the generator selects from. *)
Theorem C5_upsert_keeps_embedding :
  forall (env : Store.Env) (now : nat) (r : Rec) (p : Store.Params) (db : Store.Db)
         (old : Store.Row),
    Store.get_engine env = Ok tt ->
    Store.reachable db = true ->
    Store.unique_keys db.(Store.table) ->
    Store.statement db.(Store.casts) (Store.record_data r) = Store.Executed p ->
    In old db.(Store.table).(Store.rows) ->
    Store.key old = Store.p_key p ->
    exists db' row,
      Store.upsert_records env now [r] db = Ok (1, db')
      /\ Store.rows_with_key (Store.p_key p) db'.(Store.table) = [row]
      /\ Store.id row = Store.id old
      /\ Store.embedding row = Store.embedding old
      /\ Store.updated_at row = now
      /\ (let bound := Store.sql_text db.(Store.casts) in
          bound (rget r "text_blob") = Store.Stored (Some (Store.text_blob row))
          /\ bound (rget r "title") = Store.Stored (Some (Store.title row))
          /\ bound (rget r "description") = Store.Stored (Store.description row)
          /\ bound (rget r "project_name") = Store.Stored (Store.project_name row)
          /\ bound (rget r "owner") = Store.Stored (Store.owner row)
          /\ bound (rget r "url") = Store.Stored (Store.url row))
      /\ Store.sql_array db.(Store.casts) (Py.or_ (rget r "tags") (PList []))
         = Store.Stored (Store.tags row)
      /\ Store.sql_array db.(Store.casts) (Py.or_ (rget r "fields") (PList []))
         = Store.Stored (Store.fields row)
      /\ (forall s, rget r "text_blob" = PStr s -> Store.text_blob row = s)
      /\ (Store.has_embedding old = true ->
          forall r', In r' (Store.pending db'.(Store.table)) ->
                     Store.key r' <> Store.p_key p)
      /\ (Store.has_embedding old = false ->
          In row (Store.pending db'.(Store.table))).
Proof.
  intros env now r p db old He Hr Hu Hp Hin Hk.
  pose proof (UPSERT_SQL_overwrites now p db.(Store.table) old Hu Hin Hk) as Hrow.
  destruct (statement_executed _ _ _ Hp)
    as (_ & _ & _ & Hd & He' & Hf & Hg & Hh & Hi & Hj & Hk').
  exists (Store.with_table db (Store.UPSERT_SQL now p db.(Store.table))),
         (Store.do_update now p old).
  split; [now apply upsert_records_one|].
  cbn [Store.with_table Store.table].
  split; [exact Hrow|]. split; [reflexivity|]. split; [reflexivity|].
  split; [reflexivity|].
  split; [cbv zeta; cbn [Store.do_update Store.text_blob Store.title Store.description
                          Store.project_name Store.owner Store.url];
          repeat split; assumption|].
  split; [exact Hf|]. split; [exact Hg|].
  split.
  { intros s Hs. cbn [Store.do_update Store.text_blob].
    pose proof (sql_text_str _ _ s _ Hk' Hs) as H. now inversion H. }
  split.
  - intros Hhas r' Hr' Hkr.
    unfold Store.pending in Hr'. apply filter_In in Hr' as [Hr' Hno].
    assert (Hrr : In r' (Store.rows_with_key (Store.p_key p)
                           (Store.UPSERT_SQL now p db.(Store.table))))
      by now apply in_rows_with_key.
    rewrite Hrow in Hrr. destruct Hrr as [<- | []].
    unfold Store.has_embedding in Hno, Hhas. cbn [Store.do_update Store.embedding] in Hno.
    destruct (Store.embedding old); simpl in *; discriminate.
  - intros Hno.
    assert (Hrr : In (Store.do_update now p old)
                    (Store.rows_with_key (Store.p_key p)
                       (Store.UPSERT_SQL now p db.(Store.table))))
      by (rewrite Hrow; now left).
    apply in_rows_with_key in Hrr as [Hrr _].
    unfold Store.pending. apply filter_In. split; [exact Hrr|].
    unfold Store.has_embedding in *. cbn [Store.do_update Store.embedding].
    now destruct (Store.embedding old).
Qed.

Lemma C5_witness :
  exists db' row,
    Store.upsert_records Examples.env0 5 [Examples.wb_sales_v2]
      (Store.mkDb true Examples.casts0 Examples.table_embedded) = Ok (1, db')
    /\ Store.rows_with_key (Store.p_key Examples.p_sales_v2) db'.(Store.table) = [row]
    /\ Store.text_blob row = "sales 2024 weekly sales figures kpi finance ann"
    /\ Store.embedding row = Some Examples.vec0
    /\ forall r', In r' (Store.pending db'.(Store.table)) ->
                  Store.key r' <> Store.p_key Examples.p_sales_v2.
Proof.
  destruct (C5_upsert_keeps_embedding Examples.env0 5 Examples.wb_sales_v2
              Examples.p_sales_v2
              (Store.mkDb true Examples.casts0 Examples.table_embedded)
              Examples.row_sales_embedded eq_refl eq_refl)
    as (db' & row & H1 & H2 & _ & H4 & _ & _ & _ & _ & H9 & H10 & _).
  - repeat constructor. intros [].
  - reflexivity.
  - left. reflexivity.
  - reflexivity.
  - exists db', row. split; [exact H1|]. split; [exact H2|].
    split; [exact (H9 _ eq_refl)|]. split; [exact H4|]. exact (H10 eq_refl).
Defined.

(** ** The quality gate *)

Section QualityFacts.
Import Quality.

Lemma site_isolation_nil (expected : string) (records : list Rec) (i : nat) :
  site_isolation_issues expected i records = []
  <-> forallb (site_ok expected) records = true.
Proof.
  revert i. induction records as [|r rs IH]; intros i; [now split|].
  cbn [site_isolation_issues forallb]. unfold site_ok at 1.
  rewrite andb_true_iff, <- (IH (S i)).
  destruct (Py.truthy (rget r "site_id")); cbn [negb andb].
  - destruct (Py.eq_str (rget r "site_id") expected); cbn [negb app].
    + tauto.
    + split; [discriminate | intros [H _]; discriminate].
  - split; [discriminate | intros [H _]; discriminate].
Qed.

Lemma missing_fields_nil (i : nat) (r : Rec) :
  missing_fields i r = [] <-> fields_ok r = true.
Proof.
  unfold missing_fields, fields_ok, required_fields.
  cbn [flat_map forallb app].
  destruct (Py.truthy (rget r "object_id")), (Py.truthy (rget r "title")),
           (Py.truthy (rget r "object_type")), (Py.truthy (rget r "text_blob"));
    cbn; split; congruence.
Qed.

Lemma required_fields_nil (records : list Rec) (i : nat) :
  required_fields_issues i records = [] <-> forallb fields_ok records = true.
Proof.
  revert i. induction records as [|r rs IH]; intros i; [now split|].
  cbn [required_fields_issues forallb].
  rewrite andb_true_iff, <- (IH (S i)), <- (missing_fields_nil i r).
  split.
  - intros H. now apply app_eq_nil in H.
  - intros [-> ->]. reflexivity.
Qed.

Lemma nil_iff_bool {A} (l : list A) (b : bool) :
  (l = [] <-> b = true) -> match l with [] => true | _ => false end = b.
Proof.
  destruct l, b; intros [H1 H2]; try reflexivity.
  - discriminate (H1 eq_refl).
  - discriminate (H2 eq_refl).
Qed.

Lemma check_site_isolation_spec (self : QualityChecker) (records : list Rec) :
  fst (check_site_isolation self records) = forallb (site_ok self.(site_id)) records
  /\ (snd (check_site_isolation self records)).(site_id) = self.(site_id).
Proof.
  unfold check_site_isolation.
  pose proof (nil_iff_bool _ _ (site_isolation_nil self.(site_id) records 0)) as H.
  destruct (site_isolation_issues (site_id self) 0 records); split; try exact H; reflexivity.
Qed.

Lemma check_required_fields_spec (self : QualityChecker) (records : list Rec) :
  fst (check_required_fields self records) = forallb fields_ok records.
Proof.
  unfold check_required_fields.
  pose proof (nil_iff_bool _ _ (required_fields_nil records 0)) as H.
  destruct (required_fields_issues 0 records); exact H.
Qed.

Lemma forallb_andb {A} (f g : A -> bool) (l : list A) :
  forallb (fun x => f x && g x) l = forallb f l && forallb g l.
Proof.
  induction l as [|x l IH]; [reflexivity|]. simpl. rewrite IH.
  destruct (f x), (g x), (forallb f l); reflexivity.
Qed.

(** What [run_all_checks] reports for the two blocking checks. *)
Lemma run_all_checks_blocking (self : QualityChecker) (records : list Rec)
    (q : QualityResults) (self' : QualityChecker) :
  run_all_checks self records = Ok (q, self') ->
  q.(r_site_isolation) = forallb (site_ok self.(site_id)) records
  /\ q.(r_required_fields) = forallb fields_ok records
  /\ q.(overall_quality) = q.(r_site_isolation) && q.(r_required_fields).
Proof.
  unfold run_all_checks.
  destruct (check_site_isolation_spec self records) as [Hiso _].
  destruct (check_site_isolation self records) as [iso self1].
  pose proof (check_required_fields_spec self1 records) as Hreq.
  destruct (check_required_fields self1 records) as [req self2].
  simpl in Hiso, Hreq.
  destruct (check_description_quality self2 records) as [d|]; cbn [bind]; [|discriminate].
  destruct (check_url_quality (snd d) records) as [u|]; cbn [bind]; [|discriminate].
  destruct (check_text_blob_quality (snd u) records) as [b|]; cbn [bind]; [|discriminate].
  intros H. inversion H; subst; clear H. cbn.
  repeat split. now rewrite andb_true_r.
Qed.

Lemma overall_quality_spec (self : QualityChecker) (records : list Rec)
    (q : QualityResults) (self' : QualityChecker) :
  run_all_checks self records = Ok (q, self') ->
  q.(overall_quality) = forallb (blocking_ok self.(site_id)) records.
Proof.
  intros H. destruct (run_all_checks_blocking _ _ _ _ H) as (H1 & H2 & H3).
  unfold blocking_ok. now rewrite forallb_andb, H3, H1, H2.
Qed.

Lemma foldM_total {A S} (f : S -> A -> Result S) (l : list A) :
  (forall st a, In a l -> exists st', f st a = Ok st') ->
  forall st, exists st', foldM f st l = Ok st'.
Proof.
  induction l as [|a l IH]; intros H st; [now exists st|].
  destruct (H st a (or_introl eq_refl)) as [st1 H1].
  cbn [foldM]. rewrite H1. cbn [bind].
  apply IH. intros st2 b Hb. apply H. now right.
Qed.

Lemma desc_step_total (st : DescStats) (r : Rec) :
  well_typed r = true -> exists st', desc_step st r = Ok st'.
Proof.
  unfold well_typed, desc_step. intros H.
  apply andb_true_iff in H as [H _]. apply andb_true_iff in H as [H _].
  destruct (rget_d r "description" (PStr "")) as [| | |s| |]; cbn in H |- *;
    try (rewrite H; eexists; reflexivity); try (eexists; reflexivity).
  destruct (negb (String.eqb s "")); cbn [negb]; [|eexists; reflexivity].
  destruct (String.eqb (Text.strip s) ""); eexists; reflexivity.
Qed.

Lemma url_step_total (st : UrlStats) (r : Rec) :
  well_typed r = true -> exists st', url_step st r = Ok st'.
Proof.
  unfold well_typed, url_step. intros H.
  apply andb_true_iff in H as [H _]. apply andb_true_iff in H as [_ H].
  destruct (rget_d r "url" (PStr "")) as [| | |s| |]; cbn in H |- *;
    try (rewrite H; cbn; eexists; reflexivity); try (eexists; reflexivity).
  destruct (negb (String.eqb s "")); cbn; eexists; reflexivity.
Qed.

Lemma blob_step_total (st : BlobStats) (r : Rec) :
  well_typed r = true -> exists st', blob_step st r = Ok st'.
Proof.
  unfold well_typed, blob_step. intros H.
  apply andb_true_iff in H as [_ H].
  destruct (rget_d r "text_blob" (PStr "")) as [| | |s|l|d]; cbn in H |- *;
    try (rewrite H; cbn; eexists; reflexivity); try (eexists; reflexivity).
  - destruct (negb (String.eqb s "")); cbn; eexists; reflexivity.
  - destruct l; cbn; eexists; reflexivity.
  - destruct d; cbn; eexists; reflexivity.
Qed.

Lemma run_all_checks_total (self : QualityChecker) (records : list Rec) :
  forallb well_typed records = true ->
  exists q self', run_all_checks self records = Ok (q, self').
Proof.
  intros H. rewrite forallb_forall in H.
  unfold run_all_checks.
  destruct (check_site_isolation self records) as [iso self1].
  destruct (check_required_fields self1 records) as [req self2].
  unfold check_description_quality, check_url_quality, check_text_blob_quality.
  destruct (foldM_total desc_step records
              (fun st a Ha => desc_step_total st a (H a Ha))
              (mkDescStats (List.length records) 0 0 0 0 0)) as [d ->].
  cbn [bind snd fst].
  destruct (foldM_total url_step records
              (fun st a Ha => url_step_total st a (H a Ha))
              (mkUrlStats (List.length records) 0 0 0 0 0)) as [u ->].
  cbn [bind snd fst].
  destruct (foldM_total blob_step records
              (fun st a Ha => blob_step_total st a (H a Ha))
              (mkBlobStats (List.length records) 0 0 0 0)) as [b ->].
  cbn [bind snd fst]. eexists. eexists. reflexivity.
Qed.

End QualityFacts.

(** C2.  On every batch whose advisory checks can run, the gate returns a
    result; in every result [overall_quality] is the conjunction of the two
    blocking checks, hence true exactly when every record has the target
    site_id and its required fields; batches that agree record by record on
    the blocking conditions get the same [overall_quality] whatever their
    advisory findings; and a batch that fails stays failed when records are
    added around it. *)
Theorem C2_overall_quality_blocking_only :
  forall (self : Quality.QualityChecker) (records : list Rec),
    (forallb Quality.well_typed records = true ->
     exists q self', Quality.run_all_checks self records = Ok (q, self'))
    /\ (forall q self',
          Quality.run_all_checks self records = Ok (q, self') ->
          q.(Quality.overall_quality)
            = q.(Quality.r_site_isolation) && q.(Quality.r_required_fields)
          /\ q.(Quality.overall_quality)
             = forallb (Quality.blocking_ok self.(Quality.site_id)) records
          /\ (forall records2 q2 self2,
                Quality.run_all_checks self records2 = Ok (q2, self2) ->
                map (Quality.blocking_ok self.(Quality.site_id)) records2
                  = map (Quality.blocking_ok self.(Quality.site_id)) records ->
                q2.(Quality.overall_quality) = q.(Quality.overall_quality))
          /\ (forall before after q2 self2,
                Quality.run_all_checks self (before ++ records ++ after) = Ok (q2, self2) ->
                q.(Quality.overall_quality) = false ->
                q2.(Quality.overall_quality) = false)).
Proof.
  intros self records. split; [apply run_all_checks_total|].
  intros q self' H.
  destruct (run_all_checks_blocking _ _ _ _ H) as (_ & _ & H3).
  pose proof (overall_quality_spec _ _ _ _ H) as Ho.
  split; [exact H3|]. split; [exact Ho|]. split.
  - intros records2 q2 self2 H2 Hmap.
    rewrite Ho, (overall_quality_spec _ _ _ _ H2).
    rewrite <- (map_id records2) at 1. rewrite <- (map_id records) at 1.
    clear - Hmap. revert records Hmap.
    induction records2 as [|a l IH]; intros [|b m] Hm; try discriminate; [reflexivity|].
    cbn in Hm |- *. injection Hm as Hab Hlm.
    rewrite !map_id in *. rewrite Hab. f_equal.
    specialize (IH m Hlm). now rewrite !map_id in IH.
  - intros before after q2 self2 H2 Hf.
    rewrite (overall_quality_spec _ _ _ _ H2), !forallb_app.
    rewrite <- Ho, Hf. now rewrite andb_false_r.
Qed.

Lemma C2_witness :
  exists q s,
    Quality.run_all_checks (Quality.new "S1" "main") [Examples.wb_advisory] = Ok (q, s)
    /\ q.(Quality.overall_quality) = true
    /\ q.(Quality.r_warnings) <> [].
Proof.
  destruct (proj1 (C2_overall_quality_blocking_only (Quality.new "S1" "main")
                     [Examples.wb_advisory]) eq_refl) as (q & s & H).
  exists q, s. split; [exact H|]. split.
  - destruct (proj2 (C2_overall_quality_blocking_only (Quality.new "S1" "main")
                       [Examples.wb_advisory]) q s H) as (_ & Ho & _).
    rewrite Ho. reflexivity.
  - vm_compute in H. inversion H. discriminate.
Defined.

(** ** The indexing run *)

Section IndexerFacts.
Import Indexer.

Lemma gate_blocked (site : option string) (site_name : string) (records : list Rec)
    (q : Quality.QualityResults) (chk : Quality.QualityChecker) :
  Quality.run_all_checks
    (Quality.new (match site with Some s => s | None => "" end) site_name) records
    = Ok (q, chk) ->
  q.(Quality.overall_quality) = false ->
  quality_gate true site site_name records = Blocked.
Proof.
  intros H Hf. unfold quality_gate.
  destruct records as [|r rs].
  - rewrite (overall_quality_spec _ _ _ _ H) in Hf. discriminate.
  - rewrite H, Hf. reflexivity.
Qed.

(** A blocked gate ends [index_records] with the database it was given. *)
Lemma index_records_blocked (env : Store.Env) (clock : nat -> nat)
    (site : option string) (site_name : string) (max_objects : option nat)
    (records : list Rec) (stats : IndexStats) (db : Store.Db) :
  quality_gate true site site_name (apply_max_objects max_objects records) = Blocked ->
  index_records env clock site site_name true max_objects records stats db
  = (add_error stats, db, Ok tt).
Proof.
  intros H. unfold index_records.
  destruct records as [|r rs].
  - destruct max_objects as [[|m]|]; discriminate H.
  - now rewrite H.
Qed.

End IndexerFacts.

(** C3.  When an indexing run reaches the quality gate and the gate returns
    [overall_quality = false], the run ends without executing an upsert: it
    returns the database it started with, counts one error and reports no
    record as processed. *)
Theorem C3_blocked_run_writes_nothing :
  forall (repr : PyVal -> string) (http : Client.Http) (env : Store.Env)
         (clock : nat -> nat) (fuel : nat)
         (server_url pat_name pat_secret site_name : string)
         (project_filter : option string) (object_types : option (list string))
         (max_objects : option nat) (db : Store.Db)
         (site : option string) (records : list Rec)
         (c : Indexer.EnhancedTableauClient) (sent : list Client.Request)
         (q : Quality.QualityResults) (chk : Quality.QualityChecker),
    Indexer.crawl repr http env fuel server_url pat_name pat_secret site_name
      object_types db = Some (Indexer.Prepared site records, c, sent) ->
    Quality.run_all_checks
      (Quality.new (match site with Some s => s | None => "" end) site_name)
      (Indexer.apply_max_objects max_objects records) = Ok (q, chk) ->
    q.(Quality.overall_quality) = false ->
    exists stats sent',
      Indexer.index_site repr http env clock fuel server_url pat_name pat_secret
        site_name project_filter object_types true max_objects db
      = Some (stats, db, sent')
      /\ stats.(Indexer.errors) = 1
      /\ stats.(Indexer.total_processed) = 0.
Proof.
  intros repr http env clock fuel server_url pat_name pat_secret site_name
    project_filter object_types max_objects db site records c sent q chk Hc Hq Hf.
  unfold Indexer.index_site. rewrite Hc.
  rewrite (index_records_blocked env clock site site_name max_objects records
             Indexer.initial_stats db (gate_blocked _ _ _ _ _ Hq Hf)).
  unfold Indexer.finish.
  destruct (Indexer.signout http c) as [[r c'] s].
  eexists. eexists. split; [reflexivity|]. split; reflexivity.
Qed.

Lemma C3_witness :
  exists stats sent',
    Indexer.index_site Examples.repr0 Examples.http_nameless Examples.env0
      (fun k => k) 3 "https://tab" "pat" "secret" "main" None None true None
      Examples.db_empty
    = Some (stats, Examples.db_empty, sent')
    /\ stats.(Indexer.errors) = 1
    /\ stats.(Indexer.total_processed) = 0.
Proof.
  eapply (C3_blocked_run_writes_nothing Examples.repr0 Examples.http_nameless
            Examples.env0 (fun k => k) 3 "https://tab" "pat" "secret" "main"
            None None None Examples.db_empty).
  - vm_compute. reflexivity.
  - vm_compute. reflexivity.
  - reflexivity.
Defined.

(** ** The REST client *)

Lemma new_client_has_no_token (server_url pat_name pat_secret site_name : string) :
  Client.has_token (Client.new server_url pat_name pat_secret site_name) = false.
Proof. reflexivity. Qed.

Lemma signout_drops_token (http : Client.Http) (self self' : Client.TableauClient)
    (sent : list Client.Request) :
  Client.signout http self = (Ok true, self', sent) ->
  Client.has_token self' = false.
Proof.
  unfold Client.signout.
  destruct (Client.has_token self) eqn:Ht; cbn [negb].
  - destruct (Client._headers self) as [h|e]; [|discriminate].
    destruct (http _) as [resp|[]]; intros H; inversion H; reflexivity.
  - intros H; inversion H; subst. exact Ht.
Qed.

(** C10.  While the client holds no session token, each of the five listing
    and fetch operations raises the not-authenticated error and sends no
    request. *)
Theorem C10_unauthenticated_calls_fail :
  forall (http : Client.Http) (self : Client.TableauClient) (fuel : nat)
         (project_filter : option (list string)) (workbook_id : string),
    Client.has_token self = false ->
    Client.list_workbooks fuel http self project_filter
      = Some (Raise Client.not_authenticated, [])
    /\ Client.list_datasources fuel http self project_filter
       = Some (Raise Client.not_authenticated, [])
    /\ Client.list_views fuel http self project_filter
       = Some (Raise Client.not_authenticated, [])
    /\ Client.list_views_for_workbook http self workbook_id
       = (Raise Client.not_authenticated, [])
    /\ Client.get_workbook_details http self workbook_id
       = (Raise Client.not_authenticated, []).
Proof.
  intros http self fuel project_filter workbook_id H.
  unfold Client.list_workbooks, Client.list_datasources, Client.list_views,
    Client.list_collection, Client.list_views_for_workbook,
    Client.get_workbook_details.
  rewrite H. repeat split; reflexivity.
Qed.

Lemma C10_witness :
  Client.list_workbooks 5 Examples.http_nameless
    (Client.new "https://tab" "pat" "secret" "main") None
  = Some (Raise Client.not_authenticated, []).
Proof.
  apply (proj1 (C10_unauthenticated_calls_fail Examples.http_nameless
                  (Client.new "https://tab" "pat" "secret" "main") 5 None "wb-9"
                  eq_refl)).
Defined.

(** ** Hybrid search: failures *)

Section SearchFailureFacts.
Import Search.

Lemma text_search_ok (pg : Pg) (db : Store.Db) (query : string) (limit : nat) :
  _text_search pg db query limit
  = Ok (if db.(Store.reachable) && negb (Text.has_nul query)
        then text_query pg query limit db.(Store.table) else []).
Proof.
  unfold _text_search, Store.begin, Store.string_param.
  destruct (Store.reachable db); [|reflexivity]. cbn [bind andb].
  now destruct (Text.has_nul query).
Qed.

Lemma vector_search_ok (pg : Pg) (db : Store.Db) (q : Store.Vec)
    (limit : nat) (threshold : Q) :
  _vector_search pg db q limit threshold = Ok [].
Proof.
  unfold _vector_search, Store.begin.
  destruct (Store.reachable db); reflexivity.
Qed.

(** A query that is not blank is answered by the text query, whatever the
    model does. *)
Lemma search_text (pg : Pg) (svc : EmbeddingService) (db : Store.Db)
    (self : SemanticSearch) (query : string) (limit : nat) (threshold : Q) :
  String.eqb (Text.strip query) "" = false ->
  search pg svc db self query limit threshold = _text_search pg db query limit.
Proof.
  intros Hq. unfold search. rewrite Hq.
  destruct (_load_model svc self) as [s|e]; cbn [bind try_except]; [|reflexivity].
  destruct (encode svc query) as [qe|e]; cbn [bind try_except]; [|reflexivity].
  rewrite vector_search_ok. cbn [bind]. now rewrite text_search_ok.
Qed.

Lemma search_total (pg : Pg) (svc : EmbeddingService) (db : Store.Db)
    (self : SemanticSearch) (query : string) (limit : nat) (threshold : Q) :
  exists hits, search pg svc db self query limit threshold = Ok hits.
Proof.
  destruct (String.eqb (Text.strip query) "") eqn:Hq.
  - unfold search. rewrite Hq. now eexists.
  - rewrite search_text by exact Hq. rewrite text_search_ok. now eexists.
Qed.

End SearchFailureFacts.




(** ** [ORDER BY]: sortedness and permutation *)

Section OrderByFacts.
Variable A : Type.
Variable leb : A -> A -> bool.
Hypothesis leb_total : forall a b, leb a b = false -> leb b a = true.
Hypothesis leb_trans : forall a b c, leb a b = true -> leb b c = true -> leb a c = true.

Let R (a b : A) : Prop := leb a b = true.

Lemma insert_sorted_perm (x : A) (l : list A) :
  Permutation (insert_sorted leb x l) (x :: l).
Proof.
  induction l as [|y l IH]; simpl; [reflexivity|].
  destruct (leb x y); [reflexivity|].
  rewrite IH. apply perm_swap.
Qed.

Lemma order_by_perm (l : list A) : Permutation (order_by leb l) l.
Proof.
  induction l as [|x l IH]; simpl; [reflexivity|].
  rewrite insert_sorted_perm. now constructor.
Qed.

Lemma insert_sorted_sorted (x : A) (l : list A) :
  StronglySorted R l -> StronglySorted R (insert_sorted leb x l).
Proof.
  induction l as [|y l IH]; simpl; intros Hs.
  - repeat constructor.
  - inversion Hs as [|? ? Hs' Hall]; subst.
    destruct (leb x y) eqn:E.
    + constructor; [assumption|].
      constructor; [exact E|].
      eapply Forall_impl; [|exact Hall].
      intros z Hz. exact (leb_trans _ _ _ E Hz).
    + constructor; [now apply IH|].
      apply (Permutation_Forall (Permutation_sym (insert_sorted_perm x l))).
      constructor; [now apply leb_total | assumption].
Qed.

Lemma order_by_sorted (l : list A) : StronglySorted R (order_by leb l).
Proof.
  induction l as [|x l IH]; simpl; [constructor|].
  now apply insert_sorted_sorted.
Qed.

End OrderByFacts.

Section SortedFacts.
Variable A : Type.
Variable R : A -> A -> Prop.

Lemma sorted_firstn (n : nat) (l : list A) :
  StronglySorted R l -> StronglySorted R (firstn n l).
Proof.
  revert n. induction l as [|x l IH]; intros [|n] Hs; simpl; try constructor.
  - inversion Hs; subst. now apply IH.
  - inversion Hs as [|? ? _ Hall]; subst.
    rewrite Forall_forall in *. intros y Hy. apply Hall.
    rewrite <- (firstn_skipn n l). apply in_or_app. now left.
Qed.

Lemma sorted_filter (f : A -> bool) (l : list A) :
  StronglySorted R l -> StronglySorted R (filter f l).
Proof.
  induction l as [|x l IH]; intros Hs; simpl; [constructor|].
  inversion Hs as [|? ? Hs' Hall]; subst.
  destruct (f x); [|now apply IH].
  constructor; [now apply IH|].
  rewrite Forall_forall in *. intros y Hy. apply Hall.
  now apply filter_In in Hy.
Qed.

Lemma sorted_impl (R' : A -> A -> Prop) (l : list A) :
  (forall a b, R a b -> R' a b) -> StronglySorted R l -> StronglySorted R' l.
Proof.
  intros Himp. induction 1 as [|x l Hs IH Hall]; constructor; [assumption|].
  eapply Forall_impl; [|exact Hall]. intros y. apply Himp.
Qed.

Lemma sorted_map {B} (g : A -> B) (R' : B -> B -> Prop) (l : list A) :
  (forall a b, R a b -> R' (g a) (g b)) ->
  StronglySorted R l -> StronglySorted R' (map g l).
Proof.
  intros Himp. induction 1 as [|x l Hs IH Hall]; simpl; constructor; [assumption|].
  rewrite Forall_forall in *. intros y Hy.
  apply in_map_iff in Hy as (a & <- & Ha). apply Himp. now apply Hall.
Qed.

(** In a sorted list everything kept by [firstn] precedes everything
    dropped by it. *)
Lemma sorted_cut (n : nat) (l : list A) :
  StronglySorted R l ->
  forall a b, In a (firstn n l) -> In b (skipn n l) -> R a b.
Proof.
  revert n. induction l as [|x l IH]; intros [|n] Hs a b Ha Hb; simpl in *;
    try contradiction.
  inversion Hs as [|? ? Hs' Hall]; subst.
  destruct Ha as [<- | Ha].
  - rewrite Forall_forall in Hall. apply Hall.
    rewrite <- (firstn_skipn n l). apply in_or_app. now right.
  - exact (IH n Hs' a b Ha Hb).
Qed.

End SortedFacts.

Lemma Qle_bool_total (x y : Q) : Qle_bool x y = false -> Qle_bool y x = true.
Proof.
  intros H. apply Qle_bool_iff. apply Qlt_le_weak. apply Qnot_le_lt.
  intros Hle. apply Qle_bool_iff in Hle. congruence.
Qed.

Lemma Qle_bool_trans (x y z : Q) :
  Qle_bool x y = true -> Qle_bool y z = true -> Qle_bool x z = true.
Proof.
  rewrite !Qle_bool_iff. apply Qle_trans.
Qed.

(** ** Hybrid search: ranking *)

Section SearchRankingFacts.
Import Search.

Lemma similarity_antitone (pg : Pg) (q : Store.Vec) (a b : Store.Row) :
  Qle_bool (distance_to pg q a) (distance_to pg q b) = true ->
  (similarity pg q b <= similarity pg q a)%Q.
Proof.
  intros H. apply Qle_bool_iff in H. unfold similarity, Qminus.
  apply Qplus_le_compat; [apply Qle_refl | now apply Qopp_le_compat].
Qed.

Lemma ranked_sorted (pg : Pg) (q : Store.Vec) (l : list Store.Row) :
  StronglySorted (fun a b => (similarity pg q b <= similarity pg q a)%Q)
    (order_by (fun a b => Qle_bool (distance_to pg q a) (distance_to pg q b)) l).
Proof.
  eapply sorted_impl; [apply similarity_antitone|].
  apply order_by_sorted.
  - intros a b. apply Qle_bool_total.
  - intros a b c. apply Qle_bool_trans.
Qed.

Lemma lexical_sorted (l : list Hit) :
  StronglySorted (fun a b => (b.(similarity_score) <= a.(similarity_score))%Q)
    (order_by (fun a b => Qle_bool b.(similarity_score) a.(similarity_score)) l).
Proof.
  eapply sorted_impl; [|apply order_by_sorted].
  - intros a b H. now apply Qle_bool_iff in H.
  - intros a b. apply Qle_bool_total.
  - intros a b c H1 H2. exact (Qle_bool_trans _ _ _ H2 H1).
Qed.

End SearchRankingFacts.

(** C4 does not hold of the code.  [_vector_search] binds the query
    embedding as a Python list, for which the statement has no [<=>]; the
    statement fails on every call and the function returns the empty
    list.  On a table with two embedded rows and one without, the query
    [sales] with limit 2 and threshold 1/2 has the vector ranking of the
    claim equal to the one row [row_sales_embedded]; [search] returns the
    two text matches instead, the first of which has no embedding. *)
Theorem C4_vector_step_always_empty :
  (forall (pg : Search.Pg) (db : Store.Db) (qe : Store.Vec) (limit : nat)
          (threshold : Q),
      Search._vector_search pg db qe limit threshold = Ok [])
  /\ Search.encode Examples.svc_const "sales" = Ok Examples.vec0
  /\ filter (fun h => Qle_bool (1 # 2) h.(Search.similarity_score))
       (Search.vector_query Examples.pg0 Examples.vec0 2 Examples.table_three)
     = [Search.mkHit Examples.row_sales_embedded 1%Q]
  /\ Search.search Examples.pg0 Examples.svc_const
       (Store.mkDb true Examples.casts0 Examples.table_three)
       (Search.mkSearch false tt) "sales" 2 (1 # 2)
     = Ok [Search.mkHit Examples.row_hr_pending 1%Q;
           Search.mkHit Examples.row_sales_embedded 1%Q]
  /\ Store.embedding Examples.row_hr_pending = None.
Proof.
  split; [intros; apply vector_search_ok|].
  split; [reflexivity|].
  split; [vm_compute; reflexivity|].
  split; [vm_compute; reflexivity|].
  reflexivity.
Qed.

(** ** Pagination *)

Section PageFacts.
Variable Item : Type.
Variable items : list Item.
Variable P : nat.
Hypothesis P_pos : 1 <= P.

Lemma firstn_next_page (a n : nat) (l : list Item) :
  firstn a l ++ firstn n (skipn a l) = firstn (a + n) l.
Proof.
  revert l. induction a as [|a IH]; intros l; [reflexivity|].
  destruct l as [|x l]; simpl.
  - now rewrite firstn_nil.
  - now rewrite IH.
Qed.

Lemma division_facts :
  P * (List.length items / P) <= List.length items
  /\ List.length items < P * (List.length items / P) + P.
Proof.
  pose proof (Nat.div_mod_eq (List.length items) P) as H.
  assert (H0 : P <> 0) by lia.
  pose proof (Nat.mod_upper_bound (List.length items) P H0) as Hm. lia.
Qed.

Lemma page_length (j : nat) :
  List.length (firstn P (skipn ((j - 1) * P) items))
  = Nat.min P (List.length items - (j - 1) * P).
Proof. now rewrite length_firstn, length_skipn. Qed.

End PageFacts.

Section PaginationFacts.
Import Pagination.
Variable Item : Type.
Variable items : list Item.
Variable P : nat.
Variable cap : option nat.
Hypothesis P_pos : 1 <= P.

Let N := List.length items.
Let q := N / P.

(** The number of requests: one more than the number of full pages,
    unless the cap is lower. *)
Let k := match cap with
         | Some (S m) => Nat.min (q + 1) (S m)
         | _ => q + 1
         end.

Lemma k_bounds : 1 <= k /\ k <= q + 1.
Proof. unfold k. destruct cap as [[|m]|]; lia. Qed.

Lemma paginate_loop_spec (d : nat) :
  forall (j fuel : nat) (acc : list Item) (req : list nat),
    1 <= j -> j <= k -> d = k - (j - 1) -> d <= fuel ->
    acc = firstn ((j - 1) * P) items ->
    paginate_loop (paged_source items) fuel (mkHelper P cap) j acc req
    = Some (firstn (k * P) items, req ++ seq j d).
Proof.
  destruct (division_facts Item items P P_pos) as [Hlo Hhi]. fold N q in Hlo, Hhi.
  destruct k_bounds as [Hk1 Hkq].
  induction d as [|d IH]; intros j fuel acc req Hj Hjk Hd Hfuel Hacc; [lia|].
  destruct fuel as [|fuel]; [lia|].
  cbn [paginate_loop page_size]. unfold paged_source at 1.
  pose proof (page_length Item items P j) as Hlen. fold N in Hlen.
  assert (Hnext : acc ++ firstn P (skipn ((j - 1) * P) items) = firstn (j * P) items).
  { rewrite Hacc, firstn_next_page. f_equal. nia. }
  destruct (Nat.eq_dec (j - 1) q) as [Hlast | Hmore].
  - (* the page after the last full one *)
    assert (Hkj : k = j) by lia.
    assert (Hd1 : d = 0) by lia. subst d.
    assert (Hshort : List.length (firstn P (skipn ((j - 1) * P) items)) < P) by nia.
    destruct (firstn P (skipn ((j - 1) * P) items)) as [|x results] eqn:Hres.
    + cbn in Hlen.
      assert (Hall : N <= (j - 1) * P) by lia.
      f_equal. f_equal.
      rewrite Hacc, !firstn_all2; [reflexivity | fold N; nia | fold N; lia].
    + apply Nat.ltb_lt in Hshort. rewrite Hshort.
      rewrite Hnext, Hkj. reflexivity.
  - (* a full page *)
    assert (Hfull : List.length (firstn P (skipn ((j - 1) * P) items)) = P) by nia.
    destruct (firstn P (skipn ((j - 1) * P) items)) as [|x results] eqn:Hres.
    + cbn in Hfull. lia.
    + assert (Hns : (List.length (x :: results) <? P) = false)
        by (apply Nat.ltb_ge; lia).
      rewrite Hns. unfold cap_reached. cbn [max_pages].
      assert (Hstep : forall d', d = d' -> j < k ->
                paginate_loop (paged_source items) fuel (mkHelper P cap) (S j)
                  (acc ++ x :: results) (req ++ [j])
                = Some (firstn (k * P) items, req ++ seq j (S d))).
      { intros d' _ Hlt.
        rewrite (IH (S j) fuel (acc ++ x :: results) (req ++ [j])); try lia.
        - now rewrite <- app_assoc.
        - rewrite Hnext. f_equal. lia. }
      unfold k in *. destruct cap as [[|m]|].
      * apply (Hstep d eq_refl). lia.
      * destruct (S m <=? j) eqn:Hcap.
        -- apply Nat.leb_le in Hcap.
           assert (Hkj : Nat.min (q + 1) (S m) = j) by lia.
           rewrite Hnext, Hkj.
           replace d with 0 by lia. reflexivity.
        -- apply Nat.leb_gt in Hcap. apply (Hstep d eq_refl). lia.
      * apply (Hstep d eq_refl). lia.
Qed.

Lemma paginate_requests_spec (fuel : nat) :
  k <= fuel ->
  paginate_requests (paged_source items) fuel (mkHelper P cap)
  = Some (firstn (k * P) items, seq 1 k).
Proof.
  intros Hfuel. destruct k_bounds as [Hk1 _].
  unfold paginate_requests.
  rewrite (paginate_loop_spec k 1 fuel [] []); try lia; try reflexivity.
Qed.

Lemma uncapped_returns_all : k = q + 1 -> firstn (k * P) items = items.
Proof.
  intros H. destruct (division_facts Item items P P_pos) as [_ Hhi].
  fold N q in Hhi. apply firstn_all2. fold N. nia.
Qed.

End PaginationFacts.

Section ListingFacts.
Import Client.
Variable all : list PyVal.
Variable self : TableauClient.
Variable collection : string.
Variable project_filter : option (list string).
Variable h : list (string * string).
Hypothesis headers_ok : _headers self = Ok h.

Lemma page_number_request (page : nat) :
  page_number (page_request self collection project_filter h page) = page.
Proof. unfold page_number, page_request. cbn. apply Nat2Z.id. Qed.

Lemma headers_has_token : has_token self = true.
Proof.
  revert headers_ok. unfold _headers, has_token, Store.env_set.
  destruct (token self) as [t|]; [|discriminate].
  now destruct (String.eqb t "").
Qed.

Lemma list_loop_spec (d : nat) :
  forall (j fuel : nat) (acc : list PyVal) (sent : list Request),
    1 <= j -> S d = List.length all / 100 + 1 - (j - 1) -> S d <= fuel ->
    acc = firstn ((j - 1) * 100) all ->
    list_loop fuel (paged_server all) self collection project_filter j acc sent
    = Some (Ok all,
            sent ++ map (page_request self collection project_filter h) (seq j (S d))).
Proof.
  assert (H100 : 1 <= 100) by lia.
  destruct (division_facts PyVal all 100 H100) as [Hlo Hhi].
  induction d as [|d IH]; intros j fuel acc sent Hj Hd Hfuel Hacc;
    (destruct fuel as [|fuel]; [lia|]);
    cbn [list_loop]; rewrite headers_ok; unfold paged_server at 1;
    rewrite page_number_request; cbn [items_of];
    pose proof (page_length PyVal all 100 j) as Hlen;
    assert (Hnext : acc ++ firstn 100 (skipn ((j - 1) * 100) all)
                    = firstn (j * 100) all)
      by (rewrite Hacc, firstn_next_page; f_equal; lia).
  - assert (Hshort : (List.length (firstn 100 (skipn ((j - 1) * 100) all)) <? 100) = true)
      by (apply Nat.ltb_lt; lia).
    rewrite Hshort, Hnext. rewrite firstn_all2 by lia. reflexivity.
  - assert (Hfull : (List.length (firstn 100 (skipn ((j - 1) * 100) all)) <? 100) = false)
      by (apply Nat.ltb_ge; lia).
    rewrite Hfull.
    rewrite (IH (S j) fuel); try lia.
    + now rewrite <- app_assoc.
    + rewrite Hnext. f_equal. lia.
Qed.

Lemma list_collection_spec (fuel : nat) :
  List.length all / 100 + 1 <= fuel ->
  list_collection collection fuel (paged_server all) self project_filter
  = Some (Ok all,
          map (page_request self collection project_filter h)
              (seq 1 (List.length all / 100 + 1))).
Proof.
  intros Hfuel. unfold list_collection. rewrite headers_has_token. cbn [negb].
  replace (List.length all / 100 + 1) with (S (List.length all / 100)) by lia.
  rewrite (list_loop_spec (List.length all / 100) 1 fuel [] []); try lia; reflexivity.
Qed.

End ListingFacts.

(** C6, as stated, fails: with a cap of one page and a page size of two, a
    source of four items is asked for one page and two items come back. *)
Lemma C6_counterexample :
  Pagination.paginate_requests (Pagination.paged_source [1; 2; 3; 4]) 10
    (Pagination.mkHelper 2 (Some 1))
  = Some ([1; 2], [1])
  /\ [1; 2] <> [1; 2; 3; 4].
Proof. split; [reflexivity | discriminate]. Qed.

(** C6, amended.  For a source of N items and a page size P >= 1 the driver
    requests the pages 1, 2, ..., k in order, where k is floor(N/P) + 1, or
    the cap when that is lower, and returns the first k*P items in source
    order; whenever the cap is not lower than floor(N/P) + 1 these are all N
    items, each once.  This covers N = 0 (one request) and N divisible by P
    (one request more than there are full pages).  [list_workbooks], which
    has the page size 100 and no cap, returns all N workbooks after
    requesting the pages 1, ..., floor(N/100) + 1. *)
Theorem C6_pagination_requests_and_items :
  (forall (Item : Type) (items : list Item) (P : nat) (cap : option nat) (fuel : nat),
      1 <= P ->
      let full := List.length items / P + 1 in
      let k := match cap with
               | Some (S m) => Nat.min full (S m)
               | _ => full
               end in
      k <= fuel ->
      Pagination.paginate_requests (Pagination.paged_source items) fuel
        (Pagination.mkHelper P cap)
      = Some (firstn (k * P) items, seq 1 k)
      /\ (k = full -> firstn (k * P) items = items))
  /\ (forall (workbooks : list PyVal) (self : Client.TableauClient)
             (project_filter : option (list string)) (h : list (string * string))
             (fuel : nat),
         Client._headers self = Ok h ->
         List.length workbooks / 100 + 1 <= fuel ->
         Client.list_workbooks fuel (Client.paged_server workbooks) self project_filter
         = Some (Ok workbooks,
                 map (Client.page_request self "workbooks" project_filter h)
                     (seq 1 (List.length workbooks / 100 + 1)))).
Proof.
  split.
  - intros Item items P cap fuel HP full k Hfuel. split.
    + exact (paginate_requests_spec Item items P cap HP fuel Hfuel).
    + exact (uncapped_returns_all Item items P cap HP).
  - intros workbooks self project_filter h fuel Hh Hfuel.
    exact (list_collection_spec workbooks self "workbooks" project_filter h Hh fuel Hfuel).
Qed.

Lemma C6_witness :
  Pagination.paginate_requests (Pagination.paged_source [1; 2; 3; 4]) 5
    (Pagination.mkHelper 2 None)
  = Some ([1; 2; 3; 4], [1; 2; 3]).
Proof.
  refine (proj1 (proj1 C6_pagination_requests_and_items nat [1; 2; 3; 4] 2 None 5 _ _)).
  - lia.
  - vm_compute. lia.
Defined.

(** ** The normaliser: defaults for missing values *)

Section DefaultsFacts.
Import Normalize.

Lemma get_dict (d : list (string * PyVal)) (k : string) (default : PyVal) :
  Py.get (PDict d) k default
  = Ok (match Py.assoc k d with Some x => x | None => default end).
Proof. reflexivity. Qed.

Lemma rest_tags_absent (d : list (string * PyVal)) (v : PyVal) :
  rest_tags (PDict d) = Ok v -> Py.assoc "tags" d = None -> v = PList [].
Proof.
  unfold rest_tags. rewrite get_dict. intros H Habs. rewrite Habs in H.
  cbn in H. now inversion H.
Qed.

Lemma nested_or_none_absent (d : list (string * PyVal)) (k name : string) (v : PyVal) :
  nested_or_none (PDict d) k name = Ok v -> Py.assoc k d = None -> v = PNone.
Proof.
  unfold nested_or_none. rewrite get_dict. intros H Habs. rewrite Habs in H.
  cbn in H. now inversion H.
Qed.

Lemma or_not_none (v : PyVal) : Py.or_ v (PStr "") <> PNone.
Proof.
  unfold Py.or_. destruct (Py.truthy v) eqn:E; [|discriminate].
  intros ->. discriminate E.
Qed.

(** The REST path, for each of the three object types. *)
Lemma rest_object_defaults (sid otype parent pname : string) (priority : Z)
    (d : list (string * PyVal)) (rec : Rec) :
  rest_object sid otype parent pname priority (PDict d) = Ok rec ->
  (Py.assoc "name" d = None -> rget rec "title" = PStr "")
  /\ (Py.assoc "description" d = None -> rget rec "description" = PStr "")
  /\ (Py.assoc "tags" d = None -> rget rec "tags" = PList [])
  /\ (Py.assoc parent d = None -> rget rec "project_name" = PNone)
  /\ (Py.assoc "owner" d = None -> rget rec "owner" = PNone).
Proof.
  unfold rest_object. rewrite !get_dict. cbn [bind].
  destruct (rest_tags (PDict d)) as [tags|] eqn:Ht; cbn [bind]; [|discriminate].
  destruct (nested_or_none (PDict d) parent pname) as [project|] eqn:Hp;
    cbn [bind]; [|discriminate].
  destruct (nested_or_none (PDict d) "owner" "name") as [owner|] eqn:Ho;
    cbn [bind]; [|discriminate].
  destruct (_create_text_blob _ _ _ _ _ _) as [blob|]; cbn [bind]; [|discriminate].
  intros H. inversion H; subst; clear H. cbn.
  repeat split.
  - now intros ->.
  - now intros ->.
  - now apply rest_tags_absent.
  - now apply (nested_or_none_absent d parent pname).
  - now apply (nested_or_none_absent d "owner" "name").
Qed.

Ltac run_binds :=
  repeat match goal with
         | |- context [bind ?m _] =>
             let E := fresh "E" in
             destruct m eqn:E; cbn [bind]; [|discriminate]
         end.

Ltac absent_key :=
  let Habs := fresh "Habs" in
  intros Habs;
  repeat match goal with
         | H : to_text_blob _ _ _ _ _ _ _ = _ |- _ => clear H
         end;
  rewrite ?Habs in *; cbn in *;
  repeat (match goal with
          | H : Ok _ = Ok _ |- _ => inversion H; subst; clear H
          end; cbn in *);
  try reflexivity; try congruence.

(** The metadata path: [build_workbook_record]. *)
Lemma build_workbook_record_defaults (repr : PyVal -> string) (sid : string)
    (d : list (string * PyVal)) (rec : Rec) :
  build_workbook_record repr sid (PDict d) = Ok rec ->
  rget rec "description" <> PNone
  /\ (exists l, rget rec "tags" = PList l)
  /\ (Py.assoc "name" d = None -> rget rec "title" = PStr "")
  /\ (Py.assoc "tags" d = None -> rget rec "tags" = PList [])
  /\ (Py.assoc "projectName" d = None -> rget rec "project_name" = PStr "")
  /\ (Py.assoc "owner" d = None -> rget rec "owner" = PStr "").
Proof.
  unfold build_workbook_record. rewrite !get_dict. cbn [bind].
  run_binds. intros H. inversion H; subst; clear H. cbn.
  split; [apply or_not_none|]. split; [now eexists|].
  repeat split; absent_key.
Qed.

(** The metadata path: [build_datasource_record]. *)
Lemma build_datasource_record_defaults (repr : PyVal -> string) (sid : string)
    (d : list (string * PyVal)) (rec : Rec) :
  build_datasource_record repr sid (PDict d) = Ok rec ->
  rget rec "description" <> PNone
  /\ (exists l, rget rec "tags" = PList l)
  /\ (Py.assoc "name" d = None -> rget rec "title" = PStr "")
  /\ (Py.assoc "tags" d = None -> rget rec "tags" = PList [])
  /\ (Py.assoc "projectName" d = None -> rget rec "project_name" = PStr "")
  /\ (Py.assoc "owner" d = None -> rget rec "owner" = PStr "").
Proof.
  unfold build_datasource_record. rewrite !get_dict. cbn [bind].
  run_binds. intros H. inversion H; subst; clear H. cbn.
  split; [apply or_not_none|]. split; [now eexists|].
  repeat split; absent_key.
Qed.

(** The metadata path: [build_view_record]; the project is read from the
    parent workbook. *)
Lemma build_view_record_defaults (repr : PyVal -> string) (sid : string)
    (d : list (string * PyVal)) (rec : Rec) :
  build_view_record repr sid (PDict d) = Ok rec ->
  rget rec "description" <> PNone
  /\ (exists l, rget rec "tags" = PList l)
  /\ (Py.assoc "name" d = None -> rget rec "title" = PStr "")
  /\ (Py.assoc "tags" d = None -> rget rec "tags" = PList [])
  /\ (Py.assoc "workbook" d = None -> rget rec "project_name" = PStr "")
  /\ (Py.assoc "owner" d = None -> rget rec "owner" = PStr "").
Proof.
  unfold build_view_record. rewrite !get_dict. cbn [bind].
  run_binds. intros H. inversion H; subst; clear H. cbn.
  split; [apply or_not_none|]. split; [now eexists|].
  repeat split; absent_key.
Qed.

End DefaultsFacts.

(** The defaults of the two normalisation paths.  For a payload (a dict)
    of any of the three object types: on the REST path of
    [prepare_objects_for_indexing] an absent name or description becomes
    the empty string and absent tags the empty list, while an absent
    project (parent workbook for views) or owner becomes null; on the
    metadata path of [build_workbook_record], [build_datasource_record]
    and [build_view_record] the description is never null, tags is always
    a list, and an absent name, project (parent workbook for views) or
    owner becomes the empty string. *)
Lemma normalized_defaults :
  forall (repr : PyVal -> string) (sid : string) (d : list (string * PyVal)) (rec : Rec),
    (forall (otype parent pname : string) (priority : Z),
        Normalize.rest_object sid otype parent pname priority (PDict d) = Ok rec ->
        (Py.assoc "name" d = None -> rget rec "title" = PStr "")
        /\ (Py.assoc "description" d = None -> rget rec "description" = PStr "")
        /\ (Py.assoc "tags" d = None -> rget rec "tags" = PList [])
        /\ (Py.assoc parent d = None -> rget rec "project_name" = PNone)
        /\ (Py.assoc "owner" d = None -> rget rec "owner" = PNone))
    /\ (Normalize.build_workbook_record repr sid (PDict d) = Ok rec
        \/ Normalize.build_datasource_record repr sid (PDict d) = Ok rec ->
        rget rec "description" <> PNone
        /\ (exists l, rget rec "tags" = PList l)
        /\ (Py.assoc "name" d = None -> rget rec "title" = PStr "")
        /\ (Py.assoc "tags" d = None -> rget rec "tags" = PList [])
        /\ (Py.assoc "projectName" d = None -> rget rec "project_name" = PStr "")
        /\ (Py.assoc "owner" d = None -> rget rec "owner" = PStr ""))
    /\ (Normalize.build_view_record repr sid (PDict d) = Ok rec ->
        rget rec "description" <> PNone
        /\ (exists l, rget rec "tags" = PList l)
        /\ (Py.assoc "name" d = None -> rget rec "title" = PStr "")
        /\ (Py.assoc "tags" d = None -> rget rec "tags" = PList [])
        /\ (Py.assoc "workbook" d = None -> rget rec "project_name" = PStr "")
        /\ (Py.assoc "owner" d = None -> rget rec "owner" = PStr "")).
Proof.
  intros repr sid d rec. split; [|split].
  - intros otype parent pname priority. apply rest_object_defaults.
  - intros [H | H].
    + exact (build_workbook_record_defaults repr sid d rec H).
    + exact (build_datasource_record_defaults repr sid d rec H).
  - apply build_view_record_defaults.
Qed.

(** C9 does not hold of the code.  The path that feeds the gate and the
    store, [prepare_objects_for_indexing], turns a missing project or
    owner into null, where [build_workbook_record] turns it into the
    empty string.  For the workbook [raw_workbook], which the server
    lists with an id and a name only, the prepared record has
    project_name and owner null, while the record [build_workbook_record]
    builds from the same payload has both empty.  The nulls are stored as
    NULL, and [search_by_project], which calls [lower] on every project
    name, raises on the stored row. *)
Theorem C9_rest_path_returns_null :
  Normalize.prepare_objects_for_indexing (Some "S1") Examples.metadata_one
  = Ok [Examples.prepared_one]
  /\ rget Examples.prepared_one "project_name" = PNone
  /\ rget Examples.prepared_one "owner" = PNone
  /\ (exists rec,
        Normalize.build_workbook_record Examples.repr0 "S1"
          (PDict Examples.raw_workbook) = Ok rec
        /\ rget rec "project_name" = PStr ""
        /\ rget rec "owner" = PStr "")
  /\ Store.upsert_records Examples.env0 1 [Examples.prepared_one] Examples.db_empty
     = Ok (1, Store.mkDb true Examples.casts0
                (Store.mkTable [Examples.row_prepared_one] 2))
  /\ Store.project_name Examples.row_prepared_one = None
  /\ Store.owner Examples.row_prepared_one = None
  /\ SearchFilters.search_by_project Examples.pg0 Examples.svc_const
       (Store.mkDb true Examples.casts0 (Store.mkTable [Examples.row_prepared_one] 2))
       (Search.mkSearch false tt) "sales" "Finance" 5
     = Raise AttributeError.
Proof.
  split; [reflexivity|]. split; [reflexivity|]. split; [reflexivity|].
  split; [eexists; split; [vm_compute; reflexivity | split; reflexivity]|].
  split; [vm_compute; reflexivity|]. split; [reflexivity|]. split; [reflexivity|].
  vm_compute. reflexivity.
Qed.

(* ================================================================== *)
(** * Further properties of the store *)
(* ================================================================== *)

(** Steps over the string parameters of a statement that was executed. *)
Ltac params_ok :=
  repeat match goal with
         | |- context [bind (Store.string_param ?s) _] =>
             destruct (Store.string_param s); cbn [bind]; [|discriminate]
         | |- context [bind (Store.optional_param ?o) _] =>
             destruct (Store.optional_param o); cbn [bind]; [|discriminate]
         end.

Section StoreMoreFacts.
Import Store.
Local Arguments key_eqb : simpl never.
Local Arguments key : simpl never.
Local Arguments p_key : simpl never.

Lemma key_eqb_neq (a b : Key) : a <> b -> key_eqb a b = false.
Proof.
  intros H. destruct (key_eqb a b) eqn:E; [|reflexivity].
  apply key_eqb_eq in E. contradiction.
Qed.

Lemma filter_other_key_update (now : nat) (p : Params) (k : Key) (l : list Row) :
  k <> p_key p ->
  filter (fun r => key_eqb (key r) k)
    (map (fun r => if key_eqb (key r) (p_key p) then do_update now p r else r) l)
  = filter (fun r => key_eqb (key r) k) l.
Proof.
  intros Hk. induction l as [|r l IH]; [reflexivity|].
  cbn [map filter]. destruct (key_eqb (key r) (p_key p)) eqn:E.
  - rewrite key_do_update. apply key_eqb_eq in E.
    rewrite (key_eqb_neq (key r) k) by congruence. exact IH.
  - now rewrite IH.
Qed.

Lemma in_order_by {A} (leb : A -> A -> bool) (l : list A) (x : A) :
  In x (order_by leb l) <-> In x l.
Proof.
  split; apply Permutation_in; [|apply Permutation_sym]; apply order_by_perm.
Qed.

Lemma length_order_by {A} (leb : A -> A -> bool) (l : list A) :
  List.length (order_by leb l) = List.length l.
Proof. apply Permutation_length, order_by_perm. Qed.

Lemma filter_complement_length {A} (f : A -> bool) (l : list A) :
  List.length (filter f l) + List.length (filter (fun x => negb (f x)) l)
  = List.length l.
Proof.
  induction l as [|x l IH]; [reflexivity|].
  simpl. destruct (f x); simpl; lia.
Qed.

Lemma upsert_loop_failed (c : Casts) (now : nat) (records : list Rec) (t : Table)
    (n : nat) :
  upsert_loop c now records (mkTxn t true) n = (mkTxn t true, n).
Proof.
  revert n. induction records as [|r rs IH]; intros n; cbn [upsert_loop]; [reflexivity|].
  unfold conn_execute. cbn [failed].
  destruct (statement c (record_data r)) as [p| |consumed]; apply IH.
Qed.

Lemma UPSERT_SQL_next_id (now : nat) (p : Params) (t : Table) :
  next_id (UPSERT_SQL now p t) = S (next_id t).
Proof. unfold UPSERT_SQL. now destruct (existsb _ _). Qed.

(** The loop counts the statements that ran before the first failure on
    the server; it ends in a failed transaction exactly when the server
    raised on a record; the sequence never goes back. *)
Lemma upsert_loop_spec (c : Casts) (now : nat) (records : list Rec) (t : Table)
    (n : nat) :
  let result := upsert_loop c now records (mkTxn t false) n in
  snd result = n + processed_in c records
  /\ failed (fst result) = existsb (fails c) records
  /\ next_id t <= next_id (current (fst result)).
Proof.
  revert t n. induction records as [|r rs IH]; intros t n; cbn [upsert_loop].
  - cbn. repeat split; lia.
  - unfold processed_in. cbn [before_failure existsb].
    unfold conn_execute. cbn [failed current].
    destruct (statement c (record_data r)) as [p| |consumed] eqn:E.
    + assert (Hf : fails c r = false) by (unfold fails; now rewrite E).
      assert (He : executes c r = true) by (unfold executes; now rewrite E).
      specialize (IH (UPSERT_SQL now p t) (S n)). cbn zeta in IH.
      destruct IH as (H1 & H2 & H4). rewrite UPSERT_SQL_next_id in H4.
      rewrite Hf. cbn [filter]. rewrite He. cbn [List.length orb].
      repeat split; [rewrite H1; unfold processed_in; lia | exact H2 | lia].
    + assert (Hf : fails c r = false) by (unfold fails; now rewrite E).
      assert (He : executes c r = false) by (unfold executes; now rewrite E).
      specialize (IH t n). cbn zeta in IH. destruct IH as (H1 & H2 & H4).
      rewrite Hf. cbn [filter]. rewrite He. cbn [orb].
      repeat split; assumption.
    + assert (Hf : fails c r = true) by (unfold fails; now rewrite E).
      rewrite Hf. rewrite upsert_loop_failed. cbn. repeat split; try lia.
      destruct consumed; cbn; lia.
Qed.

Lemma chunks_upto_concat {A} (n : nat) (l : list A) (fuel : nat) :
  1 <= n -> List.length l <= fuel -> List.concat (chunks_upto fuel n l) = l.
Proof.
  intros Hn. revert l. induction fuel as [|fuel IH]; intros l Hl.
  - destruct l; [reflexivity | cbn in Hl; lia].
  - destruct l as [|x l]; [reflexivity|].
    cbn [chunks_upto List.concat]. rewrite IH.
    + apply firstn_skipn.
    + rewrite length_skipn. cbn [List.length] in *. lia.
Qed.

Lemma chunks_concat {A} (n : nat) (l : list A) : 1 <= n -> List.concat (chunks n l) = l.
Proof. intros Hn. apply chunks_upto_concat; [assumption | lia]. Qed.

Lemma chunks_single {A} (n : nat) (l : list A) :
  l <> [] -> List.length l <= n -> chunks n l = [l].
Proof.
  intros Hl Hn. unfold chunks. destruct l as [|a l]; [contradiction|].
  cbn [List.length chunks_upto].
  rewrite firstn_all2 by exact Hn. rewrite skipn_all2 by exact Hn.
  now destruct (List.length l).
Qed.

Lemma processed_in_le (c : Casts) (records : list Rec) :
  processed_in c records <= List.length records.
Proof.
  unfold processed_in. etransitivity; [apply filter_length_le|].
  induction records as [|r rs IH]; cbn [before_failure]; [lia|].
  destruct (fails c r); cbn [List.length]; lia.
Qed.

Lemma before_failure_none (c : Casts) (records : list Rec) :
  existsb (fails c) records = false -> before_failure c records = records.
Proof.
  induction records as [|r rs IH]; cbn [before_failure existsb]; [reflexivity|].
  destruct (fails c r); cbn [orb]; [discriminate|]. intros H. now rewrite IH.
Qed.

Lemma upsert_records_result (env : Env) (now : nat) (records : list Rec) (db : Db) :
  (exists n db', upsert_records env now records db = Ok (n, db')
                 /\ n = processed_in (casts db) records
                 /\ reachable db' = reachable db
                 /\ casts db' = casts db
                 /\ (existsb (fails (casts db)) records = true ->
                     rows (table db') = rows (table db))
                 /\ ((records = [] /\ db' = db)
                     \/ (is_ok (get_engine env) = true /\ reachable db = true)))
  \/ (exists e, upsert_records env now records db = Raise e
                /\ (is_ok (get_engine env) = false \/ reachable db = false)).
Proof.
  unfold upsert_records. destruct records as [|r rs].
  - left. exists 0, db. repeat split; try discriminate. left. now split.
  - destruct (get_engine env) as [u|e]; cbn [bind].
    + unfold begin. destruct (reachable db) eqn:Hr; cbn [bind].
      * left.
        pose proof (upsert_loop_spec (casts db) now (r :: rs) (table db) 0) as Hc.
        cbn zeta in Hc.
        destruct (upsert_loop (casts db) now (r :: rs) (mkTxn (table db) false) 0)
          as [x k].
        cbn [fst snd] in Hc. destruct Hc as (Hk & Hf & _).
        exists k, (with_table db (commit (table db) x)).
        split; [reflexivity|]. split; [exact Hk|]. split; [exact Hr|].
        split; [reflexivity|]. split; [|now right].
        intros Hex. unfold commit. rewrite Hf, Hex. reflexivity.
      * right. eexists. split; [reflexivity | now right].
    + right. eexists. split; [reflexivity | now left].
Qed.

End StoreMoreFacts.

(** X1.  One execution of the upsert statement touches one key only: the
    rows stored under every other key are exactly what they were, and the
    table grows by one row when the key is new and by none when it is not. *)
Theorem X1_upsert_touches_one_key :
  forall (now : nat) (p : Store.Params) (t : Store.Table),
    (forall k, k <> Store.p_key p ->
               Store.rows_with_key k (Store.UPSERT_SQL now p t) = Store.rows_with_key k t)
    /\ List.length (Store.UPSERT_SQL now p t).(Store.rows)
       = List.length t.(Store.rows)
         + (if existsb (fun r => Store.key_eqb (Store.key r) (Store.p_key p)) t.(Store.rows)
            then 0 else 1).
Proof.
  intros now p t. unfold Store.UPSERT_SQL, Store.rows_with_key.
  destruct (existsb _ (Store.rows t)) eqn:E; cbn [Store.rows]; split.
  - intros k Hk. now apply filter_other_key_update.
  - rewrite length_map. lia.
  - intros k Hk. rewrite filter_app. cbn [filter].
    change (Store.key (Store.new_row now (Store.next_id t) p)) with (Store.p_key p).
    rewrite (key_eqb_neq (Store.p_key p) k) by congruence. apply app_nil_r.
  - rewrite length_app. reflexivity.
Qed.

(** X2.  A record upserted under a key the table does not hold yet is
    stored without an embedding, and the next selection of unembedded rows
    (without limit) contains it, with the id drawn from the sequence. *)
Theorem X2_new_row_is_selected_for_embedding :
  forall (now : nat) (p : Store.Params) (db : Store.Db),
    Store.reachable db = true ->
    ~ In (Store.p_key p) (map Store.key db.(Store.table).(Store.rows)) ->
    exists selected,
      Store.get_unembedded_records None
        (Store.with_table db (Store.UPSERT_SQL now p db.(Store.table))) = Ok selected
      /\ In (Store.mkUnembedded db.(Store.table).(Store.next_id) p.(Store.p_text_blob)
               p.(Store.p_title) p.(Store.p_object_type)) selected.
Proof.
  intros now p db Hr Hnew.
  unfold Store.get_unembedded_records, Store.begin, Store.with_table.
  cbn [Store.reachable Store.table]. rewrite Hr. cbn [bind].
  eexists. split; [reflexivity|].
  apply (in_map (fun r => Store.mkUnembedded (Store.id r) (Store.text_blob r)
                            (Store.title r) (Store.object_type r))
                _ (Store.new_row now (Store.next_id (Store.table db)) p)).
  apply in_order_by. unfold Store.pending, Store.UPSERT_SQL.
  assert (E : existsb (fun r => Store.key_eqb (Store.key r) (Store.p_key p))
                (Store.rows (Store.table db)) = false).
  { destruct (existsb _ _) eqn:E; [|reflexivity].
    apply existsb_key_In in E. contradiction. }
  rewrite E. cbn [Store.rows]. apply filter_In. split; [|reflexivity].
  apply in_or_app. right. now left.
Qed.

Lemma X2_witness :
  exists selected,
    Store.get_unembedded_records None
      (Store.with_table Examples.db_empty
         (Store.UPSERT_SQL 7 Examples.p_sales Store.empty_table)) = Ok selected
    /\ In (Store.mkUnembedded 1 "sales weekly sales figures kpi finance ann"
             "Sales" "workbook") selected.
Proof.
  apply (X2_new_row_is_selected_for_embedding 7 Examples.p_sales Examples.db_empty).
  - reflexivity.
  - intros [].
Defined.

Section BatchFacts.
Import Store.

Lemma upsert_batches_spec (env : Env) (clock : nat -> nat) (batches : list (list Rec)) :
  forall (k : nat) (db : Db) (n : nat),
    let result := upsert_batches env clock k batches db n in
    reachable (snd result) = reachable db
    /\ casts (snd result) = casts db
    /\ (if is_ok (get_engine env) && reachable db
        then fst result = n + list_sum (map (processed_in (casts db)) batches)
        else result = (n, db)).
Proof.
  induction batches as [|b bs IH]; intros k db n; cbn [upsert_batches].
  - cbn. split; [reflexivity|]. split; [reflexivity|].
    destruct (is_ok (get_engine env) && reachable db); [lia | reflexivity].
  - destruct (upsert_records_result env (clock k) b db)
      as [(m & db' & -> & Hm & Hr & Hc & _ & Hcase) | (e & -> & Hcase)].
    + specialize (IH (S k) db' (n + m)). cbn zeta in IH.
      destruct IH as (IHr & IHc & IHn).
      split; [congruence|]. split; [congruence|].
      rewrite Hr, Hc in IHn.
      destruct (is_ok (get_engine env) && reachable db) eqn:Hok.
      * rewrite IHn. cbn [map list_sum fold_right]. unfold list_sum. lia.
      * destruct Hcase as [[-> ->] | [He Hre]].
        -- rewrite IHn. cbn in Hm. subst m. f_equal. lia.
        -- rewrite He, Hre in Hok. discriminate.
    + specialize (IH (S k) db n). cbn zeta in IH. destruct IH as (IHr & IHc & IHn).
      split; [exact IHr|]. split; [exact IHc|].
      assert (Hok : is_ok (get_engine env) && reachable db = false).
      { destruct Hcase as [-> | ->]; [reflexivity | apply andb_false_r]. }
      rewrite Hok in *. exact IHn.
Qed.

Lemma processed_in_no_failure (c : Casts) (records : list Rec) :
  existsb (fails c) records = false ->
  processed_in c records = List.length (filter (executes c) records).
Proof.
  intros H. unfold processed_in. now rewrite before_failure_none.
Qed.

Lemma processed_sum_concat (c : Casts) (batches : list (list Rec)) :
  existsb (fails c) (List.concat batches) = false ->
  list_sum (map (processed_in c) batches)
  = List.length (filter (executes c) (List.concat batches)).
Proof.
  induction batches as [|b bs IH]; cbn [map list_sum fold_right List.concat];
    [reflexivity|].
  fold (list_sum (map (processed_in c) bs)).
  rewrite existsb_app, filter_app, length_app. intros H.
  apply orb_false_iff in H as [Hb Hbs].
  now rewrite IH, processed_in_no_failure.
Qed.

Lemma processed_sum_no_failure (c : Casts) (n : nat) (records : list Rec) :
  1 <= n -> existsb (fails c) records = false ->
  list_sum (map (processed_in c) (chunks n records))
  = List.length (filter (executes c) records).
Proof.
  intros Hn H. rewrite processed_sum_concat; now rewrite chunks_concat.
Qed.

Lemma processed_sum_le (c : Casts) (batches : list (list Rec)) :
  list_sum (map (processed_in c) batches) <= List.length (List.concat batches).
Proof.
  induction batches as [|b bs IH]; cbn [map list_sum fold_right List.concat]; [lia|].
  fold (list_sum (map (processed_in c) bs)).
  rewrite length_app. pose proof (processed_in_le c b). lia.
Qed.

End BatchFacts.

(** X3.  With a batch size of at least one, [upsert_records_batch] never
    raises.  When the engine can be built and the database answers, each
    batch is one transaction and counts the records whose statement ran
    before the first statement of the batch on which the server raised;
    the function reports the sum over the batches, which is the number of
    records whose statement runs when the server raises on none.  A single
    batch in which the server raised on a record is rolled back: the rows
    of the table are what they were.  When the engine cannot be built or
    the database does not answer, every batch is skipped: the function
    reports zero and leaves the database as it was. *)
Theorem X3_batch_upsert_never_raises :
  forall (env : Store.Env) (clock : nat -> nat) (records : list Rec)
         (batch_size : nat) (db : Store.Db),
    1 <= batch_size ->
    exists n db',
      Store.upsert_records_batch env clock records batch_size db = Ok (n, db')
      /\ Store.reachable db' = Store.reachable db
      /\ n <= List.length records
      /\ (if is_ok (Store.get_engine env) && Store.reachable db
          then n = list_sum (map (Store.processed_in db.(Store.casts))
                                 (chunks batch_size records))
               /\ (existsb (Store.fails db.(Store.casts)) records = false ->
                   n = List.length (filter (Store.executes db.(Store.casts)) records))
               /\ (List.length records <= batch_size ->
                   existsb (Store.fails db.(Store.casts)) records = true ->
                   n = Store.processed_in db.(Store.casts) records
                   /\ Store.rows db'.(Store.table) = Store.rows db.(Store.table))
          else n = 0 /\ db' = db).
Proof.
  intros env clock records batch_size db Hb.
  unfold Store.upsert_records_batch.
  destruct records as [|r rs].
  - exists 0, db. repeat split; try lia.
    destruct (is_ok (Store.get_engine env) && Store.reachable db); [|auto].
    split; [reflexivity|]. split; [reflexivity|]. intros _ H. discriminate H.
  - destruct batch_size as [|b]; [lia|].
    pose proof (upsert_batches_spec env clock (chunks (S b) (r :: rs)) 1 db 0) as H.
    cbn zeta in H. destruct H as (Hr & _ & Hn).
    pose proof (processed_sum_le (Store.casts db) (chunks (S b) (r :: rs))) as Hle.
    rewrite chunks_concat in Hle by lia.
    destruct (is_ok (Store.get_engine env) && Store.reachable db) eqn:Hok.
    + destruct (Store.upsert_batches env clock 1 (chunks (S b) (r :: rs)) db 0)
        as [n db'] eqn:E.
      cbn [fst snd] in *. exists n, db'. split; [reflexivity|]. split; [exact Hr|].
      split; [lia|]. split; [exact Hn|]. split.
      * intros Hnone. rewrite Hn. cbn [Nat.add].
        apply processed_sum_no_failure; [lia | exact Hnone].
      * intros Hlen Hex. rewrite (chunks_single (S b) (r :: rs)) in E, Hn
          by (try discriminate; exact Hlen).
        cbn [map list_sum fold_right] in Hn. rewrite Nat.add_0_r in Hn.
        split; [exact Hn|].
        cbn [Store.upsert_batches] in E.
        destruct (upsert_records_result env (clock 1) (r :: rs) db)
          as [(m & db1 & E1 & _ & _ & _ & Hrows & _) | (e & E1 & _)];
          rewrite E1 in E; inversion E; subst; [now apply Hrows | reflexivity].
    + destruct (Store.upsert_batches env clock 1 (chunks (S b) (r :: rs)) db 0)
        as [n db'] eqn:E.
      cbn [fst snd] in *. exists n, db'. split; [reflexivity|]. split; [exact Hr|].
      inversion Hn; subst. split; [lia | split; reflexivity].
Qed.

Lemma X3_witness :
  exists db',
    Store.upsert_records_batch Examples.env0 (fun k => k)
      [Examples.wb_sales; Examples.wb_untitled; Examples.wb_advisory] 50
      Examples.db_empty = Ok (1, db')
    /\ Store.rows db'.(Store.table) = [].
Proof.
  destruct (X3_batch_upsert_never_raises Examples.env0 (fun k => k)
              [Examples.wb_sales; Examples.wb_untitled; Examples.wb_advisory] 50
              Examples.db_empty)
    as (n & db' & H & _ & _ & _ & _ & Hn).
  - lia.
  - destruct Hn as [Hn Hrows]; [cbn; lia | reflexivity|].
    exists db'. split; [|exact Hrows].
    rewrite H. rewrite Hn. reflexivity.
Defined.

(** X4.  [delete_records] is scoped to its site (and type): the rows that
    remain are exactly the rows outside the scope, rows of other sites are
    never removed, the reported count plus the rows left is the number of
    rows before, and the sequence of ids is not reset. *)
Theorem X4_delete_is_site_scoped :
  forall (env : Store.Env) (site : string) (otype : option string)
         (db db' : Store.Db) (n : nat),
    Store.delete_records env site otype db = Ok (n, db') ->
    (forall r, In r db'.(Store.table).(Store.rows)
               <-> In r db.(Store.table).(Store.rows) /\ Store.doomed site otype r = false)
    /\ (forall r, In r db.(Store.table).(Store.rows) -> Store.site_id r <> site ->
                  In r db'.(Store.table).(Store.rows))
    /\ n + List.length db'.(Store.table).(Store.rows)
       = List.length db.(Store.table).(Store.rows)
    /\ db'.(Store.table).(Store.next_id) = db.(Store.table).(Store.next_id).
Proof.
  intros env site otype db db' n. unfold Store.delete_records, Store.begin.
  destruct (Store.get_engine env); cbn [bind]; [|discriminate].
  destruct (Store.reachable db); cbn [bind]; [|discriminate].
  params_ok. intros H. inversion H; subst; clear H. cbn [Store.table Store.with_table Store.rows Store.next_id].
  split; [|split; [|split]].
  - intros r. rewrite filter_In. now rewrite negb_true_iff.
  - intros r Hin Hsite. apply filter_In. split; [assumption|].
    unfold Store.doomed. apply String.eqb_neq in Hsite. now rewrite Hsite.
  - apply filter_complement_length.
  - reflexivity.
Qed.

Lemma X4_witness :
  1 + List.length [Examples.row_hr_pending; Examples.row_sales_embedded]
  = List.length (Store.rows Examples.table_three).
Proof.
  exact (proj1 (proj2 (proj2
           (X4_delete_is_site_scoped Examples.env0 "S1" (Some "view")
              (Store.mkDb true Examples.casts0 Examples.table_three)
              (Store.mkDb true Examples.casts0
                 (Store.mkTable [Examples.row_hr_pending; Examples.row_sales_embedded] 4))
              1 eq_refl)))).
Defined.

(** X5.  [get_records_by_type] returns as many rows as [get_record_count]
    counts for the same site and type; every row returned is a row of the
    table with that site and type, and the rows come latest update first. *)
Theorem X5_records_by_type_agree_with_count :
  forall (env : Store.Env) (site otype : string) (db : Store.Db) (l : list Store.Row),
    site <> "" -> otype <> "" ->
    Store.get_records_by_type env site otype db = Ok l ->
    Store.get_record_count env (Some site) (Some otype) db = Ok (List.length l)
    /\ (forall r, In r l <-> In r db.(Store.table).(Store.rows)
                             /\ Store.site_id r = site /\ Store.object_type r = otype)
    /\ StronglySorted (fun a b => Store.updated_at b <= Store.updated_at a) l.
Proof.
  intros env site otype db l Hs Ht.
  unfold Store.get_records_by_type, Store.get_record_count, Store.begin.
  destruct (Store.get_engine env); cbn [bind]; [|discriminate].
  destruct (Store.reachable db); cbn [bind]; [|discriminate].
  cbn [Store.optional_param].
  destruct (Store.string_param site); cbn [bind]; [|discriminate].
  destruct (Store.string_param otype); cbn [bind]; [|discriminate].
  intros H. inversion H; subst; clear H.
  apply String.eqb_neq in Hs, Ht. rewrite Hs, Ht.
  split; [|split].
  - now rewrite length_order_by.
  - intros r. rewrite in_order_by, filter_In, andb_true_iff, !String.eqb_eq. tauto.
  - eapply sorted_impl; [|apply order_by_sorted].
    + intros x y Hxy. now apply Nat.leb_le in Hxy.
    + intros x y Hxy. apply Nat.leb_gt in Hxy. apply Nat.leb_le. lia.
    + intros x y z H1 H2. apply Nat.leb_le in H1, H2. apply Nat.leb_le. lia.
Qed.

Lemma X5_witness :
  Store.get_record_count Examples.env0 (Some "S1") (Some "view")
    (Store.mkDb true Examples.casts0 Examples.table_three) = Ok 1.
Proof.
  refine (proj1 (X5_records_by_type_agree_with_count Examples.env0 "S1" "view"
                   (Store.mkDb true Examples.casts0 Examples.table_three)
                   [Examples.row_ops_embedded] _ _ eq_refl)); discriminate.
Defined.

(** X6.  The coverage statistics and the generator's work list agree: the
    number of records without embedding reported by [get_embedding_stats]
    is the number of rows [get_unembedded_records] selects without limit,
    and the two counts of the statistics add up to the total. *)
Theorem X6_stats_agree_with_work_list :
  forall (env : Store.Env) (db : Store.Db) (s : Store.EmbeddingStats)
         (selected : list Store.Unembedded),
    Store.get_embedding_stats env db = Ok s ->
    Store.get_unembedded_records None db = Ok selected ->
    s.(Store.records_without_embeddings) = List.length selected
    /\ s.(Store.records_with_embeddings) + s.(Store.records_without_embeddings)
       = s.(Store.total_records).
Proof.
  intros env db s selected.
  unfold Store.get_embedding_stats, Store.get_unembedded_records, Store.begin.
  destruct (Store.get_engine env); cbn [bind]; [|discriminate].
  destruct (Store.reachable db); cbn [bind]; [|discriminate].
  intros H1 H2. inversion H1; subst; clear H1. inversion H2; subst; clear H2.
  cbn [Store.records_without_embeddings Store.records_with_embeddings Store.total_records].
  rewrite length_map, length_order_by. unfold Store.pending.
  pose proof (filter_complement_length Store.has_embedding
                (Store.rows (Store.table db))) as H.
  lia.
Qed.

Lemma X6_witness :
  (Store.mkEmbeddingStats 3 2 1).(Store.records_without_embeddings)
  = List.length [Store.mkUnembedded 3 "hr staff sales" "HR" "datasource"].
Proof.
  exact (proj1 (X6_stats_agree_with_work_list Examples.env0
                  (Store.mkDb true Examples.casts0 Examples.table_three) _ _ eq_refl eq_refl)).
Defined.

(** X7.  [upsert_objects] accounts for every object it was given: whatever
    the environment and the database do, the reported [total] and [errors]
    add up to the number of objects.  When the transaction could be
    opened, [total] is the number of objects whose statement ran before
    the first one on which the server raised; if the server raised on one,
    the transaction is rolled back and the rows of the table are what they
    were, and if it raised on none, [total] is the number of objects whose
    statement runs.  When the transaction could not be opened, [total] is
    zero and the database is as it was. *)
Theorem X7_upsert_objects_accounts_for_all :
  forall (env : Store.Env) (now : nat) (objects : list Rec) (db : Store.Db),
    let '(stats, db') := Writer.upsert_objects env now objects db in
    Writer.w_total stats + Writer.w_errors stats = List.length objects
    /\ Store.reachable db' = Store.reachable db
    /\ (if is_ok (Store.get_engine env) && Store.reachable db
        then Writer.w_total stats = Store.processed_in db.(Store.casts) objects
             /\ (if existsb (Store.fails db.(Store.casts)) objects
                 then Store.rows db'.(Store.table) = Store.rows db.(Store.table)
                 else Writer.w_total stats
                      = List.length (filter (Store.executes db.(Store.casts)) objects))
        else Writer.w_total stats = 0 /\ db' = db).
Proof.
  intros env now objects db. unfold Writer.upsert_objects.
  destruct objects as [|o os].
  { cbn. repeat split.
    destruct (is_ok (Store.get_engine env) && Store.reachable db); auto. }
  pose proof (upsert_records_result env now (o :: os) db) as H.
  destruct (Store.upsert_records env now (o :: os) db) as [[n db']|e].
  - destruct H as [(n' & db'' & E & Hn & Hr & _ & Hrows & Hcase) | (e' & E & _)];
      [|discriminate].
    assert (En : n' = n) by congruence. assert (Ed : db'' = db') by congruence.
    rewrite En in Hn. rewrite Ed in Hr, Hrows. clear E En Ed.
    cbn [Writer.w_total Writer.w_errors].
    pose proof (processed_in_le (Store.casts db) (o :: os)) as Hle.
    split; [lia|]. split; [exact Hr|].
    destruct Hcase as [[Hnil _] | [He Hre]]; [discriminate|].
    rewrite He, Hre. cbn [andb]. split; [exact Hn|].
    destruct (existsb (Store.fails (Store.casts db)) (o :: os)) eqn:Hex.
    + now apply Hrows.
    + rewrite Hn. now apply processed_in_no_failure.
  - destruct H as [(n' & db'' & E & _) | (e' & _ & Hcase)]; [discriminate|].
    cbn [Writer.w_total Writer.w_errors]. split; [reflexivity|].
    split; [reflexivity|].
    assert (Hok : is_ok (Store.get_engine env) && Store.reachable db = false).
    { destruct Hcase as [-> | ->]; [reflexivity | apply andb_false_r]. }
    rewrite Hok. now split.
Qed.

(* ------------------------------------------------------------------ *)
(** ** The embedding generator *)
(* ------------------------------------------------------------------ *)

Section EmbedFacts.
Import Store.
Import Embed.
Local Open Scope nat_scope.

(** The text of the UPDATE names the parameters [embeddin] and [id]: the
    cast [::vector] that follows [:embedding] costs the name its last
    letter. *)
Lemma update_query_bind_names : bind_names update_query = ["embeddin"; "id"].
Proof. vm_compute. reflexivity. Qed.

(** The parameters the expression finds in a few short texts. *)
Lemma bind_names_examples :
  bind_names "WHERE id = :id" = ["id"]
  /\ bind_names "VALUES (:site_id, :title)" = ["site_id"; "title"]
  /\ bind_names "x::int" = []
  /\ bind_names ":ab::int" = ["a"]
  /\ bind_names ":a::int" = []
  /\ bind_names "a:b" = [].
Proof. vm_compute. repeat split. Qed.

Lemma update_query_unbound : binds update_query ["embedding"; "id"] = false.
Proof. vm_compute. reflexivity. Qed.

Lemma update_loop_skips (pairs : list (Unembedded * Vec)) (t : Table) (n : nat) :
  update_loop pairs t n = (t, n).
Proof.
  revert t n. induction pairs as [|[u v] l IH]; intros t n; cbn [update_loop];
    [reflexivity|].
  rewrite update_query_unbound. apply IH.
Qed.

Lemma with_table_same (db : Db) : with_table db (table db) = db.
Proof. now destruct db. Qed.

Lemma update_embeddings_spec (records : list Unembedded) (embeddings : list Vec)
    (db : Db) (n : nat) (db' : Db) :
  update_embeddings records embeddings db = Ok (n, db') -> n = 0 /\ db' = db.
Proof.
  unfold update_embeddings, begin.
  destruct (List.length records =? List.length embeddings) eqn:E; cbn [negb];
    [|discriminate].
  destruct (reachable db) eqn:Hr; cbn [bind]; [|discriminate].
  rewrite update_loop_skips, with_table_same. intros H. inversion H. now split.
Qed.

Lemma mapM_length {A B} (f : A -> Result B) (l : list A) (l' : list B) :
  mapM f l = Ok l' -> List.length l' = List.length l.
Proof.
  revert l'. induction l as [|a l IH]; intros l'; cbn [mapM].
  - intros H. inversion H. reflexivity.
  - destruct (f a); cbn [bind]; [|discriminate].
    destruct (mapM f l); cbn [bind]; [|discriminate].
    intros H. inversion H. cbn. f_equal. now apply IH.
Qed.

Lemma mapM_total {A B} (f : A -> Result B) (l : list A) :
  (forall a, is_ok (f a) = true) -> exists l', mapM f l = Ok l'.
Proof.
  intros H. induction l as [|a l [l' IH]]; cbn [mapM]; [now eexists|].
  specialize (H a). destruct (f a); [|discriminate]. cbn [bind]. rewrite IH.
  cbn [bind]. now eexists.
Qed.

(** Whatever the service and the database do, the batch loop leaves the
    database as it is and counts no record as processed. *)
Lemma embed_batches_writes (svc : Search.EmbeddingService)
    (batches : list (list Unembedded)) :
  forall (processed errors : nat) (db : Db),
    exists errors',
      Embed.embed_batches svc batches processed errors db = (processed, errors', db)
      /\ errors <= errors' /\ errors' <= errors + List.length batches.
Proof.
  induction batches as [|batch rest IH]; intros processed errors db;
    cbn [Embed.embed_batches].
  - exists errors. repeat split; cbn; lia.
  - unfold Embed.embed_batch.
    destruct (Embed.generate_embeddings svc (map u_text_blob batch)) as [embs|e];
      cbn [bind].
    + destruct (update_embeddings batch embs db) as [[updated db1]|e] eqn:E.
      * apply update_embeddings_spec in E as [-> ->]. rewrite Nat.add_0_r.
        destruct (IH processed errors db) as (e' & -> & H1 & H2).
        exists e'. cbn [List.length]. repeat split; lia.
      * destruct (IH processed (S errors) db) as (e' & -> & H1 & H2).
        exists e'. cbn [List.length]. repeat split; lia.
    + destruct (IH processed (S errors) db) as (e' & -> & H1 & H2).
      exists e'. cbn [List.length]. repeat split; lia.
Qed.

(** With a service that encodes every text and a database that answers,
    no batch raises. *)
Lemma embed_batches_complete (svc : Search.EmbeddingService)
    (batches : list (list Unembedded)) :
  (forall text, is_ok (Search.encode svc text) = true) ->
  forall (processed errors : nat) (db : Db),
    reachable db = true ->
    Embed.embed_batches svc batches processed errors db = (processed, errors, db).
Proof.
  intros Henc. induction batches as [|batch rest IH]; intros processed errors db Hr;
    cbn [Embed.embed_batches]; [reflexivity|].
  unfold Embed.embed_batch.
  assert (exists embs, Embed.generate_embeddings svc (map u_text_blob batch) = Ok embs
                       /\ List.length embs = List.length batch) as (embs & Eg & El).
  { unfold Embed.generate_embeddings.
    destruct (map u_text_blob batch) as [|x xs] eqn:Em.
    - exists []. split; [reflexivity|]. destruct batch; [reflexivity | discriminate].
    - destruct (mapM_total (Search.encode svc) (x :: xs) Henc) as [l' Hl'].
      exists l'. split; [exact Hl'|].
      rewrite (mapM_length _ _ _ Hl'), <- Em. apply length_map. }
  rewrite Eg. cbn [bind].
  destruct (update_embeddings batch embs db) as [[updated db1]|e] eqn:E.
  - apply update_embeddings_spec in E as [-> ->]. rewrite Nat.add_0_r. now apply IH.
  - exfalso. revert E. unfold update_embeddings, begin.
    rewrite El, Nat.eqb_refl, Hr. cbn [negb bind].
    now destruct (update_loop (combine batch embs) (table db) 0).
Qed.

End EmbedFacts.

(** X8.  [embed_all] writes nothing.  The UPDATE of [update_embeddings]
    is given the parameters [embedding] and [id], while its text, in which
    a cast follows [:embedding], names [embeddin] and [id]; every
    execution raises before anything is sent and is skipped.  Whatever the
    model, the limit, the batch size and the database do, the database
    after the run is the database before it and no record is reported as
    processed. *)
Theorem X8_embed_all_writes_nothing :
  forall (svc : Search.EmbeddingService) (limit : option nat) (batch_size : nat)
         (db : Store.Db),
    let '(stats, db') := Embed.embed_all svc limit batch_size db in
    db' = db
    /\ Embed.e_processed_records stats = 0
    /\ Store.bind_names Store.update_query = ["embeddin"; "id"]
    /\ (forall (records : list Store.Unembedded) (embeddings : list Store.Vec),
          Store.update_embeddings records embeddings db
          = if negb (List.length records =? List.length embeddings)
            then Raise (ValueError "Number of records and embeddings must match")
            else if Store.reachable db then Ok (0, db) else Raise DBError).
Proof.
  intros svc limit batch_size db. unfold Embed.embed_all.
  assert (Hupd : forall (records : list Store.Unembedded) (embeddings : list Store.Vec),
            Store.update_embeddings records embeddings db
            = if negb (List.length records =? List.length embeddings)
              then Raise (ValueError "Number of records and embeddings must match")
              else if Store.reachable db then Ok (0, db) else Raise DBError).
  { intros records embeddings. unfold Store.update_embeddings, Store.begin.
    destruct (negb _); [reflexivity|].
    destruct (Store.reachable db); cbn [bind]; [|reflexivity].
    now rewrite update_loop_skips, with_table_same. }
  pose proof update_query_bind_names as Hnames.
  destruct (Search.load svc); [|cbn; auto].
  destruct (Store.get_unembedded_records limit db) as [records|e]; [|cbn; auto].
  destruct records as [|r rs]; [cbn; auto|].
  destruct batch_size as [|b]; [cbn; auto|].
  destruct (embed_batches_writes svc (chunks (S b) (r :: rs)) 0 0 db)
    as (e' & -> & _).
  cbn [Embed.e_processed_records]. auto.
Qed.

(** X9.  With a model that loads and encodes every text, a database that
    answers and a batch size of at least one, [embed_all] selects the
    records without embedding and reports neither an error nor a processed
    record; the records it selected are without embedding afterwards as
    before, and the next run selects them again. *)
Theorem X9_embed_all_leaves_the_work_list :
  forall (svc : Search.EmbeddingService) (limit : option nat) (batch_size : nat)
         (db : Store.Db) (selected : list Store.Unembedded),
    is_ok (Search.load svc) = true ->
    (forall text, is_ok (Search.encode svc text) = true) ->
    1 <= batch_size ->
    Store.get_unembedded_records limit db = Ok selected ->
    let '(stats, db') := Embed.embed_all svc limit batch_size db in
    Embed.e_total_records stats = List.length selected
    /\ Embed.e_processed_records stats = 0
    /\ Embed.e_errors stats = 0
    /\ Store.get_unembedded_records limit db' = Ok selected.
Proof.
  intros svc limit batch_size db selected Hload Henc Hb Hsel.
  assert (Hr : Store.reachable db = true).
  { revert Hsel. unfold Store.get_unembedded_records, Store.begin.
    destruct (Store.reachable db); [reflexivity | discriminate]. }
  unfold Embed.embed_all. destruct (Search.load svc); [|discriminate].
  rewrite Hsel. destruct selected as [|r rs].
  - cbn [Embed.e_total_records Embed.e_processed_records Embed.e_errors List.length].
    repeat split. exact Hsel.
  - destruct batch_size as [|b]; [lia|].
    rewrite (embed_batches_complete svc (chunks (S b) (r :: rs)) Henc 0 0 db Hr).
    cbn [Embed.e_total_records Embed.e_processed_records Embed.e_errors].
    repeat split. exact Hsel.
Qed.

Lemma X9_witness :
  let '(stats, db') :=
    Embed.embed_all Examples.svc_const None 2
      (Store.mkDb true Examples.casts0 Examples.table_three) in
  Embed.e_total_records stats = 1
  /\ Embed.e_processed_records stats = 0
  /\ Embed.e_errors stats = 0
  /\ Store.get_unembedded_records None db'
     = Ok [Store.mkUnembedded 3 "hr staff sales" "HR" "datasource"].
Proof.
  apply (X9_embed_all_leaves_the_work_list Examples.svc_const None 2
           (Store.mkDb true Examples.casts0 Examples.table_three)
           [Store.mkUnembedded 3 "hr staff sales" "HR" "datasource"]).
  - reflexivity.
  - intros text. reflexivity.
  - lia.
  - reflexivity.
Defined.

(* ------------------------------------------------------------------ *)
(** ** The advisory statistics *)
(* ------------------------------------------------------------------ *)

Ltac desc_simpl H :=
  cbn [Quality.d_total_records Quality.with_descriptions Quality.without_descriptions
       Quality.empty_descriptions Quality.short_descriptions Quality.long_descriptions
       Quality.u_total_records Quality.with_urls Quality.without_urls
       Quality.with_deep_links Quality.without_deep_links Quality.malformed_urls
       Quality.b_total_records Quality.empty_text_blobs Quality.short_text_blobs
       Quality.long_text_blobs Quality.total_length]
    in H.

Section QualityStatsFacts.
Import Quality.
Local Open Scope nat_scope.

Lemma desc_fold (records : list Rec) :
  forall st st' : DescStats,
    foldM desc_step st records = Ok st' ->
    d_total_records st' = d_total_records st
    /\ with_descriptions st' + without_descriptions st' + empty_descriptions st'
       = with_descriptions st + without_descriptions st + empty_descriptions st
         + List.length records
    /\ short_descriptions st' + long_descriptions st' + with_descriptions st
       <= short_descriptions st + long_descriptions st + with_descriptions st'
    /\ with_descriptions st <= with_descriptions st'.
Proof.
  induction records as [|r rs IH]; intros st st'; cbn [foldM].
  - intros H. inversion H; subst. cbn [List.length]. lia.
  - destruct (desc_step st r) as [st1|e] eqn:E; cbn [bind]; [|discriminate].
    intros H. apply IH in H. revert E. unfold desc_step.
    destruct (negb (Py.truthy (rget_d r "description" (PStr "")))).
    + intros E. inversion E; subst; clear E. cbn [List.length]; desc_simpl H; lia.
    + destruct (rget_d r "description" (PStr "")); try discriminate.
      destruct (String.eqb (Text.strip s) "").
      * intros E. inversion E; subst; clear E. cbn [List.length]; desc_simpl H; lia.
      * destruct (String.length s <? 10); [|destruct (500 <? String.length s)];
          intros E; inversion E; subst; clear E; cbn [List.length]; desc_simpl H; lia.
Qed.

Lemma url_fold (records : list Rec) :
  forall st st' : UrlStats,
    foldM url_step st records = Ok st' ->
    u_total_records st' = u_total_records st
    /\ with_urls st' + without_urls st'
       = with_urls st + without_urls st + List.length records
    /\ with_deep_links st' + without_deep_links st'
       = with_deep_links st + without_deep_links st + List.length records
    /\ malformed_urls st' + with_urls st <= malformed_urls st + with_urls st'
    /\ with_urls st <= with_urls st'.
Proof.
  induction records as [|r rs IH]; intros st st'; cbn [foldM].
  - intros H. inversion H; subst. cbn [List.length]. lia.
  - destruct (url_step st r) as [st1|e] eqn:E; cbn [bind]; [|discriminate].
    intros H. apply IH in H. revert E. unfold url_step.
    destruct (negb (Py.truthy (rget_d r "url" (PStr "")))); cbn [bind].
    + destruct (Py.truthy (rget_d r "deep_link_url" (PStr "")));
        intros E; inversion E; subst; clear E; cbn [List.length]; desc_simpl H; lia.
    + destruct (rget_d r "url" (PStr "")); try discriminate. cbn [bind].
      destruct (existsb (Text.startswith s) url_prefixes);
        destruct (Py.truthy (rget_d r "deep_link_url" (PStr "")));
        intros E; inversion E; subst; clear E; cbn [List.length]; desc_simpl H; lia.
Qed.

Lemma blob_fold (records : list Rec) :
  forall st st' : BlobStats,
    foldM blob_step st records = Ok st' ->
    b_total_records st' = b_total_records st
    /\ empty_text_blobs st' + short_text_blobs st' + long_text_blobs st'
       <= empty_text_blobs st + short_text_blobs st + long_text_blobs st
          + List.length records.
Proof.
  induction records as [|r rs IH]; intros st st'; cbn [foldM].
  - intros H. inversion H; subst. cbn [List.length]. lia.
  - destruct (blob_step st r) as [st1|e] eqn:E; cbn [bind]; [|discriminate].
    intros H. apply IH in H. revert E. unfold blob_step.
    destruct (negb (Py.truthy (rget_d r "text_blob" (PStr "")))).
    + intros E. inversion E; subst; clear E. cbn [List.length]; desc_simpl H; lia.
    + destruct (len (rget_d r "text_blob" (PStr ""))) as [n|e]; cbn [bind];
        [|discriminate].
      destruct (n <? 20); [|destruct (2000 <? n)];
        intros E; inversion E; subst; clear E; cbn [List.length]; desc_simpl H; lia.
Qed.

End QualityStatsFacts.

(** X10.  The statistics in the report of [run_all_checks] count every
    record once: descriptions are present, missing or blank; URLs are
    present or missing; deep links are present or missing.  Short and long
    descriptions are among those present, malformed URLs among the URLs
    present, and empty, short and long text blobs are different records. *)
Theorem X10_quality_statistics_partition :
  forall (self self' : Quality.QualityChecker) (records : list Rec)
         (q : Quality.QualityResults),
    Quality.run_all_checks self records = Ok (q, self') ->
    let d := Quality.r_description_quality q in
    let u := Quality.r_url_quality q in
    let b := Quality.r_text_blob_quality q in
    (Quality.with_descriptions d + Quality.without_descriptions d
     + Quality.empty_descriptions d = List.length records
     /\ Quality.short_descriptions d + Quality.long_descriptions d
        <= Quality.with_descriptions d
     /\ Quality.d_total_records d = List.length records)
    /\ (Quality.with_urls u + Quality.without_urls u = List.length records
        /\ Quality.with_deep_links u + Quality.without_deep_links u = List.length records
        /\ Quality.malformed_urls u <= Quality.with_urls u
        /\ Quality.u_total_records u = List.length records)
    /\ (Quality.empty_text_blobs b + Quality.short_text_blobs b
        + Quality.long_text_blobs b <= List.length records
        /\ Quality.b_total_records b = List.length records).
Proof.
  intros self self' records q. unfold Quality.run_all_checks.
  destruct (Quality.check_site_isolation self records) as [iso self1].
  destruct (Quality.check_required_fields self1 records) as [req self2].
  unfold Quality.check_description_quality, Quality.check_url_quality,
    Quality.check_text_blob_quality.
  destruct (Quality.foldM Quality.desc_step _ records) as [d|e] eqn:Ed; cbn [bind];
    [|discriminate].
  destruct (Quality.foldM Quality.url_step _ records) as [u|e] eqn:Eu; cbn [bind];
    [|discriminate].
  destruct (Quality.foldM Quality.blob_step _ records) as [b|e] eqn:Eb; cbn [bind];
    [|discriminate].
  intros H. inversion H; subst; clear H. cbn [fst snd]. cbn zeta.
  cbn [Quality.r_description_quality Quality.r_url_quality Quality.r_text_blob_quality].
  apply desc_fold in Ed. apply url_fold in Eu. apply blob_fold in Eb.
  desc_simpl Ed. desc_simpl Eu. desc_simpl Eb. cbn [List.length] in *. lia.
Qed.

Lemma X10_witness :
  exists q self',
    Quality.run_all_checks (Quality.new "S1" "Site")
      [Examples.wb_sales; Examples.wb_advisory] = Ok (q, self')
    /\ Quality.with_urls (Quality.r_url_quality q)
       + Quality.without_urls (Quality.r_url_quality q) = 2.
Proof.
  destruct (Quality.run_all_checks (Quality.new "S1" "Site")
              [Examples.wb_sales; Examples.wb_advisory]) as [[q self']|e] eqn:E.
  - exists q, self'. split; [reflexivity|].
    exact (proj1 (proj1 (proj2
             (X10_quality_statistics_partition (Quality.new "S1" "Site") self'
                [Examples.wb_sales; Examples.wb_advisory] q E)))).
  - exfalso. revert E. vm_compute. discriminate.
Defined.

(* ------------------------------------------------------------------ *)
(** ** The rate limiter *)
(* ------------------------------------------------------------------ *)

Section LimiterFacts.
Import Limiter.
Local Open Scope nat_scope.

(** What [wait_if_needed] does with a limit of at least one request: it
    never fails; it proceeds only below the limit; and at the limit it
    always sleeps, for a positive time, and forgets the window. *)
Lemma wait_if_needed_spec (now : Z) (self : RateLimiter) :
  1 <= max_requests_per_minute self ->
  let kept := filter (fun req_time => (now - minute <? req_time)%Z) (requests self) in
  match wait_if_needed now self with
  | Proceeded self' =>
      requests self' = kept
      /\ List.length kept < max_requests_per_minute self
      /\ max_requests_per_minute self' = max_requests_per_minute self
  | Slept sleep_time self' =>
      (0 < sleep_time)%Z
      /\ requests self' = []
      /\ max_requests_per_minute self <= List.length kept
      /\ max_requests_per_minute self' = max_requests_per_minute self
  | IndexErrorRaised => False
  end.
Proof.
  intros Hmax. cbn zeta. unfold wait_if_needed.
  set (kept := filter (fun req_time => (now - minute <? req_time)%Z) (requests self)).
  destruct (max_requests_per_minute self <=? List.length kept) eqn:E.
  - apply Nat.leb_le in E.
    assert (Hin : forall x, In x kept -> (now - minute < x)%Z).
    { intros x Hx. apply filter_In in Hx as [_ Hx]. now apply Z.ltb_lt in Hx. }
    destruct kept as [|oldest rest]; [cbn in E; lia|].
    specialize (Hin oldest (or_introl eq_refl)).
    assert (Hs : (0 <? minute - (now - oldest))%Z = true) by (apply Z.ltb_lt; lia).
    rewrite Hs. repeat split; [lia | exact E].
  - apply Nat.leb_gt in E. repeat split. exact E.
Qed.

End LimiterFacts.

(** X11.  A rate limiter with a limit of at least one request never fails
    in its wait, and after [make_request] it remembers at most that many
    requests, whether the request succeeded or not.  When the limit is
    reached it always sleeps for a positive time and restarts the window
    with the request just made. *)
Theorem X11_rate_limiter_window_bounded :
  forall (Resp : Type) (now done : Z) (send : Result Resp) (self : Limiter.RateLimiter),
    1 <= Limiter.max_requests_per_minute self ->
    exists self',
      Limiter.limiter_after (Limiter.make_request now done send self) = Some self'
      /\ List.length (Limiter.requests self') <= Limiter.max_requests_per_minute self
      /\ Limiter.max_requests_per_minute self' = Limiter.max_requests_per_minute self
      /\ (Limiter.max_requests_per_minute self
          <= List.length (filter (fun req_time => (now - Limiter.minute <? req_time)%Z)
                            (Limiter.requests self)) ->
          exists sleep_time waited,
            Limiter.wait_if_needed now self = Limiter.Slept sleep_time waited
            /\ (0 < sleep_time)%Z
            /\ Limiter.requests self' = (if is_ok send then [done] else [])).
Proof.
  intros Resp now done send self Hmax.
  pose proof (wait_if_needed_spec now self Hmax) as H. cbn zeta in H.
  unfold Limiter.make_request.
  destruct (Limiter.wait_if_needed now self) as [self1|t self1|]; [| |contradiction].
  - destruct H as (Hk & Hlt & Hm).
    destruct send as [response|e]; cbn [Limiter.limiter_after];
      eexists; (split; [reflexivity|]);
      cbn [Limiter.with_requests Limiter.requests Limiter.max_requests_per_minute];
      rewrite ?length_app, Hk; cbn [List.length];
      (split; [lia|]); (split; [exact Hm|]); intros Hfull; lia.
  - destruct H as (Ht & Hk & Hfull & Hm).
    destruct send as [response|e]; cbn [Limiter.limiter_after];
      eexists; (split; [reflexivity|]);
      cbn [Limiter.with_requests Limiter.requests Limiter.max_requests_per_minute];
      rewrite ?length_app, Hk; cbn [List.length];
      (split; [lia|]); (split; [exact Hm|]); intros _;
      exists t, self1; repeat split; assumption.
Qed.

Lemma X11_witness :
  exists self',
    Limiter.limiter_after
      (Limiter.make_request 61000000 61500000 (Ok tt)
         (Limiter.mkLimiter 2 3 [500000%Z; 2000000%Z; 3000000%Z])) = Some self'
    /\ List.length (Limiter.requests self') <= 2.
Proof.
  destruct (X11_rate_limiter_window_bounded unit 61000000 61500000 (Ok tt)
              (Limiter.mkLimiter 2 3 [500000%Z; 2000000%Z; 3000000%Z]))
    as (self' & H1 & H2 & _).
  - cbn. lia.
  - exists self'. split; [exact H1 | exact H2].
Defined.

(* ------------------------------------------------------------------ *)
(** ** The environment check *)
(* ------------------------------------------------------------------ *)

Section EnvironmentFacts.
Import Environment.

Lemma missing_nil (e : OsEnv) (vars : list string) :
  missing e vars = [] ->
  forall var, In var vars -> Store.env_set (getenv e var) = true.
Proof.
  unfold missing. induction vars as [|v vars IH]; intros H var Hin; [contradiction|].
  cbn [filter] in H. destruct (Store.env_set (getenv e v)) eqn:E; cbn [negb] in H;
    [|discriminate].
  destruct Hin as [<- | Hin]; [exact E | now apply IH].
Qed.

End EnvironmentFacts.

(** X12.  In an environment that [validate_environment] accepts,
    [get_engine] of the store finds its settings: it does not raise for
    missing variables, and it is [create_engine] applied to DATABASE_URL
    when that is set, which then begins with [postgresql://] or
    [postgres://], and otherwise to the URL made of the five DB
    parameters, all of which are set.  Whether an engine results is up to
    [create_engine].  The four Tableau variables are set, and the token
    secret is not the placeholder. *)
Theorem X12_validated_environment_has_engine_settings :
  forall (create_engine : string -> Result unit) (e : Environment.OsEnv),
    Environment.validate_environment e = true ->
    (exists url,
        Store.get_engine (Environment.store_env create_engine e) = create_engine url
        /\ ((Environment.getenv e "DATABASE_URL" = Some url /\ url <> ""
             /\ (Text.startswith url "postgresql://" = true
                 \/ Text.startswith url "postgres://" = true))
            \/ (Store.env_set (Environment.getenv e "DATABASE_URL") = false
                /\ exists user password host port name,
                     Environment.getenv e "DB_USER" = Some user
                     /\ Environment.getenv e "DB_PASSWORD" = Some password
                     /\ Environment.getenv e "DB_HOST" = Some host
                     /\ Environment.getenv e "DB_PORT" = Some port
                     /\ Environment.getenv e "DB_NAME" = Some name
                     /\ user <> "" /\ password <> "" /\ host <> "" /\ port <> ""
                     /\ name <> ""
                     /\ url = Store.engine_url user password host port name)))
    /\ (forall var, In var Environment.tableau_vars ->
                    Store.env_set (Environment.getenv e var) = true)
    /\ Environment.getenv e "TABLEAU_PAT_SECRET" <> Some Environment.placeholder.
Proof.
  intros create_engine e. unfold Environment.validate_environment.
  destruct (Environment.missing e Environment.tableau_vars) as [|m ms] eqn:Em;
    [|discriminate].
  cbn zeta.
  destruct (Store.env_set (Environment.getenv e "DATABASE_URL")) eqn:Eu.
  - destruct (Environment.getenv e "DATABASE_URL") as [u|] eqn:Egu; [|discriminate].
    destruct (Text.startswith u "postgresql://" || Text.startswith u "postgres://")
      eqn:Ep; cbn [negb]; [|discriminate].
    destruct (Environment.is_placeholder (Environment.getenv e "TABLEAU_PAT_SECRET"))
      eqn:Es; [discriminate|].
    intros _. split; [|split].
    + exists u. split.
      * unfold Store.get_engine, Environment.store_env.
        cbn [Store.DATABASE_URL Store.create_engine]. now rewrite Egu, Eu.
      * left. split; [reflexivity|]. split; [|now apply orb_true_iff].
        intros ->. discriminate Eu.
    + now apply missing_nil.
    + intros H. rewrite H in Es. cbn in Es. discriminate.
  - destruct (Environment.missing e Environment.db_vars) as [|d ds] eqn:Ed;
      cbn [negb]; [|discriminate].
    destruct (Environment.is_placeholder (Environment.getenv e "TABLEAU_PAT_SECRET"))
      eqn:Es; [discriminate|].
    intros _. split; [|split].
    + pose proof (missing_nil e Environment.db_vars Ed) as H.
      assert (Hset : forall var, In var Environment.db_vars ->
                exists v, Environment.getenv e var = Some v /\ v <> "").
      { intros var Hin. specialize (H var Hin). unfold Store.env_set in H.
        destruct (Environment.getenv e var) as [v|]; [|discriminate].
        exists v. split; [reflexivity|]. intros ->. discriminate H. }
      destruct (Hset "DB_USER") as (user & Euser & Nuser); [cbn; tauto|].
      destruct (Hset "DB_PASSWORD") as (pw & Epw & Npw); [cbn; tauto|].
      destruct (Hset "DB_HOST") as (host & Ehost & Nhost); [cbn; tauto|].
      destruct (Hset "DB_PORT") as (port & Eport & Nport); [cbn; tauto|].
      destruct (Hset "DB_NAME") as (name & Ename & Nname); [cbn; tauto|].
      exists (Store.engine_url user pw host port name). split.
      * unfold Store.get_engine, Environment.store_env.
        cbn [Store.DATABASE_URL Store.DB_USER Store.DB_PASSWORD Store.DB_HOST
             Store.DB_PORT Store.DB_NAME Store.create_engine].
        rewrite Eu. cbn [forallb].
        rewrite (H "DB_USER"), (H "DB_PASSWORD"), (H "DB_HOST"), (H "DB_NAME")
          by (cbn; tauto).
        cbn [andb]. now rewrite Euser, Epw, Ehost, Eport, Ename.
      * right. split; [reflexivity|].
        exists user, pw, host, port, name. repeat split; assumption.
    + now apply missing_nil.
    + intros H. rewrite H in Es. cbn in Es. discriminate.
Qed.

Lemma X12_witness :
  Store.get_engine
    (Environment.store_env Examples.create_engine0
       [("TABLEAU_SERVER_URL", "https://t.example"); ("TABLEAU_PAT_NAME", "bot");
        ("TABLEAU_PAT_SECRET", "s3cret"); ("TABLEAU_SITE_NAME", "main");
        ("DB_HOST", "db"); ("DB_PORT", "5433"); ("DB_NAME", "rwa");
        ("DB_USER", "bot"); ("DB_PASSWORD", "pw")])
  = Examples.create_engine0 "postgresql://bot:pw@db:5433/rwa".
Proof.
  destruct (X12_validated_environment_has_engine_settings Examples.create_engine0
              [("TABLEAU_SERVER_URL", "https://t.example"); ("TABLEAU_PAT_NAME", "bot");
               ("TABLEAU_PAT_SECRET", "s3cret"); ("TABLEAU_SITE_NAME", "main");
               ("DB_HOST", "db"); ("DB_PORT", "5433"); ("DB_NAME", "rwa");
               ("DB_USER", "bot"); ("DB_PASSWORD", "pw")] eq_refl)
    as ((url & Hget & [(Hu & _) | (_ & user & pw & host & port & name & Euser & Epw
                                   & Ehost & Eport & Ename & _ & _ & _ & _ & _ & Hurl)])
        & _).
  - discriminate Hu.
  - rewrite Hget, Hurl.
    cbn in Euser, Epw, Ehost, Eport, Ename.
    inversion Euser; inversion Epw; inversion Ehost; inversion Eport; inversion Ename.
    reflexivity.
Defined.

(* ------------------------------------------------------------------ *)
(** ** Pagination over an arbitrary fetch function *)
(* ------------------------------------------------------------------ *)

Section AnyFetchFacts.
Import Pagination.
Variable Item : Type.
Variable fetch_func : nat -> nat -> Result (list Item).
Variable self : PaginationHelper.
Local Open Scope nat_scope.

(** What a page contributes to [all_results]: its items, or nothing when
    the call raised. *)
Let got (page : nat) : list Item :=
  match fetch_func page (page_size self) with
  | Ok results => results
  | Raise _ => []
  end.

(** A page after which the loop goes on: it came back with at least
    [page_size] items and was not empty. *)
Let full (page : nat) : Prop :=
  exists results, fetch_func page (page_size self) = Ok results
                  /\ results <> [] /\ page_size self <= List.length results.

Lemma paginate_loop_any (fuel : nat) :
  forall (page : nat) (acc : list Item) (req : list nat)
         (items : list Item) (requested : list nat),
    paginate_loop fetch_func fuel self page acc req = Some (items, requested) ->
    exists n,
      1 <= n /\ n <= fuel
      /\ requested = req ++ seq page n
      /\ items = acc ++ List.concat (map got (seq page n))
      /\ (forall p, page <= p -> p < page + n - 1 -> full p)
      /\ (forall m, max_pages self = Some (S m) -> page <= S m -> page + n <= S (S m)).
Proof.
  induction fuel as [|fuel IH]; intros page acc req items requested;
    cbn [paginate_loop]; [discriminate|].
  assert (Hone : forall results,
             got page = results ->
             Some (acc ++ results, req ++ [page]) = Some (items, requested) ->
             exists n,
               1 <= n /\ n <= S fuel
               /\ requested = req ++ seq page n
               /\ items = acc ++ List.concat (map got (seq page n))
               /\ (forall p, page <= p -> p < page + n - 1 -> full p)
               /\ (forall m, max_pages self = Some (S m) -> page <= S m ->
                             page + n <= S (S m))).
  { intros results Hg H. inversion H; subst; clear H. exists 1.
    cbn [seq map List.concat]. rewrite app_nil_r.
    repeat split; try lia. }
  unfold got in Hone.
  destruct (fetch_func page (page_size self)) as [results|e] eqn:Ef.
  - destruct results as [|x results].
    + intros H. apply (Hone [] eq_refl). now rewrite app_nil_r.
    + destruct (List.length (x :: results) <? page_size self) eqn:Es;
        [apply (Hone _ eq_refl)|].
      destruct (cap_reached self page) eqn:Ec; [apply (Hone _ eq_refl)|].
      intros H. apply IH in H as (n & Hn1 & Hn2 & Hreq & Hitems & Hfull & Hcap).
      exists (S n). cbn [seq map List.concat].
      split; [lia|]. split; [lia|].
      split; [now rewrite Hreq, <- app_assoc|].
      split; [rewrite Hitems, <- app_assoc; unfold got at 2; now rewrite Ef|].
      split.
      * intros p H1 H2. destruct (Nat.eq_dec p page) as [-> | Hp].
        -- exists (x :: results). split; [exact Ef|]. split; [discriminate|].
           apply Nat.ltb_ge in Es. exact Es.
        -- apply Hfull; lia.
      * intros m Hm Hle. unfold cap_reached in Ec. rewrite Hm in Ec.
        apply Nat.leb_gt in Ec. specialize (Hcap m Hm). lia.
  - intros H. apply (Hone [] eq_refl). now rewrite app_nil_r.
Qed.

Lemma paginate_loop_capped (m : nat) :
  max_pages self = Some (S m) ->
  forall (fuel page : nat) (acc : list Item) (req : list nat),
    S m < page + fuel -> 1 <= fuel ->
    paginate_loop fetch_func fuel self page acc req <> None.
Proof.
  intros Hm. induction fuel as [|fuel IH]; intros page acc req Hf H1; [lia|].
  cbn [paginate_loop].
  destruct (fetch_func page (page_size self)) as [[|x results]|e]; try discriminate.
  destruct (List.length (x :: results) <? page_size self); [discriminate|].
  destruct (cap_reached self page) eqn:Ec; [discriminate|].
  unfold cap_reached in Ec. rewrite Hm in Ec. apply Nat.leb_gt in Ec.
  apply IH; lia.
Qed.

End AnyFetchFacts.

(** X13.  Whatever the fetch function does, a finished pagination has
    requested the pages 1, 2, ..., n in order, for some n of at least one
    and at most [max_pages] when that is set.  Every page before the last
    came back non-empty with at least [page_size] items, and the result is
    the items of the pages in order, a page that raised counting for
    nothing: the items fetched before a failure are kept. *)
Theorem X13_pagination_over_any_fetch_function :
  forall (Item : Type) (fetch_func : nat -> nat -> Result (list Item))
         (self : Pagination.PaginationHelper) (fuel : nat)
         (items : list Item) (requested : list nat),
    Pagination.paginate_requests fetch_func fuel self = Some (items, requested) ->
    exists n,
      1 <= n
      /\ requested = seq 1 n
      /\ items = List.concat
                   (map (fun page =>
                           match fetch_func page (Pagination.page_size self) with
                           | Ok results => results
                           | Raise _ => []
                           end) (seq 1 n))
      /\ (forall p, 1 <= p -> p < n ->
                    exists results,
                      fetch_func p (Pagination.page_size self) = Ok results
                      /\ results <> []
                      /\ Pagination.page_size self <= List.length results)
      /\ (forall m, Pagination.max_pages self = Some (S m) -> n <= S m).
Proof.
  intros Item fetch_func self fuel items requested H.
  apply paginate_loop_any in H as (n & Hn1 & _ & Hreq & Hitems & Hfull & Hcap).
  exists n. split; [exact Hn1|]. split; [exact Hreq|]. split; [exact Hitems|].
  split.
  - intros p H1 H2. apply Hfull; lia.
  - intros m Hm. specialize (Hcap m Hm). lia.
Qed.

Lemma X13_witness :
  exists n,
    1 <= n
    /\ [1; 2] = seq 1 n
    /\ (forall m, Pagination.max_pages (Pagination.mkHelper 2 (Some 2)) = Some (S m) ->
                  n <= S m).
Proof.
  destruct (X13_pagination_over_any_fetch_function nat
              (fun page size => if page =? 2 then Raise ConnectionError
                                else Ok (repeat page size))
              (Pagination.mkHelper 2 (Some 2)) 5 [1; 1] [1; 2] eq_refl)
    as (n & H1 & H2 & _ & _ & H3).
  exists n. split; [exact H1|]. split; [exact H2 | exact H3].
Defined.

(** X14.  With [max_pages] set to a positive number, pagination ends
    whatever the fetch function returns: that many iterations are enough
    for a result. *)
Theorem X14_capped_pagination_terminates :
  forall (Item : Type) (fetch_func : nat -> nat -> Result (list Item))
         (self : Pagination.PaginationHelper) (m : nat),
    Pagination.max_pages self = Some (S m) ->
    exists items requested,
      Pagination.paginate_requests fetch_func (S m) self = Some (items, requested)
      /\ List.length requested <= S m.
Proof.
  intros Item fetch_func self m Hm.
  pose proof (paginate_loop_capped Item fetch_func self m Hm (S m) 1 [] []) as H.
  unfold Pagination.paginate_requests.
  destruct (Pagination.paginate_loop fetch_func (S m) self 1 [] [])
    as [[items requested]|] eqn:E.
  - exists items, requested. split; [reflexivity|].
    apply paginate_loop_any in E as (n & _ & Hn & Hreq & _).
    rewrite Hreq. cbn [app]. now rewrite length_seq.
  - exfalso. apply H; [lia | lia | reflexivity].
Qed.

Lemma X14_witness :
  exists items requested,
    Pagination.paginate_requests (fun page size => Ok (repeat page size)) 3
      (Pagination.mkHelper 2 (Some 3)) = Some (items, requested)
    /\ List.length requested <= 3.
Proof.
  apply (X14_capped_pagination_terminates nat (fun page size => Ok (repeat page size))
           (Pagination.mkHelper 2 (Some 3)) 2).
  reflexivity.
Defined.

(* ------------------------------------------------------------------ *)
(** ** Signing in *)
(* ------------------------------------------------------------------ *)

(** X15.  [signin] sends exactly one request, a POST to [auth/signin]
    without authentication header.  It returns [True] exactly when the
    response carries credentials with a non-empty token and a site with a
    non-empty id; the client then holds that token and that site id, and
    [_headers] yields the token.  The server, the token name and secret
    and the site name of the client never change. *)
Theorem X15_signin_succeeds_iff_token_and_site :
  forall (http : Client.Http) (self self' : Client.TableauClient)
         (r : Result bool) (sent : list Client.Request),
    Client.signin http self = (r, self', sent) ->
    exists req,
      sent = [req]
      /\ Client.method req = Client.POST
      /\ Client.req_url req = Client.api self "auth/signin"
      /\ Client.headers req = []
      /\ (r = Ok true <->
          exists t s,
            t <> "" /\ s <> ""
            /\ http req = Ok (Client.RCredentials
                                (Some (Client.mkCredentials (Some t) (Some (Some s))))))
      /\ (r = Ok true ->
          exists t s,
            Client.token self' = Some t /\ Client.site_id self' = Some s
            /\ http req = Ok (Client.RCredentials
                                (Some (Client.mkCredentials (Some t) (Some (Some s)))))
            /\ Client._headers self' = Ok [("X-Tableau-Auth", t)])
      /\ Client.server self' = Client.server self
      /\ Client.pat_name self' = Client.pat_name self
      /\ Client.pat_secret self' = Client.pat_secret self
      /\ Client.site_name self' = Client.site_name self.
Proof.
  intros http self self' r sent. unfold Client.signin.
  set (req := Client.mkRequest Client.POST (Client.api self "auth/signin") [] _).
  intros H. exists req.
  destruct (http req) as [resp|e] eqn:Eh.
  - destruct resp as [items|[[tok site]|]|].
    + inversion H; subst; clear H. repeat split; try discriminate.
      intros (t & s & _ & _ & Hx). discriminate.
    + revert H. unfold Client.has_token, Client.set_token, Client.set_site_id.
      cbn [Client.cred_token Client.cred_site Client.token Client.site_id
           Client.server Client.pat_name Client.pat_secret Client.site_name].
      destruct tok as [t|]; cbn [Store.env_set negb].
      * destruct (String.eqb t "") eqn:Et; cbn [negb].
        -- intros H. inversion H; subst; clear H. apply String.eqb_eq in Et. subst t.
           repeat split; try discriminate.
           intros (t & s & Ht & _ & Hx). inversion Hx; subst. now contradiction Ht.
        -- apply String.eqb_neq in Et. destruct site as [[s|]|]; cbn [Store.env_set negb].
           ++ destruct (String.eqb s "") eqn:Es; cbn [negb].
              ** intros H. inversion H; subst; clear H. apply String.eqb_eq in Es. subst s.
                 repeat split; try discriminate.
                 intros (t' & s & _ & Hs & Hx). inversion Hx; subst. now contradiction Hs.
              ** apply String.eqb_neq in Es.
                 intros H. inversion H; subst; clear H.
                 cbn [Client.token Client.site_id Client.server Client.pat_name
                      Client.pat_secret Client.site_name].
                 repeat split.
                 --- intros _. exists t, s. repeat split; assumption.
                 --- intros _. exists t, s. repeat split.
                     unfold Client._headers. cbn [Client.token].
                     apply String.eqb_neq in Et. now rewrite Et.
           ++ intros H. inversion H; subst; clear H. repeat split; try discriminate.
              intros (t' & s & _ & _ & Hx). discriminate.
           ++ intros H. inversion H; subst; clear H. repeat split; try discriminate.
              intros (t' & s & _ & _ & Hx). discriminate.
      * intros H. inversion H; subst; clear H. repeat split; try discriminate.
        intros (t' & s & _ & _ & Hx). discriminate.
    + inversion H; subst; clear H. repeat split; try discriminate.
      intros (t & s & _ & _ & Hx). discriminate.
    + inversion H; subst; clear H. repeat split; try discriminate.
      intros (t & s & _ & _ & Hx). discriminate.
  - destruct e; inversion H; subst; clear H; repeat split; try discriminate;
      intros (t & s & _ & _ & Hx); discriminate.
Qed.

Lemma X15_witness :
  exists req,
    [Client.mkRequest Client.POST "https://t/api/3.20/auth/signin" []
       [("credentials",
         PDict [("personalAccessTokenName", PStr "bot");
                ("personalAccessTokenSecret", PStr "s3cret");
                ("site", PDict [("contentUrl", PStr "main")])])]] = [req]
    /\ Client.method req = Client.POST.
Proof.
  destruct (X15_signin_succeeds_iff_token_and_site
              (fun _ => Ok (Client.RCredentials
                              (Some (Client.mkCredentials (Some "tok") (Some (Some "S1"))))))
              (Client.new "https://t" "bot" "s3cret" "main") _ _ _ eq_refl)
    as (req & H1 & H2 & _).
  exists req. split; [exact H1 | exact H2].
Defined.

(* ------------------------------------------------------------------ *)
(** ** The records prepared for indexing *)
(* ------------------------------------------------------------------ *)

Ltac bind_ok :=
  repeat match goal with
         | |- context [bind ?m _] =>
             let E := fresh "E" in
             destruct m eqn:E; cbn [bind]; [|discriminate]
         end.

Section PreparedFacts.
Import Normalize.

(** The type and the priority that [prepare_objects_for_indexing] writes
    into a record. *)
Let typed (otype : string) (priority : Z) (r : Rec) : Prop :=
  Py.assoc "object_type" r = Some (PStr otype)
  /\ Py.assoc "search_priority" r = Some (PInt priority).

Let sited (sid : string) (r : Rec) : Prop :=
  Py.assoc "site_id" r = Some (PStr sid).

Lemma rest_object_shape (sid otype parent pname : string) (priority : Z)
    (x : PyVal) (r : Rec) :
  rest_object sid otype parent pname priority x = Ok r ->
  sited sid r /\ typed otype priority r.
Proof.
  unfold rest_object. bind_ok. intros H. inversion H; subst; clear H.
  repeat split.
Qed.

Lemma rest_each_forall (P : Rec -> Prop) (build : PyVal -> Result Rec) :
  (forall x r, build x = Ok r -> P r) ->
  forall (items : list PyVal) (rs : list Rec),
    rest_each build items = Ok rs -> Forall P rs.
Proof.
  intros Hb. induction items as [|x items IH]; intros rs; cbn [rest_each].
  - intros H. inversion H. constructor.
  - destruct (build x) as [r|e] eqn:Ex; cbn [bind try_except].
    + destruct (rest_each build items) as [rs'|e]; cbn [bind]; [|discriminate].
      intros H. inversion H; subst; clear H. constructor; [now apply (Hb x) | now apply IH].
    + destruct (Py.get x "id" (PStr "unknown")); cbn [bind]; [|discriminate].
      destruct (rest_each build items) as [rs'|e']; cbn [bind]; [|discriminate].
      intros H. inversion H; subst; clear H. now apply IH.
Qed.

Lemma rest_each_length (build : PyVal -> Result Rec) :
  forall (items : list PyVal) (rs : list Rec),
    rest_each build items = Ok rs -> List.length rs <= List.length items.
Proof.
  induction items as [|x items IH]; intros rs; cbn [rest_each].
  - intros H. inversion H. cbn. lia.
  - destruct (try_except _ _) as [o|e]; cbn [bind]; [|discriminate].
    destruct (rest_each build items) as [rs'|e']; cbn [bind]; [|discriminate].
    intros H. inversion H; subst; clear H. specialize (IH rs' eq_refl).
    destruct o; cbn [List.length]; lia.
Qed.

(** The records come in three runs, workbooks, datasources and views, each
    stamped with the site of the run and with its type and priority. *)
Lemma prepare_objects_shape (site_id : option string) (metadata : PyVal)
    (records : list Rec) :
  prepare_objects_for_indexing site_id metadata = Ok records ->
  exists sid r1 r2 r3,
    site_id = Some sid /\ sid <> ""%string
    /\ records = r1 ++ r2 ++ r3
    /\ Forall (sited sid) records
    /\ Forall (typed "workbook" 2) r1
    /\ Forall (typed "datasource" 1) r2
    /\ Forall (typed "view" 3) r3.
Proof.
  unfold prepare_objects_for_indexing.
  destruct site_id as [[|c sid]|]; try discriminate.
  bind_ok. intros H. inversion H; subst; clear H.
  exists (String c sid), a1, a4, a7.
  pose proof (fun otype parent pname priority =>
                rest_each_forall (fun r => sited (String c sid) r /\ typed otype priority r)
                  (rest_object (String c sid) otype parent pname priority)
                  (rest_object_shape (String c sid) otype parent pname priority)) as Hall.
  apply Hall in E1, E4, E7.
  split; [reflexivity|]. split; [discriminate|]. split; [reflexivity|].
  split; [|split; [|split]].
  - rewrite !Forall_app. repeat split;
      (eapply Forall_impl; [|eassumption]); intros r [Hs _]; exact Hs.
  - eapply Forall_impl; [|exact E1]. intros r [_ Ht]. exact Ht.
  - eapply Forall_impl; [|exact E4]. intros r [_ Ht]. exact Ht.
  - eapply Forall_impl; [|exact E7]. intros r [_ Ht]. exact Ht.
Qed.

End PreparedFacts.

Section PreparedMoreFacts.

Lemma map_constant {A B} (f : A -> B) (v : B) (l : list A) :
  Forall (fun a => f a = v) l -> map f l = repeat v (List.length l).
Proof.
  induction 1 as [|a l Ha _ IH]; [reflexivity|]. cbn. now rewrite Ha, IH.
Qed.

Lemma rget_assoc (r : Rec) (k : string) (v : PyVal) :
  Py.assoc k r = Some v -> rget r k = v /\ forall d, rget_d r k d = v.
Proof. intros H. unfold rget, rget_d. now rewrite H. Qed.

End PreparedMoreFacts.

(** X16.  Every record that [prepare_objects_for_indexing] returns carries
    the site id of the client, so the records always pass the site
    isolation check of a checker for that site.  The records are the
    workbooks, then the datasources, then the views, and the priority
    written into each record is the one [get_search_priority] gives for
    its type. *)
Theorem X16_prepared_records_carry_the_site :
  forall (site_id : option string) (metadata : PyVal) (records : list Rec)
         (site_name : string),
    Normalize.prepare_objects_for_indexing site_id metadata = Ok records ->
    exists sid,
      site_id = Some sid /\ sid <> ""%string
      /\ Forall (fun r => rget r "site_id" = PStr sid) records
      /\ fst (Quality.check_site_isolation (Quality.new sid site_name) records) = true
      /\ (exists n1 n2 n3,
             map (fun r => rget r "object_type") records
             = repeat (PStr "workbook") n1 ++ repeat (PStr "datasource") n2
               ++ repeat (PStr "view") n3)
      /\ Forall (fun r => exists p, rget r "search_priority" = PInt p
                                    /\ Links.get_search_priority (rget r "object_type")
                                       = Ok p) records.
Proof.
  intros site_id metadata records site_name H.
  apply prepare_objects_shape in H
    as (sid & r1 & r2 & r3 & Hsite & Hne & Hrec & Hs & H1 & H2 & H3).
  exists sid. split; [exact Hsite|]. split; [exact Hne|].
  assert (Hs' : Forall (fun r => rget r "site_id" = PStr sid) records).
  { eapply Forall_impl; [|exact Hs]. intros r Hr. now apply rget_assoc in Hr. }
  split; [exact Hs'|]. split; [|split].
  - rewrite (proj1 (check_site_isolation_spec (Quality.new sid site_name) records)).
    cbn [Quality.new Quality.site_id].
    apply forallb_forall. rewrite Forall_forall in Hs'. intros r Hr.
    unfold Quality.site_ok. rewrite (Hs' r Hr). cbn [Py.truthy Py.eq_str].
    rewrite String.eqb_refl. apply String.eqb_neq in Hne. now rewrite Hne.
  - exists (List.length r1), (List.length r2), (List.length r3).
    rewrite Hrec, !map_app. f_equal; [|f_equal]; apply map_constant.
    + eapply Forall_impl; [|exact H1]. intros r [Hr _]. now apply rget_assoc in Hr.
    + eapply Forall_impl; [|exact H2]. intros r [Hr _]. now apply rget_assoc in Hr.
    + eapply Forall_impl; [|exact H3]. intros r [Hr _]. now apply rget_assoc in Hr.
  - rewrite Hrec, !Forall_app. repeat split.
    + eapply Forall_impl; [|exact H1]. intros r [Ht Hp]. exists 2%Z.
      apply rget_assoc in Ht as [-> _]. apply rget_assoc in Hp as [-> _]. now split.
    + eapply Forall_impl; [|exact H2]. intros r [Ht Hp]. exists 1%Z.
      apply rget_assoc in Ht as [-> _]. apply rget_assoc in Hp as [-> _]. now split.
    + eapply Forall_impl; [|exact H3]. intros r [Ht Hp]. exists 3%Z.
      apply rget_assoc in Ht as [-> _]. apply rget_assoc in Hp as [-> _]. now split.
Qed.

Lemma X16_witness :
  exists sid,
    Some "S1"%string = Some sid /\ sid <> ""%string
    /\ Forall (fun r => rget r "site_id" = PStr sid) [Examples.prepared_one].
Proof.
  destruct (X16_prepared_records_carry_the_site (Some "S1"%string) Examples.metadata_one
              [Examples.prepared_one] "Site")
    as (sid & H1 & H2 & H3 & _).
  - vm_compute. reflexivity.
  - exists sid. split; [exact H1|]. split; [exact H2 | exact H3].
Defined.

(* ------------------------------------------------------------------ *)
(** ** A run of the indexer *)
(* ------------------------------------------------------------------ *)

Section RunFacts.
Import Store.
Import Indexer.
Local Arguments key_eqb : simpl never.

(** Rows of the other sites. *)
Let other (sid : string) (r : Row) : bool := negb (String.eqb (Store.site_id r) sid).

Lemma record_data_site (c : Casts) (sid : string) (r : Rec) (p : Params) :
  Py.assoc "site_id" r = Some (PStr sid) ->
  statement c (record_data r) = Executed p -> p_site_id p = sid.
Proof.
  intros Hs H. apply statement_executed in H as (H & _).
  assert (Hv : rget r "site_id" = PStr sid) by (unfold rget; now rewrite Hs).
  pose proof (sql_text_str c _ sid _ H Hv) as E. now inversion E.
Qed.

Lemma UPSERT_SQL_other_sites (now : nat) (p : Params) (t : Table) :
  filter (other (p_site_id p)) (rows (UPSERT_SQL now p t))
  = filter (other (p_site_id p)) (rows t).
Proof.
  unfold UPSERT_SQL.
  destruct (existsb (fun r => key_eqb (key r) (p_key p)) (rows t)); cbn [rows].
  - induction (rows t) as [|r l IH]; [reflexivity|]. cbn [map filter]. rewrite IH.
    destruct (key_eqb (key r) (p_key p)) eqn:E; [|reflexivity].
    apply key_eqb_eq in E. unfold key, p_key in E. inversion E as [[Hs Ht Ho]].
    unfold other. cbn [Store.site_id do_update]. rewrite Hs, String.eqb_refl.
    reflexivity.
  - rewrite filter_app. cbn [filter]. unfold other at 2.
    cbn [Store.site_id new_row]. rewrite String.eqb_refl. cbn [negb]. apply app_nil_r.
Qed.

Lemma upsert_loop_other_sites (c : Casts) (sid : string) (now : nat)
    (records : list Rec) :
  Forall (fun r => Py.assoc "site_id" r = Some (PStr sid)) records ->
  forall (x : Txn) (n : nat),
    filter (other sid) (rows (current (fst (upsert_loop c now records x n))))
    = filter (other sid) (rows (current x)).
Proof.
  induction 1 as [|r records Hr _ IH]; intros x n; cbn [upsert_loop]; [reflexivity|].
  unfold conn_execute.
  destruct (statement c (record_data r)) as [p| |consumed] eqn:E.
  - destruct (failed x); [apply IH|].
    rewrite IH. cbn [current]. rewrite <- (record_data_site c sid r p Hr E).
    apply UPSERT_SQL_other_sites.
  - apply IH.
  - destruct (failed x); [apply IH|].
    rewrite IH. cbn [current]. now destruct consumed.
Qed.

Lemma upsert_records_other_sites (sid : string) (env : Env) (now : nat)
    (records : list Rec) (db db' : Db) (n : nat) :
  Forall (fun r => Py.assoc "site_id" r = Some (PStr sid)) records ->
  upsert_records env now records db = Ok (n, db') ->
  filter (other sid) (rows (table db')) = filter (other sid) (rows (table db)).
Proof.
  intros Hall. unfold upsert_records, begin. destruct records as [|r rs].
  - intros H. inversion H. reflexivity.
  - destruct (get_engine env); cbn [bind]; [|discriminate].
    destruct (reachable db); cbn [bind]; [|discriminate].
    pose proof (upsert_loop_other_sites (casts db) sid now (r :: rs) Hall
                  (mkTxn (table db) false) 0) as H.
    destruct (upsert_loop (casts db) now (r :: rs) (mkTxn (table db) false) 0)
      as [x k].
    intros E. inversion E; subst; clear E. cbn [with_table table fst current] in *.
    unfold commit. now destruct (failed x).
Qed.

Lemma upsert_batches_other_sites (sid : string) (env : Env) (clock : nat -> nat)
    (batches : list (list Rec)) :
  Forall (Forall (fun r => Py.assoc "site_id" r = Some (PStr sid))) batches ->
  forall (k : nat) (db : Db) (n : nat),
    filter (other sid) (rows (table (snd (upsert_batches env clock k batches db n))))
    = filter (other sid) (rows (table db)).
Proof.
  induction 1 as [|batch rest Hb _ IH]; intros k db n; cbn [upsert_batches];
    [reflexivity|].
  destruct (upsert_records env (clock k) batch db) as [[processed db1]|e] eqn:E;
    [|apply IH].
  rewrite IH. exact (upsert_records_other_sites sid env (clock k) batch db db1
                       processed Hb E).
Qed.

Lemma Forall_chunks_upto {A} (P : A -> Prop) (n : nat) :
  forall (fuel : nat) (l : list A),
    Forall P l -> Forall (Forall P) (chunks_upto fuel n l).
Proof.
  induction fuel as [|fuel IH]; intros l Hl; cbn [chunks_upto]; [constructor|].
  destruct l as [|a l]; [constructor|].
  constructor.
  - rewrite Forall_forall in *. intros x Hx. apply Hl.
    rewrite <- (firstn_skipn n (a :: l)). apply in_or_app. now left.
  - apply IH. rewrite Forall_forall in *. intros x Hx. apply Hl.
    rewrite <- (firstn_skipn n (a :: l)). apply in_or_app. now right.
Qed.

Lemma Forall_apply_max_objects (P : Rec -> Prop) (max_objects : option nat)
    (records : list Rec) :
  Forall P records -> Forall P (apply_max_objects max_objects records).
Proof.
  intros H. unfold apply_max_objects. destruct max_objects as [[|m]|]; try exact H.
  destruct (S m <? List.length records); [|exact H].
  rewrite Forall_forall in *. intros x Hx. apply H.
  rewrite <- (firstn_skipn (S m) records). apply in_or_app. now left.
Qed.

(** A record whose type is none of the keys of the statistics is not
    counted. *)
Lemma count_types_singular (s : IndexStats) (records : list Rec) :
  Forall (fun r => Py.assoc "object_type" r = Some (PStr "workbook")
                   \/ Py.assoc "object_type" r = Some (PStr "datasource")
                   \/ Py.assoc "object_type" r = Some (PStr "view")) records ->
  count_types s records = (s, Ok tt).
Proof.
  induction 1 as [|r records Hr _ IH]; cbn [count_types]; [reflexivity|].
  unfold rget_d. destruct Hr as [-> | [-> | ->]]; exact IH.
Qed.

Lemma index_records_frame (env : Env) (clock : nat -> nat) (sid : string)
    (site_id : option string) (site_name : string) (enable_quality_checks : bool)
    (max_objects : option nat) (records : list Rec) (stats stats' : IndexStats)
    (db db' : Db) (r : Result unit) :
  Forall (fun r => Py.assoc "site_id" r = Some (PStr sid)) records ->
  Forall (fun r => Py.assoc "object_type" r = Some (PStr "workbook")
                   \/ Py.assoc "object_type" r = Some (PStr "datasource")
                   \/ Py.assoc "object_type" r = Some (PStr "view")) records ->
  index_records env clock site_id site_name enable_quality_checks max_objects
    records stats db = (stats', db', r) ->
  filter (other sid) (rows (table db')) = filter (other sid) (rows (table db))
  /\ reachable db' = reachable db
  /\ workbooks stats' = workbooks stats
  /\ datasources stats' = datasources stats
  /\ views stats' = views stats.
Proof.
  intros Hs Ht. unfold index_records.
  destruct records as [|r0 rs]; [intros H; inversion H; auto|].
  apply (Forall_apply_max_objects _ max_objects) in Hs, Ht.
  set (records := apply_max_objects max_objects (r0 :: rs)) in *.
  destruct (quality_gate enable_quality_checks site_id site_name records)
    as [|quality]; [intros H; inversion H; auto|].
  rewrite (count_types_singular stats records Ht).
  unfold upsert_records_batch.
  assert (Hb : forall k n,
             filter (other sid)
               (rows (table (snd (upsert_batches env clock k (chunks 50 records) db n))))
             = filter (other sid) (rows (table db))
             /\ reachable (snd (upsert_batches env clock k (chunks 50 records) db n))
                = reachable db).
  { intros k n. split.
    - apply upsert_batches_other_sites. now apply Forall_chunks_upto.
    - apply (upsert_batches_spec env clock (chunks 50 records) k db n). }
  destruct records as [|r1 rs1].
  - cbn [bind]. destruct (_ <- get_record_count env site_id None db ;; _);
      intros H; inversion H; subst; destruct quality; auto.
  - specialize (Hb 1 0).
    destruct (upsert_batches env clock 1 (chunks 50 (r1 :: rs1)) db 0) as [n db1].
    cbn [snd] in Hb. destruct Hb as [Hf Hr].
    destruct (_ <- get_record_count env site_id None db1 ;; _);
      intros H; inversion H; subst; destruct quality; auto.
Qed.

End RunFacts.

Section CrawlFacts.
Import Indexer.

(** A crawl that ends with prepared records has signed in, and its records
    are those prepared for the site id of the client. *)
Lemma crawl_prepared (repr : PyVal -> string) (http : Client.Http) (env : Store.Env)
    (fuel : nat) (server_url pat_name pat_secret site_name : string)
    (object_types : option (list string)) (db : Store.Db)
    (site : option string) (records : list Rec)
    (c : EnhancedTableauClient) (sent : list Client.Request) :
  crawl repr http env fuel server_url pat_name pat_secret site_name object_types db
  = Some (Prepared site records, c, sent) ->
  site = get_site_id c
  /\ (exists s1, signin http (new server_url pat_name pat_secret site_name)
                 = (Ok true, c, s1))
  /\ (exists metadata,
         Normalize.prepare_objects_for_indexing site metadata = Ok records).
Proof.
  unfold crawl.
  destruct (signin http (new server_url pat_name pat_secret site_name))
    as [[r c0] s1].
  destruct r as [[|]|e]; try discriminate.
  destruct (Store.get_record_count env (get_site_id c0) None db); [|discriminate].
  destruct (fetch_comprehensive_metadata repr http fuel c0 _) as [[[metadata|e] s2]|];
    try discriminate.
  destruct (Normalize.prepare_objects_for_indexing (get_site_id c0) metadata)
    as [rs|e] eqn:Ep; [|discriminate].
  intros H. inversion H; subst; clear H.
  split; [reflexivity|]. split; [now exists s1 | now exists metadata].
Qed.

End CrawlFacts.

(** X17.  [index_site] never counts a record by type.  The keys of its
    statistics are the plural names, the prepared records carry the
    singular ones ([workbook], [datasource], [view]), so whatever the
    server returns and however the run ends, the statistics report zero
    workbooks, zero datasources and zero views. *)
Theorem X17_index_site_reports_no_type_counts :
  forall (repr : PyVal -> string) (http : Client.Http) (env : Store.Env)
         (clock : nat -> nat) (fuel : nat)
         (server_url pat_name pat_secret site_name : string)
         (project_filter : option string) (object_types : option (list string))
         (enable_quality_checks : bool) (max_objects : option nat) (db db' : Store.Db)
         (stats : Indexer.IndexStats) (sent : list Client.Request),
    Indexer.index_site repr http env clock fuel server_url pat_name pat_secret
      site_name project_filter object_types enable_quality_checks max_objects db
    = Some (stats, db', sent) ->
    Indexer.workbooks stats = 0
    /\ Indexer.datasources stats = 0
    /\ Indexer.views stats = 0.
Proof.
  intros repr http env clock fuel server_url pat_name pat_secret site_name
    project_filter object_types enable_quality_checks max_objects db db' stats sent.
  unfold Indexer.index_site.
  destruct (Indexer.crawl repr http env fuel server_url pat_name pat_secret site_name
              object_types db) as [[[cr c] s0]|] eqn:Ec; [|discriminate].
  unfold Indexer.finish.
  destruct cr as [| |site records].
  - destruct (Indexer.signout http c) as [[r c'] s].
    intros H. inversion H; subst. now repeat split.
  - destruct (Indexer.signout http c) as [[r c'] s].
    intros H. inversion H; subst. now repeat split.
  - apply crawl_prepared in Ec as (_ & _ & metadata & Hp).
    apply prepare_objects_shape in Hp
      as (sid & r1 & r2 & r3 & _ & _ & Hrec & Hs & H1 & H2 & H3).
    assert (Ht : Forall (fun r => Py.assoc "object_type" r = Some (PStr "workbook")
                                  \/ Py.assoc "object_type" r = Some (PStr "datasource")
                                  \/ Py.assoc "object_type" r = Some (PStr "view"))
                   records).
    { rewrite Hrec, !Forall_app. repeat split;
        (eapply Forall_impl; [|eassumption]); intros r [Hr _]; auto. }
    destruct (Indexer.index_records env clock site site_name enable_quality_checks
                max_objects records Indexer.initial_stats db)
      as [[stats1 db1] r] eqn:Ei.
    apply (index_records_frame env clock sid) in Ei as (_ & _ & Hw & Hd & Hv);
      [|assumption|assumption].
    destruct (Indexer.signout http c) as [[r' c'] s].
    intros H. inversion H; subst. destruct r; cbn; auto.
Qed.

Lemma X17_witness :
  exists stats db' sent,
    Indexer.index_site Examples.repr0 Examples.http_one Examples.env0
      (fun k => k) 3 "https://tab" "pat" "secret" "main" None None true None
      Examples.db_empty
    = Some (stats, db', sent)
    /\ Indexer.workbooks stats = 0
    /\ Indexer.total_processed stats = 1
    /\ List.length (Store.rows (Store.table db')) = 1.
Proof.
  destruct (Indexer.index_site Examples.repr0 Examples.http_one Examples.env0
              (fun k => k) 3 "https://tab" "pat" "secret" "main" None None true None
              Examples.db_empty) as [[[stats db'] sent]|] eqn:E.
  - exists stats, db', sent. split; [reflexivity|].
    split; [exact (proj1 (X17_index_site_reports_no_type_counts _ _ _ _ _ _ _ _ _ _ _ _ _
                            _ _ _ _ E))|].
    revert E. vm_compute. intros E. inversion E. split; reflexivity.
  - exfalso. revert E. vm_compute. discriminate.
Defined.

(** X18.  A run of [index_site] touches at most the rows of one site, the
    site id the client holds after signing in: the rows of every other
    site are afterwards what they were, in the same order.  When the
    client holds no site id the table is unchanged. *)
Theorem X18_index_site_touches_one_site :
  forall (repr : PyVal -> string) (http : Client.Http) (env : Store.Env)
         (clock : nat -> nat) (fuel : nat)
         (server_url pat_name pat_secret site_name : string)
         (project_filter : option string) (object_types : option (list string))
         (enable_quality_checks : bool) (max_objects : option nat) (db db' : Store.Db)
         (stats : Indexer.IndexStats) (sent : list Client.Request),
    Indexer.index_site repr http env clock fuel server_url pat_name pat_secret
      site_name project_filter object_types enable_quality_checks max_objects db
    = Some (stats, db', sent) ->
    let client :=
      snd (fst (Indexer.signin http
                  (Indexer.new server_url pat_name pat_secret site_name))) in
    Store.reachable db' = Store.reachable db
    /\ (forall sid, Indexer.get_site_id client = Some sid ->
          filter (fun r => negb (String.eqb (Store.site_id r) sid))
                 (Store.rows (Store.table db'))
          = filter (fun r => negb (String.eqb (Store.site_id r) sid))
                   (Store.rows (Store.table db)))
    /\ (Indexer.get_site_id client = None -> db' = db).
Proof.
  intros repr http env clock fuel server_url pat_name pat_secret site_name
    project_filter object_types enable_quality_checks max_objects db db' stats sent.
  unfold Indexer.index_site.
  destruct (Indexer.crawl repr http env fuel server_url pat_name pat_secret site_name
              object_types db) as [[[cr c] s0]|] eqn:Ec; [|discriminate].
  unfold Indexer.finish. cbn zeta.
  destruct cr as [| |site records].
  - destruct (Indexer.signout http c) as [[r c'] s].
    intros H. inversion H; subst. now repeat split.
  - destruct (Indexer.signout http c) as [[r c'] s].
    intros H. inversion H; subst. now repeat split.
  - apply crawl_prepared in Ec as (Hsite & (s1 & Hin) & metadata & Hp).
    rewrite Hin. cbn [fst snd].
    apply prepare_objects_shape in Hp
      as (sid & r1 & r2 & r3 & Hsid & _ & Hrec & Hs & H1 & H2 & H3).
    assert (Ht : Forall (fun r => Py.assoc "object_type" r = Some (PStr "workbook")
                                  \/ Py.assoc "object_type" r = Some (PStr "datasource")
                                  \/ Py.assoc "object_type" r = Some (PStr "view"))
                   records).
    { rewrite Hrec, !Forall_app. repeat split;
        (eapply Forall_impl; [|eassumption]); intros r [Hr _]; auto. }
    destruct (Indexer.index_records env clock site site_name enable_quality_checks
                max_objects records Indexer.initial_stats db)
      as [[stats1 db1] r] eqn:Ei.
    apply (index_records_frame env clock sid) in Ei as (Hf & Hr & _);
      [|assumption|assumption].
    destruct (Indexer.signout http c) as [[r' c'] s].
    intros H. inversion H; subst db1. clear H.
    rewrite <- Hsite, Hsid.
    split; [exact Hr|]. split; [|discriminate].
    intros sid' Hsid'. inversion Hsid'; subst sid'. exact Hf.
Qed.

Lemma X18_witness :
  exists stats db' sent,
    Indexer.index_site Examples.repr0 Examples.http_one Examples.env0
      (fun k => k) 3 "https://tab" "pat" "secret" "main" None None true None
      (Store.mkDb true Examples.casts0
         (Store.mkTable [Store.mkRow 1 "S2" "view" "vw-7" "Other" None [] [] None None
                           None "other" None 0] 2))
    = Some (stats, db', sent)
    /\ Store.reachable db' = true.
Proof.
  destruct (Indexer.index_site Examples.repr0 Examples.http_one Examples.env0
              (fun k => k) 3 "https://tab" "pat" "secret" "main" None None true None
              (Store.mkDb true Examples.casts0
                 (Store.mkTable [Store.mkRow 1 "S2" "view" "vw-7" "Other" None [] [] None
                                   None None "other" None 0] 2)))
    as [[[stats db'] sent]|] eqn:E.
  - exists stats, db', sent. split; [reflexivity|].
    exact (proj1 (X18_index_site_touches_one_site _ _ _ _ _ _ _ _ _ _ _ _ _
                    _ _ _ _ E)).
  - exfalso. revert E. vm_compute. discriminate.
Defined.

(* ------------------------------------------------------------------ *)
(** ** Links *)
(* ------------------------------------------------------------------ *)

Section LinkFacts.
Import Links.
Local Open Scope string_scope.

Lemma rstrip_slash_trailing (s : string) : rstrip_slash (s ++ "/") = rstrip_slash s.
Proof.
  induction s as [|c s IH]; [reflexivity|].
  cbn [append rstrip_slash]. now rewrite IH.
Qed.

Lemma append_slash_nonempty (a b : string) (c : ascii) : a ++ String c b <> "".
Proof. destruct a; discriminate. Qed.

Lemma build_full_url_empty (server_url content_url : string) :
  build_full_url server_url content_url = "" <-> content_url = "".
Proof.
  unfold build_full_url. destruct (String.eqb content_url "") eqn:E.
  - apply String.eqb_eq in E. tauto.
  - apply String.eqb_neq in E. split; [|contradiction].
    intros H. now apply append_slash_nonempty in H.
Qed.

Lemma build_deep_link_url_empty (server_url content_url site_name : string)
    (object_type : PyVal) :
  build_deep_link_url server_url content_url site_name object_type = ""
  <-> content_url = "".
Proof.
  unfold build_deep_link_url. destruct (String.eqb content_url "") eqn:E.
  - apply String.eqb_eq in E. tauto.
  - apply String.eqb_neq in E. split; [|contradiction]. cbn zeta.
    repeat match goal with
           | |- context [if ?b then _ else _] => destruct b
           | |- context [match ?l with [] => _ | _ :: _ => _ end] => destruct l
           end;
      intros H; now apply append_slash_nonempty in H.
Qed.

(** [s.split("/")] of a first segment without slash followed by a slash. *)
Lemma split_slash_segment (a b : string) :
  (forall c, In c (list_ascii_of_string a) -> c <> slash) ->
  split_slash (a ++ String "/" b) = a :: split_slash b.
Proof.
  induction a as [|c a IH]; intros Hno.
  - reflexivity.
  - cbn [append split_slash].
    assert (Hc : Ascii.eqb c slash = false).
    { apply Ascii.eqb_neq. apply Hno. now left. }
    rewrite Hc, IH; [reflexivity|]. intros c' Hc'. apply Hno. now right.
Qed.

Lemma split_slash_last (a : string) :
  (forall c, In c (list_ascii_of_string a) -> c <> slash) ->
  split_slash a = [a].
Proof.
  induction a as [|c a IH]; intros Hno; [reflexivity|].
  cbn [split_slash].
  assert (Hc : Ascii.eqb c slash = false).
  { apply Ascii.eqb_neq. apply Hno. now left. }
  rewrite Hc, IH; [reflexivity|]. intros c' Hc'. apply Hno. now right.
Qed.

End LinkFacts.

(** X19.  Both URL builders ignore a trailing slash of the server URL and
    return the empty string exactly when the content URL is empty.  For an
    object type other than view, workbook and datasource the deep link is
    the plain URL of [build_full_url]. *)
Theorem X19_url_builders_normalise_slashes :
  forall (server_url content_url site_name : string) (object_type : PyVal),
    Links.build_full_url (server_url ++ "/") content_url
    = Links.build_full_url server_url content_url
    /\ Links.build_deep_link_url (server_url ++ "/") content_url site_name object_type
       = Links.build_deep_link_url server_url content_url site_name object_type
    /\ (Links.build_full_url server_url content_url = ""%string
        <-> content_url = ""%string)
    /\ (Links.build_deep_link_url server_url content_url site_name object_type
        = ""%string <-> content_url = ""%string)
    /\ (Py.eq_str object_type "view" = false ->
        Py.eq_str object_type "workbook" = false ->
        Py.eq_str object_type "datasource" = false ->
        Links.build_deep_link_url server_url content_url site_name object_type
        = Links.build_full_url server_url content_url).
Proof.
  intros server_url content_url site_name object_type.
  split; [|split; [|split; [|split]]].
  - unfold Links.build_full_url. now rewrite rstrip_slash_trailing.
  - unfold Links.build_deep_link_url. now rewrite rstrip_slash_trailing.
  - apply build_full_url_empty.
  - apply build_deep_link_url_empty.
  - intros H1 H2 H3. unfold Links.build_deep_link_url, Links.build_full_url.
    now rewrite H1, H2, H3.
Qed.

(** X20.  A content URL of the form [views/<workbook>/<sheet>], whose two
    names hold no slash, gives a view the deep link
    [<server>/#/site/<site>/views/<workbook>/<sheet>] followed by the card
    parameters; segments after the sheet are dropped.  Workbooks and
    datasources get theirs from [workbooks/<name>] and
    [datasources/<name>] in the same way. *)
Theorem X20_deep_links_of_content_urls :
  forall (server_url site_name name sheet more : string),
    (forall c, In c (list_ascii_of_string name) -> c <> Links.slash) ->
    (forall c, In c (list_ascii_of_string sheet) -> c <> Links.slash) ->
    Links.build_deep_link_url server_url ("views/" ++ name ++ "/" ++ sheet ++ "/" ++ more)
      site_name (PStr "view")
    = (Links.rstrip_slash server_url ++ "/#/site/" ++ site_name ++ "/views/" ++ name
         ++ "/" ++ sheet ++ Links.card_suffix)%string
    /\ Links.build_deep_link_url server_url ("views/" ++ name ++ "/" ++ sheet)
         site_name (PStr "view")
       = (Links.rstrip_slash server_url ++ "/#/site/" ++ site_name ++ "/views/" ++ name
            ++ "/" ++ sheet ++ Links.card_suffix)%string
    /\ Links.build_deep_link_url server_url ("workbooks/" ++ name)
         site_name (PStr "workbook")
       = (Links.rstrip_slash server_url ++ "/#/site/" ++ site_name ++ "/workbooks/"
            ++ name ++ Links.card_suffix)%string
    /\ Links.build_deep_link_url server_url ("datasources/" ++ name)
         site_name (PStr "datasource")
       = (Links.rstrip_slash server_url ++ "/#/site/" ++ site_name ++ "/datasources/"
            ++ name ++ Links.card_suffix)%string.
Proof.
  intros server_url site_name name sheet more Hn Hs.
  assert (Hviews : forall rest, Links.split_slash ("views/" ++ rest)
                                = "views"%string :: Links.split_slash rest).
  { intros rest. apply (split_slash_segment "views" rest).
    cbn. intros c H. repeat (destruct H as [<- | H]; [discriminate|]). contradiction. }
  assert (Hwbs : forall rest, Links.split_slash ("workbooks/" ++ rest)
                              = "workbooks"%string :: Links.split_slash rest).
  { intros rest. apply (split_slash_segment "workbooks" rest).
    cbn. intros c H. repeat (destruct H as [<- | H]; [discriminate|]). contradiction. }
  assert (Hdss : forall rest, Links.split_slash ("datasources/" ++ rest)
                              = "datasources"%string :: Links.split_slash rest).
  { intros rest. apply (split_slash_segment "datasources" rest).
    cbn. intros c H. repeat (destruct H as [<- | H]; [discriminate|]). contradiction. }
  cbn [append] in Hviews, Hwbs, Hdss.
  unfold Links.build_deep_link_url.
  cbn [String.eqb append Ascii.eqb Bool.eqb Links.drop_leading_slash Links.slash
       Py.eq_str].
  split; [|split; [|split]].
  - rewrite Hviews, (split_slash_segment name _ Hn), (split_slash_segment sheet _ Hs).
    reflexivity.
  - rewrite Hviews, (split_slash_segment name _ Hn), (split_slash_last sheet Hs).
    reflexivity.
  - rewrite Hwbs, (split_slash_last name Hn). reflexivity.
  - rewrite Hdss, (split_slash_last name Hn). reflexivity.
Qed.

Lemma X20_witness :
  Links.build_deep_link_url "https://tab/" "views/Sales/Overview" "main" (PStr "view")
  = "https://tab/#/site/main/views/Sales/Overview?:showAppBanner=false&:origin=card"%string.
Proof.
  refine (proj1 (proj2 (X20_deep_links_of_content_urls "https://tab/" "main" "Sales"
                          "Overview" "" _ _)));
    cbn; intros c H; repeat (destruct H as [<- | H]; [discriminate|]); contradiction.
Defined.

Section EnhanceFacts.
Import Links.
Local Open Scope string_scope.

Lemma assoc_dict_set (d : list (string * PyVal)) (k k' : string) (v : PyVal) :
  Py.assoc k (Indexer.dict_set d k' v)
  = if String.eqb k k' then Some v else Py.assoc k d.
Proof.
  induction d as [|[k0 v0] d IH]; cbn [Indexer.dict_set Py.assoc].
  - reflexivity.
  - destruct (String.eqb k' k0) eqn:E0; cbn [Py.assoc].
    + apply String.eqb_eq in E0. subst k0. now destruct (String.eqb k k').
    + rewrite IH. destruct (String.eqb k k0) eqn:E1; [|reflexivity].
      apply String.eqb_eq in E1. subst k0.
      now rewrite String.eqb_sym, E0.
Qed.

Lemma enhance_keeps_other_keys (record r2 : Rec) (server_url site_name : string) :
  (r <- enhance_record_with_urls record server_url site_name ;; add_search_metadata r)
  = Ok r2 ->
  forall k, ~ In k added_keys -> Py.assoc k r2 = Py.assoc k record.
Proof.
  intros H k Hk.
  assert (Hne : forall k', In k' added_keys -> String.eqb k k' = false).
  { intros k' Hk'. apply String.eqb_neq. intros ->. contradiction. }
  revert H. unfold enhance_record_with_urls, add_search_metadata.
  destruct (Py.truthy (rget record "url")).
  - destruct (rget record "url"); cbn [bind]; try discriminate.
    bind_ok. intros H. inversion H; subst; clear H.
    rewrite !assoc_dict_set, !Hne; [reflexivity|..]; cbn; tauto.
  - cbn [bind]. bind_ok. intros H. inversion H; subst; clear H.
    rewrite !assoc_dict_set, !Hne; [reflexivity|..]; cbn; tauto.
Qed.

Lemma record_data_ext (r r' : Rec) :
  (forall k, ~ In k added_keys -> Py.assoc k r' = Py.assoc k r) ->
  Store.record_data r' = Store.record_data r.
Proof.
  intros H. unfold Store.record_data, rget.
  rewrite !H; [reflexivity|..]; cbn; intros Hin;
    repeat (destruct Hin as [Hin|Hin]; [discriminate|]); contradiction.
Qed.

End EnhanceFacts.

(** X21.  What [process_metadata_for_indexing] adds to a record is never
    stored.  The records it returns are the normalised records that could
    be enhanced, in order, and each binds to the upsert statement exactly
    as it did before enhancement: the deep link, the full URL, the search
    priority and the three counts are not among the statement's
    parameters. *)
Theorem X21_enhancement_is_not_stored :
  forall (repr : PyVal -> string) (site_id : string) (metadata : PyVal)
         (server_url site_name : string) (out : list Rec),
    Links.process_metadata_for_indexing repr site_id metadata server_url site_name
    = Ok out ->
    exists records,
      Normalize.normalize_metadata_records repr site_id metadata = Ok records
      /\ map Store.record_data out
         = map Store.record_data
             (filter (fun record =>
                        is_ok (r <- Links.enhance_record_with_urls record server_url
                                      site_name ;;
                               Links.add_search_metadata r)) records)
      /\ List.length out <= List.length records.
Proof.
  intros repr site_id metadata server_url site_name out.
  unfold Links.process_metadata_for_indexing.
  destruct (Normalize.normalize_metadata_records repr site_id metadata)
    as [records|e]; cbn [bind]; [|discriminate].
  intros H. inversion H; subst; clear H. exists records. split; [reflexivity|].
  induction records as [|record rest [IH1 IH2]]; [split; [reflexivity | cbn; lia]|].
  cbn [Links.enhance_each filter].
  destruct (r <- Links.enhance_record_with_urls record server_url site_name ;;
            Links.add_search_metadata r) as [r2|e] eqn:E; cbn [is_ok map List.length].
  - split; [|lia]. f_equal; [|exact IH1].
    apply record_data_ext. now apply (enhance_keeps_other_keys record r2 server_url site_name).
  - split; [exact IH1 | lia].
Qed.

Lemma X21_witness :
  exists out records,
    Links.process_metadata_for_indexing Examples.repr0 "S1" Examples.metadata_one
      "https://tab" "main" = Ok out
    /\ Normalize.normalize_metadata_records Examples.repr0 "S1" Examples.metadata_one
       = Ok records
    /\ List.length out <= List.length records
    /\ List.length out = 1.
Proof.
  destruct (Links.process_metadata_for_indexing Examples.repr0 "S1" Examples.metadata_one
              "https://tab" "main") as [out|e] eqn:E.
  - destruct (X21_enhancement_is_not_stored _ _ _ _ _ _ E) as (records & H1 & _ & H3).
    exists out, records. split; [reflexivity|]. split; [exact H1|]. split; [exact H3|].
    revert E. vm_compute. intros E. inversion E. reflexivity.
  - exfalso. revert E. vm_compute. discriminate.
Defined.

(* ------------------------------------------------------------------ *)
(** ** XML to dict *)
(* ------------------------------------------------------------------ *)

Section XmlFacts.
Import Xml.

(** What the dict holds under a tag after the children [l] with that tag
    have been added, in order. *)
Let held (l : list PyVal) : option PyVal :=
  match l with
  | [] => None
  | [x] => Some x
  | _ => Some (PList l)
  end.

Let not_list (v : PyVal) : Prop :=
  match v with PList _ => False | _ => True end.

Lemma xml_to_dict_not_list (e : Element) : not_list (_xml_to_dict e).
Proof.
  destruct e as [tag attrib text children].
  destruct children as [|c cs]; [destruct text as [t|]|]; cbn; try exact I.
  destruct (String.eqb t ""); exact I.
Qed.

Lemma xml_to_dict_children (tag : string) (attrib : list (string * string))
    (text : option string) (c : Element) (cs : list Element) :
  _xml_to_dict (Elem tag attrib text (c :: cs))
  = PDict (add_children (map (fun kv => (fst kv, PStr (snd kv))) attrib)
             (map (fun child => (tag_of child, _xml_to_dict child)) (c :: cs))).
Proof.
  cbn [_xml_to_dict map add_children]. f_equal.
  generalize (add_child (map (fun kv : string * string => (fst kv, PStr (snd kv))) attrib)
                (tag_of c) (_xml_to_dict c)).
  induction cs as [|child l IH]; intros result; [reflexivity|].
  cbn [map add_children]. apply IH.
Qed.

Lemma add_child_held (t tag : string) (data : PyVal) (result : list (string * PyVal))
    (seen : list PyVal) :
  Forall not_list seen -> not_list data ->
  Py.assoc t result = held seen ->
  Py.assoc t (add_child result tag data)
  = held (if String.eqb tag t then seen ++ [data] else seen).
Proof.
  intros Hseen Hdata Hres. unfold add_child.
  destruct (String.eqb tag t) eqn:E.
  - apply String.eqb_eq in E. subst tag. rewrite Hres.
    destruct seen as [|x [|y seen]]; cbn [held app].
    + now rewrite assoc_dict_set, String.eqb_refl.
    + inversion Hseen as [|? ? Hx _]; subst. destruct x; try contradiction;
        now rewrite assoc_dict_set, String.eqb_refl.
    + rewrite assoc_dict_set, String.eqb_refl. reflexivity.
  - assert (E' : String.eqb t tag = false) by now rewrite String.eqb_sym.
    destruct (Py.assoc tag result) as [[]|]; now rewrite assoc_dict_set, E'.
Qed.

Lemma add_children_held (t : string) (cs : list (string * PyVal)) :
  Forall (fun c => not_list (snd c)) cs ->
  forall (result : list (string * PyVal)) (seen : list PyVal),
    Forall not_list seen ->
    Py.assoc t result = held seen ->
    Py.assoc t (add_children result cs)
    = held (seen ++ map snd (filter (fun c => String.eqb (fst c) t) cs)).
Proof.
  induction 1 as [|[tag data] cs Hd _ IH]; intros result seen Hseen Hres.
  - cbn. now rewrite app_nil_r.
  - cbn [add_children filter fst snd] in *.
    pose proof (add_child_held t tag data result seen Hseen Hd Hres) as H.
    destruct (String.eqb tag t); cbn [map snd].
    + rewrite (IH _ (seen ++ [data])); [now rewrite <- app_assoc| |exact H].
      apply Forall_app. split; [exact Hseen | now constructor].
    + now apply IH.
Qed.

End XmlFacts.

(** X22.  The list protocol of [_xml_to_dict].  For an element with
    children and a tag that is not the name of one of its attributes, the
    dict holds nothing under the tag when no child has it, the conversion
    of the child when exactly one has it, and the list of the conversions,
    in document order, when several have it.  A conversion is never itself
    a list. *)
Theorem X22_xml_children_list_protocol :
  forall (tag : string) (attrib : list (string * string)) (text : option string)
         (children : list Xml.Element) (t : string),
    children <> [] ->
    Py.assoc t (map (fun kv => (fst kv, PStr (snd kv))) attrib) = None ->
    exists d,
      Xml._xml_to_dict (Xml.Elem tag attrib text children) = PDict d
      /\ Py.assoc t d
         = match map Xml._xml_to_dict
                   (filter (fun c => String.eqb (Xml.tag_of c) t) children) with
           | [] => None
           | [x] => Some x
           | l => Some (PList l)
           end
      /\ Forall (fun c => match Xml._xml_to_dict c with
                          | PList _ => False
                          | _ => True
                          end) children.
Proof.
  intros tag attrib text children t Hne Hattr.
  destruct children as [|c cs]; [contradiction|].
  rewrite xml_to_dict_children. eexists. split; [reflexivity|]. split.
  - assert (Hall : Forall (fun p : string * PyVal =>
                             match snd p with PList _ => False | _ => True end)
                     (map (fun child => (Xml.tag_of child, Xml._xml_to_dict child))
                        (c :: cs))).
    { apply Forall_forall. intros p Hp. apply in_map_iff in Hp as (x & <- & _).
      apply xml_to_dict_not_list. }
    rewrite (add_children_held t _ Hall _ [] (Forall_nil _) Hattr).
    cbn [app].
    assert (Hsame : forall l : list Xml.Element,
               map snd (filter (fun p : string * PyVal => String.eqb (fst p) t)
                          (map (fun child => (Xml.tag_of child, Xml._xml_to_dict child)) l))
               = map Xml._xml_to_dict
                   (filter (fun child => String.eqb (Xml.tag_of child) t) l)).
    { induction l as [|x l IH]; [reflexivity|].
      cbn [map filter fst snd]. destruct (String.eqb (Xml.tag_of x) t); cbn [map snd];
        now rewrite IH. }
    rewrite Hsame.
    destruct (map Xml._xml_to_dict
                (filter (fun child => String.eqb (Xml.tag_of child) t) (c :: cs)))
      as [|x [|y l]]; reflexivity.
  - apply Forall_forall. intros x _. apply xml_to_dict_not_list.
Qed.

Lemma X22_witness :
  exists d,
    Xml._xml_to_dict
      (Xml.Elem "workbooks" [] None
         [Xml.Elem "workbook" [("id", "wb-1")] None [];
          Xml.Elem "workbook" [("id", "wb-2")] None []]) = PDict d
    /\ Py.assoc "workbook" d
       = Some (PList [PDict [("id", PStr "wb-1")]; PDict [("id", PStr "wb-2")]]).
Proof.
  destruct (X22_xml_children_list_protocol "workbooks" [] None
              [Xml.Elem "workbook" [("id", "wb-1")] None [];
               Xml.Elem "workbook" [("id", "wb-2")] None []] "workbook")
    as (d & H1 & H2 & _).
  - discriminate.
  - reflexivity.
  - exists d. split; [exact H1 | exact H2].
Defined.

(* ------------------------------------------------------------------ *)
(** ** Filtered searches *)
(* ------------------------------------------------------------------ *)

Section SearchFilterFacts.
Import Search.
Import SearchFilters.

Lemma vector_query_bounded (pg : Pg) (q : Store.Vec) (limit : nat) (t : Store.Table) :
  List.length (vector_query pg q limit t) <= limit
  /\ Forall (fun h => In (hit_row h) (Store.rows t)) (vector_query pg q limit t).
Proof.
  unfold vector_query. split.
  - rewrite length_map, length_firstn. lia.
  - apply Forall_forall. intros h Hh. apply in_map_iff in Hh as (r & <- & Hr).
    cbn [hit_row].
    assert (Hin : In r (order_by (fun a b => Qle_bool (distance_to pg q a)
                                               (distance_to pg q b))
                          (filter Store.has_embedding (Store.rows t)))).
    { rewrite <- (firstn_skipn limit). apply in_or_app. now left. }
    apply in_order_by in Hin. now apply filter_In in Hin.
Qed.

Lemma text_query_bounded (pg : Pg) (query : string) (limit : nat) (t : Store.Table) :
  List.length (text_query pg query limit t) <= limit
  /\ Forall (fun h => In (hit_row h) (Store.rows t)) (text_query pg query limit t).
Proof.
  unfold text_query. split.
  - rewrite length_firstn. lia.
  - apply Forall_forall. intros h Hh.
    assert (Hin : In h (order_by (fun a b => Qle_bool (similarity_score b)
                                               (similarity_score a))
                          (map (fun r => mkHit r (ts_rank pg query (Store.text_blob r)))
                             (filter (fun r => fts_match pg query (Store.text_blob r))
                                (Store.rows t))))).
    { rewrite <- (firstn_skipn limit). apply in_or_app. now left. }
    apply in_order_by in Hin. apply in_map_iff in Hin as (r & <- & Hr).
    cbn [hit_row]. now apply filter_In in Hr.
Qed.

(** Every answer of [search] holds at most [limit] hits, all of them rows
    of the table. *)
Lemma search_bounded (pg : Pg) (svc : EmbeddingService) (db : Store.Db)
    (self : SemanticSearch) (query : string) (limit : nat) (threshold : Q)
    (hits : list Hit) :
  search pg svc db self query limit threshold = Ok hits ->
  List.length hits <= limit
  /\ Forall (fun h => In (hit_row h) (Store.rows (Store.table db))) hits.
Proof.
  assert (Hnil : List.length (@nil Hit) <= limit
                 /\ Forall (fun h => In (hit_row h) (Store.rows (Store.table db))) [])
    by (split; [cbn; lia | constructor]).
  assert (Htext : forall hits', _text_search pg db query limit = Ok hits' ->
                    List.length hits' <= limit
                    /\ Forall (fun h => In (hit_row h) (Store.rows (Store.table db))) hits').
  { intros hits'. rewrite text_search_ok. intros H. inversion H; subst.
    destruct (Store.reachable db && negb (Text.has_nul query));
      [apply text_query_bounded | exact Hnil]. }
  assert (Hvec : forall qe hits', _vector_search pg db qe limit threshold = Ok hits' ->
                    List.length hits' <= limit
                    /\ Forall (fun h => In (hit_row h) (Store.rows (Store.table db))) hits').
  { intros qe hits'. rewrite vector_search_ok. intros H. inversion H; subst.
    exact Hnil. }
  unfold search. destruct (String.eqb (Text.strip query) "").
  - intros H. inversion H; subst. exact Hnil.
  - destruct (_load_model svc self) as [s|e]; cbn [bind try_except]; [|apply Htext].
    destruct (encode svc query) as [qe|e]; cbn [bind try_except]; [|apply Htext].
    destruct (_vector_search pg db qe limit threshold) as [results|e] eqn:Ev;
      cbn [bind try_except]; [|apply Htext].
    destruct results as [|h results].
    + destruct (_text_search pg db query limit) as [hits'|e] eqn:Et;
        cbn [try_except].
      * intros H. inversion H; subst. now apply Htext.
      * apply Htext.
    + cbn [try_except]. intros H. inversion H; subst. now apply (Hvec qe).
Qed.

Lemma filterM_in_project (project_name : string) (l : list Hit) :
  (Exists (fun h => Store.project_name (hit_row h) = None) l ->
   filterM (in_project project_name) l = Raise AttributeError)
  /\ (Forall (fun h => Store.project_name (hit_row h) <> None) l ->
      exists kept,
        filterM (in_project project_name) l = Ok kept
        /\ List.length kept <= List.length l
        /\ Forall (fun h => In h l
                            /\ exists p, Store.project_name (hit_row h) = Some p
                                         /\ contains (Text.lower project_name)
                                              (Text.lower p) = true) kept).
Proof.
  induction l as [|h l [IHe IHf]]; split.
  - intros H. inversion H.
  - intros _. exists []. repeat split; [cbn; lia | constructor].
  - intros H. cbn [filterM]. unfold in_project at 1.
    destruct (Store.project_name (hit_row h)) as [p|] eqn:Ep; cbn [bind]; [|reflexivity].
    inversion H as [? ? Hh | ? ? Hl]; subst; [congruence|].
    now rewrite (IHe Hl).
  - intros H. inversion H as [|? ? Hh Hl]; subst.
    destruct (IHf Hl) as (kept & Ek & Hlen & Hall).
    cbn [filterM]. unfold in_project at 1.
    destruct (Store.project_name (hit_row h)) as [p|] eqn:Ep; [|congruence].
    cbn [bind]. rewrite Ek. cbn [bind].
    assert (Hall' : Forall (fun h0 => In h0 (h :: l)
                              /\ exists p0, Store.project_name (hit_row h0) = Some p0
                                            /\ contains (Text.lower project_name)
                                                 (Text.lower p0) = true) kept).
    { eapply Forall_impl; [|exact Hall]. intros x [Hx Hp]. split; [now right | exact Hp]. }
    destruct (contains (Text.lower project_name) (Text.lower p)) eqn:Ec.
    + eexists. split; [reflexivity|]. split; [cbn; lia|].
      constructor; [|exact Hall']. split; [now left|]. now exists p.
    + exists kept. split; [reflexivity|]. split; [cbn; lia | exact Hall'].
Qed.

End SearchFilterFacts.

(** X23.  [search_by_type] always answers, with at most [limit] hits; every
    hit is a row of the table and has the requested object type. *)
Theorem X23_search_by_type_filters_and_limits :
  forall (pg : Search.Pg) (svc : Search.EmbeddingService) (db : Store.Db)
         (self : Search.SemanticSearch) (query object_type : string) (limit : nat),
    exists hits,
      SearchFilters.search_by_type pg svc db self query object_type limit = Ok hits
      /\ List.length hits <= limit
      /\ Forall (fun h => Store.object_type (Search.hit_row h) = object_type
                          /\ In (Search.hit_row h) (Store.rows (Store.table db))) hits.
Proof.
  intros pg svc db self query object_type limit. unfold SearchFilters.search_by_type.
  destruct (search_total pg svc db self query (limit * 2) SearchFilters.default_threshold)
    as [all_results E].
  rewrite E. cbn [bind]. eexists. split; [reflexivity|]. split.
  - rewrite length_firstn. lia.
  - apply search_bounded in E as [_ Hrows].
    apply Forall_forall. intros h Hh.
    assert (Hin : In h (filter (fun r => String.eqb
                                           (Store.object_type (Search.hit_row r))
                                           object_type) all_results)).
    { rewrite <- (firstn_skipn limit). apply in_or_app. now left. }
    apply filter_In in Hin as [Hin Ht]. apply String.eqb_eq in Ht.
    rewrite Forall_forall in Hrows. split; [exact Ht | now apply Hrows].
Qed.

(** X24.  [search_by_project] raises [AttributeError] as soon as one of the
    hits of the underlying search has no project name; when all of them
    have one, it answers with at most [limit] of these hits, each in a
    project whose lower-cased name contains the lower-cased filter. *)
Theorem X24_search_by_project_needs_project_names :
  forall (pg : Search.Pg) (svc : Search.EmbeddingService) (db : Store.Db)
         (self : Search.SemanticSearch) (query project_name : string) (limit : nat)
         (all_results : list Search.Hit),
    Search.search pg svc db self query (limit * 2) SearchFilters.default_threshold
    = Ok all_results ->
    (Exists (fun h => Store.project_name (Search.hit_row h) = None) all_results ->
     SearchFilters.search_by_project pg svc db self query project_name limit
     = Raise AttributeError)
    /\ (Forall (fun h => Store.project_name (Search.hit_row h) <> None) all_results ->
        exists hits,
          SearchFilters.search_by_project pg svc db self query project_name limit
          = Ok hits
          /\ List.length hits <= limit
          /\ Forall (fun h => In h all_results
                              /\ exists p,
                                   Store.project_name (Search.hit_row h) = Some p
                                   /\ SearchFilters.contains (Text.lower project_name)
                                        (Text.lower p) = true) hits).
Proof.
  intros pg svc db self query project_name limit all_results E.
  unfold SearchFilters.search_by_project. rewrite E. cbn [bind].
  destruct (filterM_in_project project_name all_results) as [He Hf]. split.
  - intros H. now rewrite (He H).
  - intros H. destruct (Hf H) as (kept & Ek & _ & Hall). rewrite Ek. cbn [bind].
    eexists. split; [reflexivity|]. split; [rewrite length_firstn; lia|].
    apply Forall_forall. intros h Hh. rewrite Forall_forall in Hall. apply Hall.
    rewrite <- (firstn_skipn limit). apply in_or_app. now left.
Qed.

Lemma X24_witness :
  SearchFilters.search_by_project Examples.pg0 Examples.svc_down
    (Store.mkDb true Examples.casts0 Examples.table_three) (Search.mkSearch false tt)
    "sales" "Finance" 5 = Raise AttributeError.
Proof.
  destruct (Search.search Examples.pg0 Examples.svc_down
              (Store.mkDb true Examples.casts0 Examples.table_three) (Search.mkSearch false tt)
              "sales" (5 * 2) SearchFilters.default_threshold) as [all_results|e] eqn:E.
  - apply (proj1 (X24_search_by_project_needs_project_names _ _ _ _ _ "Finance" _ _ E)).
    revert E. vm_compute. intros E. inversion E; subst.
    first [ apply Exists_cons_hd; reflexivity
          | apply Exists_cons_tl; apply Exists_cons_hd; reflexivity
          | apply Exists_cons_tl; apply Exists_cons_tl; apply Exists_cons_hd; reflexivity ].
  - exfalso. revert E. vm_compute. discriminate.
Defined.

(* ------------------------------------------------------------------ *)
(** ** The requests of a metadata fetch *)
(* ------------------------------------------------------------------ *)

Section FetchFacts.
Import Client.
Import Indexer.
Variable repr : PyVal -> string.
Variable http : Http.
Local Open Scope string_scope.

(** A request of the signed-in client for its own site. *)
Let own (c : TableauClient) (req : Request) : Prop :=
  method req = GET
  /\ _headers c = Ok (headers req)
  /\ exists path, req_url req = api c ("sites/" ++ site_str c ++ "/" ++ path).

Lemma list_loop_own (c : TableauClient) (collection : string)
    (project_filter : option (list string)) (fuel : nat) :
  forall (page : nat) (items : list PyVal) (sent sent' : list Request)
         (r : Result (list PyVal)),
    Forall (own c) sent ->
    list_loop fuel http c collection project_filter page items sent = Some (r, sent') ->
    Forall (own c) sent'.
Proof.
  induction fuel as [|fuel IH]; intros page items sent sent' r Hs; cbn [list_loop];
    [discriminate|].
  destruct (_headers c) as [h|e] eqn:Eh.
  - assert (Hreq : own c (page_request c collection project_filter h page)).
    { repeat split; [now rewrite Eh | now exists collection]. }
    assert (Hs' : Forall (own c)
                    (sent ++ [page_request c collection project_filter h page])).
    { apply Forall_app. split; [exact Hs | now constructor]. }
    destruct (http (page_request c collection project_filter h page)) as [resp|e].
    + destruct (List.length (items_of resp) <? 100)%nat.
      * intros H. inversion H; subst. exact Hs'.
      * intros H. exact (IH _ _ _ _ _ Hs' H).
    + intros H. inversion H; subst. exact Hs'.
  - intros H. inversion H; subst. exact Hs.
Qed.

Lemma list_collection_own (c : TableauClient) (collection : string)
    (project_filter : option (list string)) (fuel : nat)
    (r : Result (list PyVal)) (sent : list Request) :
  list_collection collection fuel http c project_filter = Some (r, sent) ->
  Forall (own c) sent.
Proof.
  unfold list_collection. destruct (negb (has_token c)).
  - intros H. inversion H. constructor.
  - apply list_loop_own. constructor.
Qed.

Lemma list_views_for_workbook_own (c : TableauClient) (workbook_id : string) :
  Forall (own c) (snd (list_views_for_workbook http c workbook_id)).
Proof.
  unfold list_views_for_workbook. destruct (negb (has_token c)); [constructor|].
  unfold get_once. destruct (_headers c) as [h|e] eqn:Eh; cbn [snd]; [|constructor].
  constructor; [|constructor]. repeat split; [now rewrite Eh|].
  now exists ("workbooks/" ++ workbook_id ++ "/views").
Qed.

Lemma views_of_workbook_own (self : EnhancedTableauClient) (workbook : PyVal) :
  Forall (own (rest_client self)) (snd (views_of_workbook repr http self workbook)).
Proof.
  unfold views_of_workbook.
  destruct (Py.get workbook "id" PNone) as [workbook_id|e]; [|constructor].
  destruct (Py.truthy workbook_id); [|constructor].
  pose proof (list_views_for_workbook_own (rest_client self)
                (Py.str_ repr workbook_id)) as H.
  destruct (list_views_for_workbook http (rest_client self) (Py.str_ repr workbook_id)).
  exact H.
Qed.

Lemma all_views_own (self : EnhancedTableauClient) (workbooks : list PyVal) :
  Forall (own (rest_client self)) (snd (all_views repr http self workbooks)).
Proof.
  induction workbooks as [|workbook rest IH]; cbn [all_views]; [constructor|].
  pose proof (views_of_workbook_own self workbook) as H.
  destruct (views_of_workbook repr http self workbook) as [[views|e] sent];
    cbn [snd] in *; [|exact H].
  destruct (all_views repr http self rest) as [r sent']. cbn [snd] in *.
  apply Forall_app. now split.
Qed.

End FetchFacts.

(** X25.  Every request that [fetch_comprehensive_metadata] sends is a GET
    that carries the headers [_headers] gives for the client's token and
    addresses a resource under the client's own site; without a site id it
    raises before anything is sent. *)
Theorem X25_fetch_requests_are_authenticated_and_site_scoped :
  forall (repr : PyVal -> string) (http : Client.Http) (fuel : nat)
         (self : Indexer.EnhancedTableauClient) (object_types : option (list string))
         (r : Result PyVal) (sent : list Client.Request),
    Indexer.fetch_comprehensive_metadata repr http fuel self object_types
    = Some (r, sent) ->
    Forall (fun req =>
              Client.method req = Client.GET
              /\ Client._headers (Indexer.rest_client self) = Ok (Client.headers req)
              /\ exists path,
                   Client.req_url req
                   = Client.api (Indexer.rest_client self)
                       ("sites/" ++ Client.site_str (Indexer.rest_client self)
                          ++ "/" ++ path)) sent
    /\ (Indexer.get_site_id self = None ->
        sent = [] /\ r = Raise (ValueError "No site ID available")).
Proof.
  intros repr http fuel self object_types r sent.
  unfold Indexer.fetch_comprehensive_metadata.
  destruct (Indexer.get_site_id self) as [sid|] eqn:Es; cbn [Store.env_set negb].
  2:{ intros H. inversion H; subst. split; [constructor | now split]. }
  destruct (negb (negb (String.eqb sid ""))).
  { intros H. inversion H; subst. split; [constructor | discriminate]. }
  destruct (if Indexer.selected object_types "workbooks"
            then Client.list_workbooks fuel http (Indexer.rest_client self) None
            else Some (Ok [], [])) as [[[workbooks|e] s1]|] eqn:E1; try discriminate.
  2:{ intros H. inversion H; subst. split; [|discriminate].
      destruct (Indexer.selected object_types "workbooks").
      - exact (list_collection_own http _ _ _ _ _ _ E1).
      - discriminate E1. }
  assert (H1 : Forall (fun req =>
              Client.method req = Client.GET
              /\ Client._headers (Indexer.rest_client self) = Ok (Client.headers req)
              /\ exists path,
                   Client.req_url req
                   = Client.api (Indexer.rest_client self)
                       ("sites/" ++ Client.site_str (Indexer.rest_client self)
                          ++ "/" ++ path)) s1).
  { destruct (Indexer.selected object_types "workbooks").
    - exact (list_collection_own http _ _ _ _ _ _ E1).
    - inversion E1. constructor. }
  destruct (if Indexer.selected object_types "datasources"
            then Client.list_datasources fuel http (Indexer.rest_client self) None
            else Some (Ok [], [])) as [[[datasources|e] s2]|] eqn:E2; try discriminate.
  2:{ intros H. inversion H; subst. split; [|discriminate].
      apply Forall_app. split; [exact H1|].
      destruct (Indexer.selected object_types "datasources").
      - exact (list_collection_own http _ _ _ _ _ _ E2).
      - discriminate E2. }
  assert (H2 : Forall (fun req =>
              Client.method req = Client.GET
              /\ Client._headers (Indexer.rest_client self) = Ok (Client.headers req)
              /\ exists path,
                   Client.req_url req
                   = Client.api (Indexer.rest_client self)
                       ("sites/" ++ Client.site_str (Indexer.rest_client self)
                          ++ "/" ++ path)) s2).
  { destruct (Indexer.selected object_types "datasources").
    - exact (list_collection_own http _ _ _ _ _ _ E2).
    - inversion E2. constructor. }
  pose proof (all_views_own repr http self workbooks) as H3.
  destruct (if Indexer.selected object_types "views"
            then Indexer.all_views repr http self workbooks
            else (Ok [], [])) as [rv s3] eqn:E3.
  intros H. inversion H; subst. split; [|discriminate].
  rewrite !Forall_app. split; [exact H1|]. split; [exact H2|].
  destruct (Indexer.selected object_types "views").
  - rewrite E3 in H3. exact H3.
  - inversion E3. constructor.
Qed.

Lemma X25_witness :
  exists r sent,
    Indexer.fetch_comprehensive_metadata Examples.repr0 Examples.http_one 3
      (Indexer.mkEnhanced
         (Client.mkClient "https://tab" "pat" "secret" "main" (Some "tok") (Some "S1"))
         (Some "tok")) None = Some (r, sent)
    /\ List.length sent = 3
    /\ Forall (fun req => Client.method req = Client.GET) sent.
Proof.
  destruct (Indexer.fetch_comprehensive_metadata Examples.repr0 Examples.http_one 3
              (Indexer.mkEnhanced
                 (Client.mkClient "https://tab" "pat" "secret" "main" (Some "tok")
                    (Some "S1"))
                 (Some "tok")) None) as [[r sent]|] eqn:E.
  - exists r, sent. split; [reflexivity|]. split.
    + revert E. vm_compute. intros E. inversion E. reflexivity.
    + eapply Forall_impl;
        [|exact (proj1 (X25_fetch_requests_are_authenticated_and_site_scoped
                          _ _ _ _ _ _ _ E))].
      intros req H. exact (proj1 H).
  - exfalso. revert E. vm_compute. discriminate.
Defined.

(* ------------------------------------------------------------------ *)
(** ** The two text blob builders *)
(* ------------------------------------------------------------------ *)

Section BlobAgreementFacts.
Import Normalize.

Lemma strip_truthy_falsy_last (parts : list PyVal) (v : PyVal) :
  Py.truthy v = false -> strip_truthy (parts ++ [v]) = strip_truthy parts.
Proof.
  intros Hv. induction parts as [|p ps IH]; cbn [app strip_truthy].
  - now rewrite Hv.
  - rewrite IH. reflexivity.
Qed.

Lemma or_falsy (v d : PyVal) : Py.truthy v = false -> Py.or_ v d = d.
Proof. intros H. unfold Py.or_. now rewrite H. Qed.

End BlobAgreementFacts.

(** X26.  The text blob of the REST path agrees with the one of the
    normaliser: [_create_text_blob] returns, or raises, what [to_text_blob]
    does on the same arguments with an empty context.  Hence the blobs it
    produces hold no character that lower-casing would change and no run
    of whitespace either. *)
Theorem X26_text_blob_builders_agree :
  forall (title description tags fields project owner additional_text : PyVal),
    Py.truthy additional_text = false ->
    Normalize._create_text_blob title description tags fields project owner
    = Normalize.to_text_blob title description tags fields project owner additional_text
    /\ (forall blob,
          Normalize._create_text_blob title description tags fields project owner
          = Ok blob ->
          Text.lowered blob = true /\ Text.no_ws_run blob = true).
Proof.
  intros title description tags fields project owner additional_text Hadd.
  assert (Heq : Normalize._create_text_blob title description tags fields project owner
                = Normalize.to_text_blob title description tags fields project owner
                    additional_text).
  { unfold Normalize._create_text_blob, Normalize.to_text_blob.
    destruct (Py.join " " (Py.or_ tags (PList []))) as [jt|e]; cbn [bind];
      [|reflexivity].
    destruct (Py.join " " (Py.or_ fields (PList []))) as [jf|e]; cbn [bind];
      [|reflexivity].
    unfold Normalize.blob_of_parts.
    rewrite (or_falsy additional_text (PStr "") Hadd).
    change [Py.or_ title (PStr ""); Py.or_ description (PStr ""); PStr jt; PStr jf;
            Py.or_ project (PStr ""); Py.or_ owner (PStr ""); PStr ""]
      with ([Py.or_ title (PStr ""); Py.or_ description (PStr ""); PStr jt; PStr jf;
             Py.or_ project (PStr ""); Py.or_ owner (PStr "")] ++ [PStr ""]).
    now rewrite strip_truthy_falsy_last. }
  split; [exact Heq|].
  intros blob H. rewrite Heq in H.
  exact (to_text_blob_normalized _ _ _ _ _ _ _ _ H).
Qed.

Lemma X26_witness :
  Normalize._create_text_blob (PStr "Sales  KPI") PNone (PList [PStr "Q1"]) (PList [])
    (PStr "Finance") PNone
  = Normalize.to_text_blob (PStr "Sales  KPI") PNone (PList [PStr "Q1"]) (PList [])
      (PStr "Finance") PNone PNone.
Proof.
  refine (proj1 (X26_text_blob_builders_agree _ _ _ _ _ _ PNone _)). reflexivity.
Defined.

(* ------------------------------------------------------------------ *)
(** ** Database statistics *)
(* ------------------------------------------------------------------ *)

Section StatsFacts.
Import Store.

Lemma typed_counts_le (f : Row -> bool) (l : list Row) :
  List.length (filter (fun r => f r && String.eqb (object_type r) "workbook") l)
  + List.length (filter (fun r => f r && String.eqb (object_type r) "datasource") l)
  + List.length (filter (fun r => f r && String.eqb (object_type r) "view") l)
  <= List.length (filter (fun r => f r && true) l).
Proof.
  induction l as [|r l IH]; [cbn; lia|].
  cbn [filter]. destruct (f r); cbn [andb]; [|exact IH].
  destruct (String.eqb (object_type r) "workbook") eqn:E1;
    destruct (String.eqb (object_type r) "datasource") eqn:E2;
    destruct (String.eqb (object_type r) "view") eqn:E3;
    try (apply String.eqb_eq in E1); try (apply String.eqb_eq in E2);
    try (apply String.eqb_eq in E3); try congruence; cbn [List.length]; lia.
Qed.

End StatsFacts.

(** X27.  When the record count of the site can be read,
    [get_database_stats] reports, for each of the three object types, the
    count [get_record_count] gives for the site and that type, and the
    embedding statistics of [get_embedding_stats]; the reported total is
    the sum of the three counts, and it is at most the number of records
    of the site: rows of any other type are not in the total. *)
Theorem X27_database_stats_total_is_typed_rows :
  forall (env : Store.Env) (site : option string) (db : Store.Db) (n : nat),
    Store.get_record_count env site None db = Ok n ->
    let stats := Writer.get_database_stats env site db in
    Writer.s_total stats
    = Writer.s_workbooks stats + Writer.s_datasources stats + Writer.s_views stats
    /\ Writer.s_total stats <= n
    /\ Store.get_record_count env site (Some "workbook") db
       = Ok (Writer.s_workbooks stats)
    /\ Store.get_record_count env site (Some "datasource") db
       = Ok (Writer.s_datasources stats)
    /\ Store.get_record_count env site (Some "view") db
       = Ok (Writer.s_views stats)
    /\ (exists es, Store.get_embedding_stats env db = Ok es
                   /\ Writer.s_embedding_stats stats = Some es).
Proof.
  intros env site db n. unfold Writer.get_database_stats, Store.get_record_count,
    Store.get_embedding_stats, Store.begin.
  destruct (Store.get_engine env); cbn [bind]; [|discriminate].
  destruct (Store.reachable db); cbn [bind]; [|discriminate].
  destruct (Store.optional_param site); cbn [bind]; [|discriminate].
  change (Store.optional_param None) with (@Ok unit tt).
  change (Store.optional_param (Some "workbook")) with (@Ok unit tt).
  change (Store.optional_param (Some "datasource")) with (@Ok unit tt).
  change (Store.optional_param (Some "view")) with (@Ok unit tt).
  cbn [bind].
  intros H. inversion H; subst; clear H. cbn zeta.
  cbn [Writer.s_total Writer.s_workbooks Writer.s_datasources Writer.s_views
       Writer.s_embedding_stats String.eqb Ascii.eqb Bool.eqb].
  split; [reflexivity|]. split; [apply typed_counts_le|].
  split; [reflexivity|]. split; [reflexivity|]. split; [reflexivity|].
  eexists. split; reflexivity.
Qed.

Lemma X27_witness :
  let stats := Writer.get_database_stats Examples.env0 (Some "S1")
                 (Store.mkDb true Examples.casts0 Examples.table_three) in
  Writer.s_workbooks stats = 1 /\ Writer.s_datasources stats = 1
  /\ Writer.s_views stats = 1 /\ Writer.s_total stats <= 3.
Proof.
  destruct (X27_database_stats_total_is_typed_rows Examples.env0 (Some "S1")
              (Store.mkDb true Examples.casts0 Examples.table_three) 3 eq_refl)
    as (_ & Hle & Hw & Hd & Hv & _).
  cbv zeta. repeat split. exact Hle.
Defined.

(* ------------------------------------------------------------------ *)
(** ** The quality report of a run *)
(* ------------------------------------------------------------------ *)

Section ReportFacts.
Import Indexer.

(** The report and the recommendations come together, and only for a
    report that has passed the gate. *)
Let passed (s : IndexStats) : Prop :=
  match quality_results s, recommendations s with
  | None, None => True
  | Some q, Some recs =>
      Quality.overall_quality q = true
      /\ recs = Quality.get_indexing_recommendations q
  | _, _ => False
  end.

Lemma passed_bump (s : IndexStats) (k : string) : passed s -> passed (bump s k).
Proof.
  intros H. unfold bump.
  repeat match goal with |- context [if ?b then _ else _] => destruct b end; exact H.
Qed.

Lemma passed_count_types (records : list Rec) :
  forall s, passed s -> passed (fst (count_types s records)).
Proof.
  induction records as [|r rs IH]; intros s Hs; cbn [count_types]; [exact Hs|].
  destruct (rget_d r "object_type" (PStr "unknown")); try (now apply IH); try exact Hs.
  apply IH. now apply passed_bump.
Qed.

Lemma quality_gate_passed (enable_quality_checks : bool) (site_id : option string)
    (site_name : string) (records : list Rec) (q : Quality.QualityResults) :
  quality_gate enable_quality_checks site_id site_name records = Proceed (Some q) ->
  Quality.overall_quality q = true.
Proof.
  unfold quality_gate. destruct records as [|r rs]; [discriminate|].
  destruct enable_quality_checks; [|discriminate].
  destruct (Quality.run_all_checks _ (r :: rs)) as [[q' chk]|e]; [|discriminate].
  destruct (Quality.overall_quality q') eqn:E; cbn [negb]; [|discriminate].
  intros H. inversion H; subst. exact E.
Qed.

Lemma index_records_passed (env : Store.Env) (clock : nat -> nat)
    (site_id : option string) (site_name : string) (enable_quality_checks : bool)
    (max_objects : option nat) (records : list Rec) (stats : IndexStats)
    (db : Store.Db) :
  passed stats ->
  passed (fst (fst (index_records env clock site_id site_name enable_quality_checks
                      max_objects records stats db))).
Proof.
  intros Hs. unfold index_records. destruct records as [|r0 rs]; [exact Hs|].
  destruct (quality_gate enable_quality_checks site_id site_name
              (apply_max_objects max_objects (r0 :: rs))) as [|quality] eqn:Eg;
    [exact Hs|].
  pose proof (passed_count_types (apply_max_objects max_objects (r0 :: rs)) stats Hs)
    as Hc.
  destruct (count_types stats (apply_max_objects max_objects (r0 :: rs)))
    as [stats1 [u|e]]; cbn [fst] in *; [|exact Hc].
  destruct (Store.upsert_records_batch env clock
              (apply_max_objects max_objects (r0 :: rs)) 50 db) as [[n db']|e];
    [|exact Hc].
  destruct (_ <- Store.get_record_count env site_id None db' ;;
            Store.get_embedding_stats env db'); [|exact Hc].
  destruct quality as [q|]; [|exact Hc].
  split; [exact (quality_gate_passed _ _ _ _ _ Eg) | reflexivity].
Qed.

Lemma index_site_passed (repr : PyVal -> string) (http : Client.Http)
    (env : Store.Env) (clock : nat -> nat) (fuel : nat)
    (server_url pat_name pat_secret site_name : string)
    (project_filter : option string) (object_types : option (list string))
    (enable_quality_checks : bool) (max_objects : option nat) (db db' : Store.Db)
    (stats : IndexStats) (sent : list Client.Request) :
  index_site repr http env clock fuel server_url pat_name pat_secret
    site_name project_filter object_types enable_quality_checks max_objects db
  = Some (stats, db', sent) ->
  passed stats.
Proof.
  unfold index_site.
  destruct (crawl repr http env fuel server_url pat_name pat_secret site_name
              object_types db) as [[[cr c] s0]|]; [|discriminate].
  unfold finish. destruct (signout http c) as [[r' c'] s].
  destruct cr as [| |site records].
  - intros H. inversion H; subst. exact I.
  - intros H. inversion H; subst. exact I.
  - pose proof (index_records_passed env clock site site_name enable_quality_checks
                  max_objects records initial_stats db I) as Hr.
    destruct (index_records env clock site site_name enable_quality_checks
                max_objects records initial_stats db) as [[stats1 db1] r].
    cbn [fst] in Hr. intros H. inversion H; subst; clear H.
    destruct r; exact Hr.
Qed.

Lemma recommendations_when_passed (q : Quality.QualityResults) :
  Quality.overall_quality q = true ->
  ~ In Quality.FixCriticalIssues (Quality.get_indexing_recommendations q).
Proof.
  intros Hq. unfold Quality.get_indexing_recommendations. rewrite Hq. cbn [negb].
  rewrite !in_app_iff.
  repeat match goal with |- context [if ?b then _ else _] => destruct b end;
    cbn [In]; intros H; decompose [or] H; discriminate || contradiction.
Qed.

End ReportFacts.

(** X28.  A quality report comes with the statistics of [index_site] only
    when the gate was passed: its [overall_quality] is true, the
    recommendations are those of [get_indexing_recommendations] for that
    report, and the recommendation to fix critical issues is never among
    them. *)
Theorem X28_reported_quality_has_passed_the_gate :
  forall (repr : PyVal -> string) (http : Client.Http) (env : Store.Env)
         (clock : nat -> nat) (fuel : nat)
         (server_url pat_name pat_secret site_name : string)
         (project_filter : option string) (object_types : option (list string))
         (enable_quality_checks : bool) (max_objects : option nat) (db db' : Store.Db)
         (stats : Indexer.IndexStats) (sent : list Client.Request),
    Indexer.index_site repr http env clock fuel server_url pat_name pat_secret
      site_name project_filter object_types enable_quality_checks max_objects db
    = Some (stats, db', sent) ->
    (forall q, Indexer.quality_results stats = Some q ->
               Quality.overall_quality q = true
               /\ Indexer.recommendations stats
                  = Some (Quality.get_indexing_recommendations q))
    /\ (forall recs, Indexer.recommendations stats = Some recs ->
                     ~ In Quality.FixCriticalIssues recs
                     /\ exists q, Indexer.quality_results stats = Some q).
Proof.
  intros repr http env clock fuel server_url pat_name pat_secret site_name
    project_filter object_types enable_quality_checks max_objects db db' stats sent H.
  apply index_site_passed in H.
  destruct (Indexer.quality_results stats) as [q|];
    destruct (Indexer.recommendations stats) as [recs|]; try contradiction.
  - destruct H as [Hq ->]. split.
    + intros q' Hq'. inversion Hq'; subst. now split.
    + intros recs Hrecs. inversion Hrecs; subst. split.
      * now apply recommendations_when_passed.
      * now exists q.
  - split; intros x Hx; discriminate.
Qed.

Lemma X28_witness :
  exists stats db' sent q,
    Indexer.index_site Examples.repr0 Examples.http_one Examples.env0
      (fun k => k) 3 "https://tab" "pat" "secret" "main" None None true None
      Examples.db_empty
    = Some (stats, db', sent)
    /\ Indexer.quality_results stats = Some q
    /\ Quality.overall_quality q = true.
Proof.
  destruct (Indexer.index_site Examples.repr0 Examples.http_one Examples.env0
              (fun k => k) 3 "https://tab" "pat" "secret" "main" None None true None
              Examples.db_empty) as [[[stats db'] sent]|] eqn:E.
  - destruct (Indexer.quality_results stats) as [q|] eqn:Eq.
    + exists stats, db', sent, q. split; [reflexivity|]. split; [exact Eq|].
      exact (proj1 (proj1 (X28_reported_quality_has_passed_the_gate _ _ _ _ _ _ _ _ _ _
                             _ _ _ _ _ _ _ E) q Eq)).
    + exfalso. revert E Eq. vm_compute. intros E. inversion E; subst. discriminate.
  - exfalso. revert E. vm_compute. discriminate.
Defined.

(* ------------------------------------------------------------------ *)
(** ** Signing out *)
(* ------------------------------------------------------------------ *)

(** X29.  [signout] without a token returns [True] and sends nothing.
    With a token it sends exactly one request, a POST to [auth/signout]
    carrying the token; it returns [True] exactly when the server accepts
    the request, and then the client has lost its token and its site id;
    otherwise the client keeps both. *)
Theorem X29_signout_clears_the_session :
  forall (http : Client.Http) (self self' : Client.TableauClient)
         (r : Result bool) (sent : list Client.Request),
    Client.signout http self = (r, self', sent) ->
    (Client.has_token self = false -> r = Ok true /\ self' = self /\ sent = [])
    /\ (Client.has_token self = true ->
        exists req,
          sent = [req]
          /\ Client.method req = Client.POST
          /\ Client.req_url req = Client.api self "auth/signout"
          /\ Client._headers self = Ok (Client.headers req)
          /\ (r = Ok true <-> is_ok (http req) = true)
          /\ (r = Ok true ->
              Client.token self' = None /\ Client.site_id self' = None)
          /\ (r <> Ok true -> self' = self))
    /\ (r = Ok true -> Client.has_token self' = false)
    /\ Client.server self' = Client.server self.
Proof.
  intros http self self' r sent H.
  pose proof (fun Hr : r = Ok true =>
                signout_drops_token http self self' sent
                  (eq_trans H (f_equal (fun x => (x, self', sent)) Hr))) as Hdrop.
  revert H. unfold Client.signout.
  destruct (Client.has_token self) eqn:Ht; cbn [negb].
  - destruct (Client._headers self) as [h|e] eqn:Eh.
    + set (req := Client.mkRequest Client.POST (Client.api self "auth/signout") h []).
      destruct (http req) as [resp|e] eqn:Er.
      * intros H. inversion H; subst; clear H.
        split; [discriminate|]. split; [|split; [exact Hdrop | reflexivity]].
        intros _. exists req. rewrite Er. cbn [is_ok].
        repeat split; try reflexivity. intros Hc. now contradiction Hc.
      * assert (Hne : forall e0 : exn, @Raise bool e0 <> Ok true) by discriminate.
        destruct e; intros H; inversion H; subst; clear H;
          (split; [discriminate|]); (split; [|split; [exact Hdrop | reflexivity]]);
          intros _; exists req; rewrite Er; cbn [is_ok];
          repeat split; try reflexivity; try discriminate.
    + unfold Client.has_token in Ht. unfold Client._headers in Eh.
      destruct (Client.token self) as [t|]; [|discriminate Ht].
      cbn [Store.env_set] in Ht. destruct (String.eqb t ""); discriminate.
  - intros H. inversion H; subst; clear H.
    split; [now repeat split|]. split; [discriminate|]. split; [exact Hdrop | reflexivity].
Qed.

Lemma X29_witness :
  Client.has_token
    (Client.set_site_id
       (Client.set_token
          (Client.mkClient "https://tab" "pat" "secret" "main" (Some "tok") (Some "S1"))
          None) None) = false.
Proof.
  refine (proj1 (proj2 (proj2
            (X29_signout_clears_the_session Examples.http_one
               (Client.mkClient "https://tab" "pat" "secret" "main" (Some "tok")
                  (Some "S1")) _ (Ok true) _ eq_refl))) eq_refl).
Defined.

(* ------------------------------------------------------------------ *)
(** ** How much a run writes *)
(* ------------------------------------------------------------------ *)

Section GrowthFacts.
Import Store.
Import Indexer.

(** The table [t'] holds the rows of [t] and at most [k] more. *)
Let grown (k : nat) (t t' : Table) : Prop :=
  List.length (rows t) <= List.length (rows t')
  /\ List.length (rows t') <= List.length (rows t) + k.

Lemma UPSERT_SQL_grown (now : nat) (p : Params) (t : Table) :
  grown 1 t (UPSERT_SQL now p t).
Proof.
  unfold grown, UPSERT_SQL.
  destruct (existsb (fun r => key_eqb (key r) (p_key p)) (rows t)); cbn [rows].
  - rewrite length_map. lia.
  - rewrite length_app. cbn [List.length]. lia.
Qed.

Lemma upsert_loop_grown (c : Casts) (now : nat) (records : list Rec) :
  forall (x : Txn) (n : nat),
    grown (List.length records) (current x)
      (current (fst (upsert_loop c now records x n))).
Proof.
  induction records as [|r rs IH]; intros x n; cbn [upsert_loop].
  - split; cbn; lia.
  - unfold conn_execute.
    destruct (statement c (record_data r)) as [p| |consumed].
    + destruct (failed x).
      * destruct (IH x n) as [H1 H2]. split; cbn [List.length]; lia.
      * destruct (IH (mkTxn (UPSERT_SQL now p (current x)) false) (S n)) as [H1 H2].
        destruct (UPSERT_SQL_grown now p (current x)) as [H3 H4].
        cbn [current] in *. split; cbn [List.length]; lia.
    + destruct (IH x n) as [H1 H2]. split; cbn [List.length]; lia.
    + destruct (failed x).
      * destruct (IH x n) as [H1 H2]. split; cbn [List.length]; lia.
      * match goal with
        | |- grown _ _ (current (fst (upsert_loop _ _ _ ?x' _))) =>
            destruct (IH x' n) as [H1 H2]
        end.
        assert (Hrows : forall b : bool,
                  rows (if b then mkTable (rows (current x)) (S (next_id (current x)))
                        else current x) = rows (current x))
          by (intros []; reflexivity).
        cbn [current] in H1, H2. rewrite Hrows in H1, H2.
        split; cbn [List.length]; lia.
Qed.

Lemma upsert_records_grown (env : Env) (now : nat) (records : list Rec)
    (db db' : Db) (n : nat) :
  upsert_records env now records db = Ok (n, db') ->
  grown (List.length records) (table db) (table db').
Proof.
  unfold upsert_records, begin. destruct records as [|r rs].
  - intros H. inversion H; subst. split; cbn; lia.
  - destruct (get_engine env); cbn [bind]; [|discriminate].
    destruct (reachable db); cbn [bind]; [|discriminate].
    pose proof (upsert_loop_grown (casts db) now (r :: rs) (mkTxn (table db) false) 0)
      as H.
    destruct (upsert_loop (casts db) now (r :: rs) (mkTxn (table db) false) 0)
      as [x k].
    intros E. inversion E; subst; clear E. cbn [with_table table fst current] in *.
    unfold commit. destruct (failed x); [|exact H].
    cbn [rows]. split; cbn [rows]; lia.
Qed.

Lemma upsert_batches_grown (env : Env) (clock : nat -> nat)
    (batches : list (list Rec)) :
  forall (k : nat) (db : Db) (n : nat),
    grown (List.length (List.concat batches)) (table db)
      (table (snd (upsert_batches env clock k batches db n))).
Proof.
  induction batches as [|batch rest IH]; intros k db n; cbn [upsert_batches List.concat].
  - split; cbn; lia.
  - rewrite length_app.
    destruct (upsert_records env (clock k) batch db) as [[processed db1]|e] eqn:E.
    + apply upsert_records_grown in E as [H1 H2].
      destruct (IH (S k) db1 (n + processed)) as [H3 H4]. split; lia.
    + destruct (IH (S k) db n) as [H3 H4]. split; lia.
Qed.

Lemma apply_max_objects_length (max_objects : option nat) (records : list Rec) :
  List.length (apply_max_objects max_objects records) <= List.length records
  /\ (forall m, max_objects = Some (S m) ->
                List.length (apply_max_objects max_objects records) <= S m).
Proof.
  unfold apply_max_objects. destruct max_objects as [[|m]|].
  - split; [lia | discriminate].
  - destruct (S m <? List.length records) eqn:E.
    + rewrite length_firstn. split; [lia|]. intros m' H. inversion H; subst. lia.
    + apply Nat.ltb_ge in E. split; [lia|]. intros m' H. inversion H; subst. lia.
  - split; [lia | discriminate].
Qed.

Lemma count_types_total (records : list Rec) :
  forall s, total_processed (fst (count_types s records)) <= total_processed s
                                                            + List.length records.
Proof.
  induction records as [|r rs IH]; intros s; cbn [count_types List.length fst]; [lia|].
  destruct (rget_d r "object_type" (PStr "unknown"));
    try (specialize (IH s); lia); try (cbn [fst]; lia).
  specialize (IH (bump s s0)).
  assert (total_processed (bump s s0) <= S (total_processed s)).
  { unfold bump.
    repeat match goal with |- context [if ?b then _ else _] => destruct b end;
      cbn; lia. }
  lia.
Qed.

Lemma index_records_grown (env : Env) (clock : nat -> nat)
    (site_id : option string) (site_name : string) (enable_quality_checks : bool)
    (max_objects : option nat) (records : list Rec) (db : Db) :
  let result := index_records env clock site_id site_name enable_quality_checks
                  max_objects records initial_stats db in
  grown (total_processed (fst (fst result))) (table db) (table (snd (fst result)))
  /\ (forall m, max_objects = Some (S m) ->
                total_processed (fst (fst result)) <= S m).
Proof.
  cbn zeta. unfold index_records.
  assert (Hsame : forall k, grown k (table db) (table db)) by (intros k; split; lia).
  destruct records as [|r0 rs]; [split; [apply Hsame | intros; cbn; lia]|].
  destruct (apply_max_objects_length max_objects (r0 :: rs)) as [_ Hcap].
  set (records := apply_max_objects max_objects (r0 :: rs)) in *.
  destruct (quality_gate enable_quality_checks site_id site_name records)
    as [|quality]; [split; [apply Hsame | intros; cbn; lia]|].
  pose proof (count_types_total records initial_stats) as Hc.
  unfold initial_stats in Hc at 2. cbn [total_processed] in Hc.
  destruct (count_types initial_stats records) as [stats1 [u|e]]; cbn [fst snd] in *.
  2:{ split; [apply Hsame|]. intros m Hm. specialize (Hcap m Hm). lia. }
  unfold upsert_records_batch.
  pose proof (upsert_batches_grown env clock (chunks 50 records) 1 db 0) as Hg.
  rewrite chunks_concat in Hg by lia.
  destruct records as [|r1 rs1] eqn:Er.
  - cbn [bind]. destruct (_ <- get_record_count env site_id None db ;; _);
      destruct quality; cbn [fst snd]; (split; [apply Hsame|]);
      intros m Hm; cbn; lia.
  - destruct (upsert_batches env clock 1 (chunks 50 (r1 :: rs1)) db 0) as [n db1].
    cbn [snd] in Hg.
    destruct (_ <- get_record_count env site_id None db1 ;; _);
      destruct quality; cbn [fst snd set_quality set_total total_processed];
      (split; [exact Hg|]); intros m Hm; exact (Hcap m Hm).
Qed.

End GrowthFacts.

(** X30.  A run of [index_site] deletes nothing and adds at most as many
    rows as it reports in [total_processed]; with a positive
    [max_objects], [total_processed] is at most that number, so the run
    adds at most [max_objects] rows. *)
Theorem X30_index_site_honours_max_objects :
  forall (repr : PyVal -> string) (http : Client.Http) (env : Store.Env)
         (clock : nat -> nat) (fuel : nat)
         (server_url pat_name pat_secret site_name : string)
         (project_filter : option string) (object_types : option (list string))
         (enable_quality_checks : bool) (max_objects : option nat) (db db' : Store.Db)
         (stats : Indexer.IndexStats) (sent : list Client.Request),
    Indexer.index_site repr http env clock fuel server_url pat_name pat_secret
      site_name project_filter object_types enable_quality_checks max_objects db
    = Some (stats, db', sent) ->
    List.length (Store.rows (Store.table db))
    <= List.length (Store.rows (Store.table db'))
    /\ List.length (Store.rows (Store.table db'))
       <= List.length (Store.rows (Store.table db)) + Indexer.total_processed stats
    /\ (forall m, max_objects = Some (S m) ->
                  Indexer.total_processed stats <= S m
                  /\ List.length (Store.rows (Store.table db'))
                     <= List.length (Store.rows (Store.table db)) + S m).
Proof.
  intros repr http env clock fuel server_url pat_name pat_secret site_name
    project_filter object_types enable_quality_checks max_objects db db' stats sent.
  unfold Indexer.index_site.
  destruct (Indexer.crawl repr http env fuel server_url pat_name pat_secret site_name
              object_types db) as [[[cr c] s0]|]; [|discriminate].
  unfold Indexer.finish. destruct (Indexer.signout http c) as [[r' c'] s].
  destruct cr as [| |site records].
  - intros H. inversion H; subst. cbn. repeat split; lia.
  - intros H. inversion H; subst. cbn. repeat split; lia.
  - pose proof (index_records_grown env clock site site_name enable_quality_checks
                  max_objects records db) as Hg. cbn zeta in Hg.
    destruct (Indexer.index_records env clock site site_name enable_quality_checks
                max_objects records Indexer.initial_stats db) as [[stats1 db1] r].
    cbn [fst snd] in Hg. destruct Hg as [[H1 H2] Hcap].
    intros H. inversion H; subst; clear H.
    assert (Ht : Indexer.total_processed
                   (match r with Ok _ => stats1 | Raise _ => Indexer.add_error stats1 end)
                 = Indexer.total_processed stats1) by (destruct r; reflexivity).
    rewrite Ht. split; [exact H1|]. split; [exact H2|].
    intros m Hm. specialize (Hcap m Hm). split; lia.
Qed.

Lemma X30_witness :
  exists stats db' sent,
    Indexer.index_site Examples.repr0 Examples.http_one Examples.env0
      (fun k => k) 3 "https://tab" "pat" "secret" "main" None None true (Some 1)
      Examples.db_empty
    = Some (stats, db', sent)
    /\ Indexer.total_processed stats <= 1.
Proof.
  destruct (Indexer.index_site Examples.repr0 Examples.http_one Examples.env0
              (fun k => k) 3 "https://tab" "pat" "secret" "main" None None true (Some 1)
              Examples.db_empty) as [[[stats db'] sent]|] eqn:E.
  - exists stats, db', sent. split; [reflexivity|].
    exact (proj1 (proj2 (proj2 (X30_index_site_honours_max_objects _ _ _ _ _ _ _ _ _ _
                                  _ _ _ _ _ _ _ E)) 0 eq_refl)).
  - exfalso. revert E. vm_compute. discriminate.
Defined.
